(** * pgsql_reconnect_helper: renewable psycopg2 connections and cursors

    A shallow embedding of [src/dbs/pgsql_reconnect_helper.py].

    The module defines a mixin [BaseRenew] and two handle classes,
    [RenewCursor(_base_cursor, BaseRenew)] and
    [RetryConnection(_base_connection, BaseRenew)].  What the handles do
    depends on Python's object model (method resolution order, attribute
    lookup through [__getattribute__], properties, [super]) and on the
    names bound in the module, so those are modelled explicitly:

    - classes, their bases, and the linearisation that gives the MRO;
    - class dictionaries and [object.__getattribute__]-style lookup;
    - a heap of objects addressed by position, a trace of the calls that
      reach the external driver, and a state-and-exception monad;
    - every method of the module as a definition that follows the source
      line by line, tied together by a depth-bounded [call]. *)

From Stdlib Require Import String List Bool Arith ZArith Lia.
From stdpp Require Import base option list.
Import ListNotations.
Set Warnings "-register-all".
Local Open Scope string_scope.
Local Open Scope list_scope.

(** ** Classes and method resolution order *)

Module Py.

(** The classes that appear in the module.  [c_base_cursor] and
    [c_base_connection] are psycopg2's [cursor] and [connection] types
    (imported at lines 11-12); [c_builtin] stands for the type of any value
    that is not an instance of one of the others ([None], strings, ...). *)
Inductive pyclass :=
| c_object
| c_builtin
| c_base_cursor
| c_base_connection
| c_BaseRenew
| c_RenewCursor
| c_RetryConnection.

Definition class_eqb (c d : pyclass) : bool :=
  match c, d with
  | c_object, c_object | c_builtin, c_builtin
  | c_base_cursor, c_base_cursor | c_base_connection, c_base_connection
  | c_BaseRenew, c_BaseRenew | c_RenewCursor, c_RenewCursor
  | c_RetryConnection, c_RetryConnection => true
  | _, _ => false
  end.

(** Base classes, in the order of the [class] statements (lines 15, 143,
    206). *)
Definition bases (c : pyclass) : list pyclass :=
  match c with
  | c_object => []
  | c_builtin => [c_object]
  | c_base_cursor => [c_object]
  | c_base_connection => [c_object]
  | c_BaseRenew => [c_object]
  | c_RenewCursor => [c_base_cursor; c_BaseRenew]
  | c_RetryConnection => [c_base_connection; c_BaseRenew]
  end.

(** The linearisation Python uses for the MRO of new-style classes: the
    class itself, then the merge of its bases' linearisations and the list
    of bases. *)
Definition in_some_tail (c : pyclass) (seqs : list (list pyclass)) : bool :=
  existsb (fun s => existsb (class_eqb c) (tl s)) seqs.

Definition good_head (seqs : list (list pyclass)) : option pyclass :=
  find (fun c => negb (in_some_tail c seqs))
       (flat_map (fun s => match s with [] => [] | c :: _ => [c] end) seqs).

Definition strike (c : pyclass) (seqs : list (list pyclass)) : list (list pyclass) :=
  map (fun s => match s with
                | d :: t => if class_eqb c d then t else s
                | [] => []
                end) seqs.

Definition nonempty (s : list pyclass) : bool :=
  match s with [] => false | _ => true end.

Fixpoint c3_merge (fuel : nat) (seqs : list (list pyclass)) : option (list pyclass) :=
  match List.filter nonempty seqs with
  | [] => Some []
  | live =>
      match fuel with
      | O => None
      | S fuel' =>
          match good_head live with
          | None => None
          | Some c =>
              match c3_merge fuel' (strike c live) with
              | Some rest => Some (c :: rest)
              | None => None
              end
          end
      end
  end.

Fixpoint all_some {A} (l : list (option A)) : option (list A) :=
  match l with
  | [] => Some []
  | Some x :: t => match all_some t with Some r => Some (x :: r) | None => None end
  | None :: _ => None
  end.

Fixpoint linearise (fuel : nat) (c : pyclass) : option (list pyclass) :=
  match fuel with
  | O => None
  | S fuel' =>
      match all_some (map (linearise fuel') (bases c)) with
      | Some ls =>
          match c3_merge 16 (ls ++ [bases c]) with
          | Some m => Some (c :: m)
          | None => None
          end
      | None => None
      end
  end.

Definition mro (c : pyclass) : list pyclass :=
  match linearise 4 c with Some l => l | None => [] end.

(** [issubclass(c, d)]. *)
Definition issubclass (c d : pyclass) : bool := existsb (class_eqb d) (mro c).

(** The part of an MRO that [super(after, self)] searches. *)
Fixpoint mro_after (after : pyclass) (l : list pyclass) : list pyclass :=
  match l with
  | [] => []
  | c :: t => if class_eqb c after then t else mro_after after t
  end.

(** ** Values *)

Abbreviation addr := nat.

(** Python values as far as the module handles them.  A list is modelled
    like a tuple ([VTuple]); [VMethod self owner name] is the bound method
    obtained by reading [name] on [self] when the function found is the one
    defined in class [owner]. *)
Inductive value :=
| VNone
| VBool (b : bool)
| VInt (z : Z)
| VStr (s : string)
| VClass (c : pyclass)
| VRef (a : addr)
| VMethod (self : addr) (owner : pyclass) (name : string)
| VTuple (l : list value)
| VDict (d : list (string * value)).

Definition kwargs_t := list (string * value).

(** Truth value of an object.  None of the module's classes, nor the
    driver's, defines [__bool__] or [__len__], so instances are true. *)
Definition truthy (v : value) : bool :=
  match v with
  | VNone => false
  | VBool b => b
  | VInt z => negb (Z.eqb z 0)
  | VStr s => negb (String.eqb s "")
  | VClass _ | VRef _ | VMethod _ _ _ => true
  | VTuple l => match l with [] => false | _ => true end
  | VDict d => match d with [] => false | _ => true end
  end.

(** [a or b]. *)
Definition py_or (a b : value) : value := if truthy a then a else b.

(** [key in seq] for a sequence of strings. *)
Definition py_contains (seq : value) (key : string) : bool :=
  match seq with
  | VTuple l => existsb (fun v => match v with VStr s => String.eqb s key | _ => false end) l
  | _ => false
  end.

Fixpoint dict_get (d : kwargs_t) (k : string) : option value :=
  match d with
  | [] => None
  | (k', v) :: t => if String.eqb k' k then Some v else dict_get t k
  end.

Fixpoint dict_set (d : kwargs_t) (k : string) (v : value) : kwargs_t :=
  match d with
  | [] => [(k, v)]
  | (k', v') :: t => if String.eqb k' k then (k, v) :: t else (k', v') :: dict_set t k v
  end.

(** [d.setdefault(k, v)], as a new dictionary. *)
Definition setdefault (d : kwargs_t) (k : string) (v : value) : kwargs_t :=
  match dict_get d k with
  | Some _ => d
  | None => d ++ [(k, v)]
  end.

(** ** Class dictionaries *)

(** What a name is bound to in a class body. *)
Inductive class_attr :=
| CMethod                (* a function; reading it on an instance binds it *)
| CMember                (* a data descriptor of a driver type (C level) *)
| CProperty              (* a [property] with getter and setter *)
| CValue (v : value).    (* a plain class attribute *)

(** The names each class defines itself.

    [BaseRenew], [RenewCursor] and [RetryConnection] are read off the
    source; [__execute] and [__cursor] appear under their mangled names.

    The two driver types are not part of the repository.  Their entries are
    the capabilities section 6 of the specification lists for the driver
    (connection: [closed], [cursor], [close]; cursor: [closed],
    [connection], [execute], [fetchone], [fetchall], [close]) together
    with [cursor_factory], which line 225 reads on a connection, and the
    constructors the source calls at lines 153 and 211. *)
Definition class_dict (c : pyclass) : list (string * class_attr) :=
  match c with
  | c_object =>
      [("__init__", CMethod); ("__getattribute__", CMethod); ("__setattr__", CMethod)]
  | c_builtin => []
  | c_base_cursor =>
      [("__init__", CMethod); ("closed", CMember); ("connection", CMember);
       ("execute", CMethod); ("fetchone", CMethod); ("fetchall", CMethod);
       ("close", CMethod)]
  | c_base_connection =>
      [("__init__", CMethod); ("closed", CMember); ("cursor_factory", CMember);
       ("cursor", CMethod); ("close", CMethod)]
  | c_BaseRenew =>
      [("__fix_attrs__", CValue (VTuple []));
       ("_sub_obj", CValue VNone);
       ("_args", CValue (VTuple []));
       ("_kwargs", CValue (VDict []));
       ("__init__", CMethod);
       ("args", CProperty); ("kwargs", CProperty); ("sub", CProperty);
       ("__getattribute__", CMethod);
       ("solve_conn_curs", CMethod);
       ("close", CMethod)]
  | c_RenewCursor =>
      [("__fix_attrs__",
        CValue (VTuple [VStr "closed"; VStr "connection"; VStr "fetchall";
                        VStr "fetchone"; VStr "fetchall"]));
       ("__init__", CMethod);
       ("execute", CMethod);
       ("_RenewCursor__execute", CMethod)]
  | c_RetryConnection =>
      [("__fix_attrs__", CValue (VTuple [VStr "closed"; VStr "connection"]));
       ("__init__", CMethod);
       ("cursor", CMethod);
       ("_RetryConnection__cursor", CMethod)]
  end.

Fixpoint assoc {A} (l : list (string * A)) (k : string) : option A :=
  match l with
  | [] => None
  | (k', v) :: t => if String.eqb k' k then Some v else assoc t k
  end.

(** First class of a list of classes that defines [name], with the
    definition found. *)
Fixpoint lookup_in (l : list pyclass) (name : string) : option (pyclass * class_attr) :=
  match l with
  | [] => None
  | c :: t =>
      match assoc (class_dict c) name with
      | Some d => Some (c, d)
      | None => lookup_in t name
      end
  end.

(** Lookup of [name] on the type of an instance of [c]. *)
Definition type_lookup (c : pyclass) (name : string) : option (pyclass * class_attr) :=
  lookup_in (mro c) name.

(** Lookup that [super(after, self)] performs when [self] is an instance
    of [c]. *)
Definition super_lookup (after c : pyclass) (name : string) : option (pyclass * class_attr) :=
  lookup_in (mro_after after (mro c)) name.

(** Instances of classes written in Python carry a [__dict__]; instances
    of [object] and of the driver's C types do not. *)
Definition has_dict (c : pyclass) : bool :=
  match c with
  | c_BaseRenew | c_RenewCursor | c_RetryConnection => true
  | _ => false
  end.

End Py.
Import Py.

(** ** Objects, state, exceptions *)

Module Mem.

(** An object: its class, the state the driver keeps in its C part
    ([closed], and [connection] for a cursor or [cursor_factory] for a
    connection), and its instance dictionary. *)
Record obj := {
  ob_class : pyclass;
  ob_closed : bool;
  ob_connection : value;
  ob_cursor_factory : value;
  ob_dict : list (string * value)
}.

Definition blank (c : pyclass) : obj :=
  {| ob_class := c; ob_closed := false; ob_connection := VNone;
     ob_cursor_factory := VNone; ob_dict := [] |}.

Definition with_dict (o : obj) (d : list (string * value)) : obj :=
  {| ob_class := ob_class o; ob_closed := ob_closed o;
     ob_connection := ob_connection o;
     ob_cursor_factory := ob_cursor_factory o; ob_dict := d |}.

Definition with_closed (o : obj) (b : bool) : obj :=
  {| ob_class := ob_class o; ob_closed := b;
     ob_connection := ob_connection o;
     ob_cursor_factory := ob_cursor_factory o; ob_dict := ob_dict o |}.

Definition with_connection (o : obj) (v : value) : obj :=
  {| ob_class := ob_class o; ob_closed := ob_closed o;
     ob_connection := v;
     ob_cursor_factory := ob_cursor_factory o; ob_dict := ob_dict o |}.

Definition with_cursor_factory (o : obj) (v : value) : obj :=
  {| ob_class := ob_class o; ob_closed := ob_closed o;
     ob_connection := ob_connection o;
     ob_cursor_factory := v; ob_dict := ob_dict o |}.

(** Calls that reach the driver, in the order they happen. *)
Inductive event :=
| EvConnect (self : addr) (args : list value) (kwargs : kwargs_t)
| EvCursor (conn : addr) (args : list value) (kwargs : kwargs_t)
| EvExecute (cur : addr) (args : list value) (kwargs : kwargs_t)
| EvClose (self : addr).

Record state := {
  heap : list obj;
  trace : list event
}.

Definition set_heap (st : state) (h : list obj) : state :=
  {| heap := h; trace := trace st |}.

Definition log (st : state) (e : event) : state :=
  {| heap := heap st; trace := trace st ++ [e] |}.

Inductive exn_class :=
| InterfaceError         (* psycopg2.InterfaceError, line 10 *)
| DriverError            (* any other error of the driver *)
| NameError
| AttributeError
| TypeError.

(** An exception object: class, message, and a tag for its identity. *)
Record exn := {
  e_class : exn_class;
  e_msg : string;
  e_id : nat
}.

Definition name_error (name : string) : exn :=
  {| e_class := NameError; e_msg := name; e_id := 0 |}.
Definition attribute_error (name : string) : exn :=
  {| e_class := AttributeError; e_msg := name; e_id := 0 |}.
Definition type_error (what : string) : exn :=
  {| e_class := TypeError; e_msg := what; e_id := 0 |}.

(** Result of running a piece of code: a value, an exception, or the
    call depth being used up (Python's recursion limit). *)
Inductive outcome (A : Type) :=
| Ret (a : A)
| Raise (e : exn)
| TooDeep.
Arguments Ret {A} a.
Arguments Raise {A} e.
Arguments TooDeep {A}.

(** State and exceptions; effects that happened before an exception
    stay. *)
Definition M (A : Type) := state -> outcome A * state.

Definition ret {A} (a : A) : M A := fun st => (Ret a, st).
Definition raise {A} (e : exn) : M A := fun st => (Raise e, st).
Definition bind {A B} (m : M A) (k : A -> M B) : M B :=
  fun st =>
    match m st with
    | (Ret a, st') => k a st'
    | (Raise e, st') => (Raise e, st')
    | (TooDeep, st') => (TooDeep, st')
    end.
Definition lift {A} (f : state -> outcome A) : M A := fun st => (f st, st).

(** [try: body / except cls as e: handler e]. *)
Definition try_except {A} (body : M A) (cls : exn_class -> bool) (handler : exn -> M A) : M A :=
  fun st =>
    match body st with
    | (Raise e, st') => if cls (e_class e) then handler e st' else (Raise e, st')
    | r => r
    end.

Definition is_InterfaceError (c : exn_class) : bool :=
  match c with InterfaceError => true | _ => false end.

End Mem.
Import Mem.

Declare Scope py_scope.
Delimit Scope py_scope with py.
Notation "'let!' x ':=' m 'in' k" := (bind m (fun x => k))
  (at level 10, x name, m at level 100, k at level 200) : py_scope.
Notation "'do!' m 'in' k" := (bind m (fun _ => k))
  (at level 10, m at level 100, k at level 200) : py_scope.
Local Open Scope py_scope.

(** ** Reading and writing attributes *)

Module Attr.

(** Whether the driver's connection behind the cursor [o] is closed. *)
Definition connection_closed (h : list obj) (o : obj) : bool :=
  match ob_connection o with
  | VRef c =>
      match h !! c with
      | Some oc => issubclass (ob_class oc) c_base_connection && ob_closed oc
      | None => false
      end
  | _ => false
  end.

(** Value of a driver-level member in heap [h].  A cursor of the driver
    reports [closed] as soon as it or its connection is closed; a
    connection reports its own flag. *)
Definition member_value (h : list obj) (o : obj) (key : string) : value :=
  if String.eqb key "closed" then
    VBool (if issubclass (ob_class o) c_base_cursor
           then ob_closed o || connection_closed h o
           else ob_closed o)
  else if String.eqb key "connection" then ob_connection o
  else ob_cursor_factory o.

(** [object.__getattribute__(self, key)]: data descriptors of the type
    first, then the instance dictionary, then other class attributes.
    [props] runs the getter of a property. *)
Definition object_getattribute (props : string -> outcome value)
    (h : list obj) (a : addr) (o : obj) (key : string) : outcome value :=
  if String.eqb key "__class__" then Ret (VClass (ob_class o))
  else
    match type_lookup (ob_class o) key with
    | Some (_, CMember) => Ret (member_value h o key)
    | Some (_, CProperty) => props key
    | Some (owner, CMethod) =>
        match dict_get (ob_dict o) key with
        | Some v => Ret v
        | None => Ret (VMethod a owner key)
        end
    | Some (_, CValue v) =>
        match dict_get (ob_dict o) key with
        | Some v' => Ret v'
        | None => Ret v
        end
    | None =>
        match dict_get (ob_dict o) key with
        | Some v => Ret v
        | None => Raise (attribute_error key)
        end
    end.

(** Getters of the properties [args], [kwargs] and [sub] (lines 37-86);
    [via_super] is [super(self.__class__, self).__getattribute__]. *)
Definition property_get (via_super : string -> outcome value) (key : string) : outcome value :=
  if String.eqb key "args" then via_super "_args"
  else if String.eqb key "kwargs" then via_super "_kwargs"
  else
    match via_super "_sub_obj" with
    | Ret v => Ret (py_or v VNone)
    | r => r
    end.

(** One frame of reading attribute [key] of the object at [a]; [deeper]
    reads attributes one frame down.
    For a class with [BaseRenew] in its MRO this is
    [BaseRenew.__getattribute__] (lines 98-112); the driver types define
    no [__getattribute__] of their own, so for every other class it is
    [object.__getattribute__].  Line 110 and line 111 both read
    [self.sub]; reading has no effect, so the value is read once. *)
Definition getattribute_frame (deeper : addr -> string -> outcome value)
    (h : list obj) (a : addr) (key : string) : outcome value :=
  match h !! a with
  | None => Raise (attribute_error key)
  | Some o =>
      let via_super name :=
        match super_lookup (ob_class o) (ob_class o) "__getattribute__" with
        | Some (c_BaseRenew, _) => deeper a name
        | _ => object_getattribute (fun k => Raise (attribute_error k)) h a o name
        end in
      let base_get name := object_getattribute (property_get via_super) h a o name in
      match type_lookup (ob_class o) "__getattribute__" with
      | Some (c_BaseRenew, _) =>
          match base_get "__fix_attrs__" with
          | Ret fix_attrs =>
              if py_contains fix_attrs key then
                match deeper a "sub" with
                | Ret sub =>
                    if truthy sub then
                      match sub with
                      | VRef s => deeper s key
                      | _ =>
                          if String.eqb key "__class__" then Ret (VClass c_builtin)
                          else Raise (attribute_error key)
                      end
                    else base_get key
                | r => r
                end
              else base_get key
          | r => r
          end
      | _ => base_get key
      end
  end.

(** Reading attribute [key] of the object at [a] with [n] frames of call
    depth left. *)
Fixpoint getattribute (n : nat) (h : list obj) (a : addr) (key : string) : outcome value :=
  match n with
  | O => TooDeep
  | S n' => getattribute_frame (getattribute n' h) h a key
  end.

(** [getattr(v, key)] for any value; values that are not instances of a
    modelled class only answer [__class__]. *)
Definition getattr_value (n : nat) (h : list obj) (v : value) (key : string) : outcome value :=
  match v with
  | VRef a => getattribute n h a key
  | _ =>
      if String.eqb key "__class__" then Ret (VClass c_builtin)
      else Raise (attribute_error key)
  end.

Definition getattr (n : nat) (v : value) (key : string) : M value :=
  lift (fun st => getattr_value n (heap st) v key).

(** Storing into the instance dictionary. *)
Definition store (a : addr) (o : obj) (key : string) (v : value) : M unit :=
  fun st =>
    if has_dict (ob_class o)
    then (Ret tt, set_heap st (<[a := with_dict o (dict_set (ob_dict o) key v)]> (heap st)))
    else (Raise (attribute_error key), st).

Definition private_name (key : string) : string :=
  if String.eqb key "args" then "_args"
  else if String.eqb key "kwargs" then "_kwargs"
  else "_sub_obj".

(** [setattr(self, key, v)] with [object.__setattr__]: a property runs its
    setter, which stores under the private name (lines 47-55, 67-75,
    88-96); the driver's members [closed] and [connection] are read-only. *)
Definition setattr (a : addr) (key : string) (v : value) : M unit :=
  fun st =>
    match heap st !! a with
    | None => (Raise (attribute_error key), st)
    | Some o =>
        match type_lookup (ob_class o) key with
        | Some (_, CProperty) => store a o (private_name key) v st
        | Some (_, CMember) =>
            if String.eqb key "cursor_factory"
            then (Ret tt, set_heap st (<[a := with_cursor_factory o v]> (heap st)))
            else (Raise (attribute_error key), st)
        | _ => store a o key v st
        end
    end.

Definition setattr_value (target : value) (key : string) (v : value) : M unit :=
  match target with
  | VRef a => setattr a key v
  | _ => raise (attribute_error key)
  end.

End Attr.
Import Attr.

(** ** The module *)

Module Helper.

(** Names bound at module level: the four imports of lines 9-12 and the
    three classes.  There is no [import logging]. *)
Definition module_globals : list string :=
  ["cursor"; "InterfaceError"; "_base_cursor"; "_base_connection";
   "BaseRenew"; "RenewCursor"; "RetryConnection"].

(** Evaluating a global name that is not a builtin. *)
Definition load_global (name : string) : M unit :=
  if existsb (String.eqb name) module_globals then ret tt
  else raise (name_error name).

(** [logging.debug(...)] and [logging.warning(...)]: the callee
    [logging.debug] is evaluated before the argument, and starts with the
    global name [logging]. *)
Definition logging_debug : M unit := load_global "logging".
Definition logging_warning : M unit := load_global "logging".

(** The driver is outside the repository.  Its constructors and methods
    are modelled after section 6 of the specification; whether a driver
    call fails, and with which error, is left to these functions of the
    current state and the call.  [session_lost] says whether a failing
    [execute] found the session gone, in which case the driver marks the
    cursor's connection closed before it raises. *)
Record driver := {
  connect_fails : state -> addr -> list value -> kwargs_t -> option exn;
  cursor_fails : state -> addr -> list value -> kwargs_t -> option exn;
  execute_fails : state -> addr -> list value -> kwargs_t -> option exn;
  session_lost : state -> addr -> list value -> kwargs_t -> bool;
  close_fails : state -> addr -> option exn
}.

(** Binding the arguments of a call to the parameter names of a driver
    function, as the driver's argument parser does: more positional
    arguments than parameters, a parameter given both by position and by
    keyword, or a keyword that is no parameter, is refused. *)
Fixpoint bind_positional (params : list string) (args : list value) {struct args}
    : option (list (string * value)) :=
  match args with
  | [] => Some []
  | v :: args' =>
      match params with
      | p :: params' =>
          match bind_positional params' args' with
          | Some b => Some ((p, v) :: b)
          | None => None
          end
      | [] => None
      end
  end.

Definition bind_args (params : list string) (args : list value) (kwargs : kwargs_t)
    : option (list (string * value)) :=
  match bind_positional params args with
  | None => None
  | Some b =>
      if forallb (fun kv => existsb (String.eqb (fst kv)) params
                            && negb (existsb (fun pv => String.eqb (fst pv) (fst kv)) b))
                 kwargs
      then Some (b ++ kwargs)
      else None
  end.

(** A bound parameter, or [None] when it was not given. *)
Definition bound (b : list (string * value)) (name : string) : value :=
  match dict_get b name with
  | Some v => v
  | None => VNone
  end.

(** Parameters of [connection.cursor] and of [cursor.__init__]. *)
Definition cursor_params : list string :=
  ["name"; "cursor_factory"; "withhold"; "scrollable"].
Definition cursor_init_params : list string := ["conn"; "name"].

(** The connection of the cursor at [self] marked closed. *)
Definition drop_session (st : state) (self : addr) : state :=
  match heap st !! self with
  | Some o =>
      match ob_connection o with
      | VRef c =>
          match heap st !! c with
          | Some oc => set_heap st (<[c := with_closed oc true]> (heap st))
          | None => st
          end
      | _ => st
      end
  | None => st
  end.

(** Unpacking a value as positional or as keyword arguments of a call. *)
Definition unpack_args (v : value) : M (list value) :=
  match v with
  | VTuple l => ret l
  | _ => raise (type_error "argument after * must be an iterable")
  end.

Definition unpack_kwargs (v : value) : M kwargs_t :=
  match v with
  | VDict d => ret d
  | _ => raise (type_error "argument after ** must be a mapping")
  end.

(** [issubclass(v, c)] for a value [v] that should be a class. *)
Definition issubclass_value (v : value) (c : pyclass) : bool :=
  match v with
  | VClass k => issubclass k c
  | _ => false
  end.

(** [super(after, self).name]. *)
Definition super_getattr (after : pyclass) (self : addr) (name : string) : M value :=
  lift (fun st =>
    match heap st !! self with
    | None => Raise (attribute_error name)
    | Some o =>
        match super_lookup after (ob_class o) name with
        | Some (owner, CMethod) => Ret (VMethod self owner name)
        | Some (_, CMember) => Ret (member_value (heap st) o name)
        | Some (_, CValue v) => Ret v
        | Some (_, CProperty) => Raise (attribute_error name)
        | None => Raise (attribute_error name)
        end
    end).

Section Methods.

Variable drv : driver.
(** Call depth left for this frame, and calls into deeper frames. *)
Variable n : nat.
Variable call : pyclass -> string -> addr -> list value -> kwargs_t -> M value.

(** Calling the class [c] with the given arguments: a new object, then
    [__init__]. *)
Definition instantiate (c : pyclass) (args : list value) (kwargs : kwargs_t) : M value :=
  fun st =>
    let a := length (heap st) in
    let st1 := set_heap st (heap st ++ [blank c]) in
    match type_lookup c "__init__" with
    | Some (owner, _) =>
        (do! call owner "__init__" a args kwargs in ret (VRef a)) st1
    | None => (Ret (VRef a), st1)
    end.

(** Calling the value [f] with the given arguments. *)
Definition call_value (f : value) (args : list value) (kwargs : kwargs_t) : M value :=
  match f with
  | VMethod self owner name => call owner name self args kwargs
  | VClass c => instantiate c args kwargs
  | _ => raise (type_error "object is not callable")
  end.

(** *** The driver's types *)

(** [connection.__init__]: connects. *)
Definition base_connection_init (self : addr) (args : list value) (kwargs : kwargs_t) : M value :=
  fun st =>
    let st1 := log st (EvConnect self args kwargs) in
    match connect_fails drv st self args kwargs with
    | Some e => (Raise e, st1)
    | None => (Ret VNone, st1)
    end.

(** [cursor.__init__(conn, name=None)]: binds the cursor to [conn],
    which must be a connection. *)
Definition base_cursor_init (self : addr) (args : list value) (kwargs : kwargs_t) : M value :=
  fun st =>
    match bind_args cursor_init_params args kwargs with
    | None => (Raise (type_error "cursor.__init__"), st)
    | Some b =>
        match bound b "conn" with
        | VRef c =>
            match heap st !! c, heap st !! self with
            | Some oc, Some o =>
                if issubclass (ob_class oc) c_base_connection
                then (Ret VNone, set_heap st (<[self := with_connection o (VRef c)]> (heap st)))
                else (Raise (type_error "argument 1 must be a connection"), st)
            | _, _ => (Raise (type_error "argument 1 must be a connection"), st)
            end
        | _ => (Raise (type_error "argument 1 must be a connection"), st)
        end
    end.

(** [connection.cursor(name=None, cursor_factory=None, ...)]: calls the
    factory (the argument, else the connection's [cursor_factory], else
    the driver's cursor type) with the connection and the name, and
    insists on a cursor. *)
Definition base_connection_cursor (self : addr) (args : list value) (kwargs : kwargs_t) : M value :=
  fun st =>
    let st1 := log st (EvCursor self args kwargs) in
    match bind_args cursor_params args kwargs with
    | None => (Raise (type_error "cursor"), st1)
    | Some b =>
        match cursor_fails drv st self args kwargs with
        | Some e => (Raise e, st1)
        | None =>
            match heap st !! self with
            | None => (Raise (type_error "no connection"), st1)
            | Some o =>
                let factory :=
                  match bound b "cursor_factory" with
                  | VNone =>
                      match ob_cursor_factory o with
                      | VNone => VClass c_base_cursor
                      | f => f
                      end
                  | f => f
                  end in
                (let! cur := call_value factory [VRef self; bound b "name"] [] in
                 let! k := getattr n cur "__class__" in
                 if issubclass_value k c_base_cursor then ret cur
                 else raise (type_error "cursor factory must be subclass of cursor")) st1
            end
        end
    end.

(** [cursor.execute(...)]. *)
Definition base_cursor_execute (self : addr) (args : list value) (kwargs : kwargs_t) : M value :=
  fun st =>
    let st1 := log st (EvExecute self args kwargs) in
    match execute_fails drv st self args kwargs with
    | Some e =>
        (Raise e, if session_lost drv st self args kwargs then drop_session st1 self else st1)
    | None => (Ret VNone, st1)
    end.

(** [close()] of a driver cursor or connection: marks it closed. *)
Definition base_close (self : addr) : M value :=
  fun st =>
    let st1 := log st (EvClose self) in
    match close_fails drv st self with
    | Some e => (Raise e, st1)
    | None =>
        match heap st !! self with
        | Some o => (Ret VNone, set_heap st1 (<[self := with_closed o true]> (heap st)))
        | None => (Ret VNone, st1)
        end
    end.

(** *** BaseRenew (lines 15-141) *)

(** Lines 33-35. *)
Definition BaseRenew_init (self : addr) (args : list value) (kwargs : kwargs_t) : M value :=
  do! setattr self "args" (VTuple args) in
  do! setattr self "kwargs" (VDict kwargs) in
  ret VNone.

(** Lines 114-131. *)
Definition solve_conn_curs (self : addr) (cur_conn : value) : M value :=
  let! k := getattr n cur_conn "__class__" in
  if issubclass_value k c_base_cursor then
    let! conn := getattr n cur_conn "connection" in
    let! closed := (let! c := getattr n cur_conn "connection" in getattr n c "closed") in
    let! conn :=
      (if truthy closed then
         let! cls := (let! c := getattr n cur_conn "connection" in getattr n c "__class__") in
         let! a := (let! c := getattr n cur_conn "connection" in getattr n c "args") in
         let! kw := (let! c := getattr n cur_conn "connection" in getattr n c "kwargs") in
         let! a := unpack_args a in
         let! kw := unpack_kwargs kw in
         call_value cls a kw
       else ret conn) in
    let! f := getattr n conn "cursor" in
    let! a := getattr n (VRef self) "args" in
    let! kw := getattr n (VRef self) "kwargs" in
    let! a := unpack_args a in
    let! kw := unpack_kwargs kw in
    let! cur := call_value f a kw in
    do! setattr self "sub" cur in
    ret VNone
  else
    let! k := getattr n cur_conn "__class__" in
    if issubclass_value k c_base_connection then
      let! cls := getattr n cur_conn "__class__" in
      let! a := getattr n (VRef self) "args" in
      let! kw := getattr n (VRef self) "kwargs" in
      let! a := unpack_args a in
      let! kw := unpack_kwargs kw in
      let! new := call_value cls a kw in
      do! setattr self "sub" new in
      ret VNone
    else
      do! logging_warning in
      ret VNone.

(** Lines 133-141. *)
Definition BaseRenew_close (self : addr) (recursive : value) : M value :=
  do! (if truthy recursive then
         let! sub := getattr n (VRef self) "sub" in
         if truthy sub then
           let! sub := getattr n (VRef self) "sub" in
           let! f := getattr n sub "close" in
           do! call_value f [] [] in
           ret tt
         else ret tt
       else ret tt) in
  let! f := super_getattr c_BaseRenew self "close" in
  do! call_value f [] [] in
  ret VNone.

(** *** RenewCursor (lines 143-203) *)

(** Lines 152-154. *)
Definition RenewCursor_init (self : addr) (args : list value) (kwargs : kwargs_t) : M value :=
  do! call c_base_cursor "__init__" self args kwargs in
  do! call c_BaseRenew "__init__" self args kwargs in
  ret VNone.

(** [self.solve_conn_curs(self)]. *)
Definition renew_self (self : addr) : M unit :=
  let! f := getattr n (VRef self) "solve_conn_curs" in
  do! call_value f [VRef self] [] in
  ret tt.

(** [self.__execute(...)] as written inside [RenewCursor]. *)
Definition call_private_execute (self : addr) (args : list value) (kwargs : kwargs_t) : M unit :=
  let! f := getattr n (VRef self) "_RenewCursor__execute" in
  do! call_value f args kwargs in
  ret tt.

(** Lines 166-171: the two checks before the attempt. *)
Definition execute_prechecks (self : addr) : M unit :=
  do! (let! closed := (let! c := getattr n (VRef self) "connection" in getattr n c "closed") in
       if truthy closed then
         do! logging_debug in
         renew_self self
       else ret tt) in
  let! closed := getattr n (VRef self) "closed" in
  if truthy closed then
    do! logging_debug in
    renew_self self
  else ret tt.

(** Lines 175-188: the handler of [except InterfaceError as e]. *)
Definition execute_handler (self : addr) (args : list value) (kwargs : kwargs_t) (e : exn) : M unit :=
  let msg := e_msg e in
  do! (if truthy (VStr "cursor already closed") then
         do! (let! f := getattr n (VRef self) "close" in
              do! call_value f [] [] in ret tt) in
         do! logging_debug in
         renew_self self
       else if String.eqb "connection already closed" msg then
         do! (let! c := getattr n (VRef self) "connection" in
              let! f := getattr n c "close" in
              do! call_value f [] [] in ret tt) in
         do! logging_debug in
         renew_self self
       else raise e) in
  call_private_execute self args kwargs.

(** Lines 156-188. *)
Definition RenewCursor_execute (self : addr) (args : list value) (kwargs : kwargs_t) : M value :=
  do! execute_prechecks self in
  do! try_except (call_private_execute self args kwargs)
                 is_InterfaceError
                 (execute_handler self args kwargs) in
  ret VNone.

(** Lines 190-203. *)
Definition RenewCursor_private_execute (self : addr) (args : list value) (kwargs : kwargs_t) : M value :=
  let! sub := getattr n (VRef self) "sub" in
  if truthy sub then
    let! sub := getattr n (VRef self) "sub" in
    let! f := getattr n sub "execute" in
    do! call_value f args kwargs in
    ret VNone
  else
    let! f := super_getattr c_RenewCursor self "execute" in
    do! call_value f args kwargs in
    ret VNone.

(** *** RetryConnection (lines 206-248) *)

(** Lines 210-212. *)
Definition RetryConnection_init (self : addr) (args : list value) (kwargs : kwargs_t) : M value :=
  do! call c_base_connection "__init__" self args kwargs in
  do! call c_BaseRenew "__init__" self args kwargs in
  ret VNone.

(** Lines 214-233. *)
Definition RetryConnection_cursor (self : addr) (args : list value) (kwargs : kwargs_t) : M value :=
  let! own_factory := getattr n (VRef self) "cursor_factory" in
  let cursor_factory := py_or own_factory (VClass c_RenewCursor) in
  do! (let! closed := getattr n (VRef self) "closed" in
       if truthy closed then renew_self self else ret tt) in
  let kwargs := setdefault kwargs "cursor_factory" cursor_factory in
  let! f := getattr n (VRef self) "_RetryConnection__cursor" in
  let! cursor := call_value f args kwargs in
  do! setattr_value cursor "args" (VTuple args) in
  do! setattr_value cursor "kwargs" (VDict kwargs) in
  ret cursor.

(** Lines 235-248. *)
Definition RetryConnection_private_cursor (self : addr) (args : list value) (kwargs : kwargs_t) : M value :=
  let! sub := getattr n (VRef self) "sub" in
  if truthy sub then
    let! sub := getattr n (VRef self) "sub" in
    let! f := getattr n sub "cursor" in
    call_value f args kwargs
  else
    let! f := super_getattr c_RetryConnection self "cursor" in
    call_value f args kwargs.

(** *** Dispatch *)

(** Parameter [recursive] of [close] (default [True]). *)
Definition recursive_arg (args : list value) (kwargs : kwargs_t) : value :=
  match args with
  | v :: _ => v
  | [] => match dict_get kwargs "recursive" with Some v => v | None => VBool true end
  end.

(** Body of the function [name] defined in class [owner].  Result sets
    are not modelled: the driver's [fetchone] and [fetchall] return
    [None]; [object.__init__] does nothing. *)
Definition method_body (owner : pyclass) (name : string)
    (self : addr) (args : list value) (kwargs : kwargs_t) : M value :=
  match owner with
  | c_object => ret VNone
  | c_builtin => raise (type_error name)
  | c_base_cursor =>
      if String.eqb name "__init__" then base_cursor_init self args kwargs
      else if String.eqb name "execute" then base_cursor_execute self args kwargs
      else if String.eqb name "close" then base_close self
      else ret VNone
  | c_base_connection =>
      if String.eqb name "__init__" then base_connection_init self args kwargs
      else if String.eqb name "cursor" then base_connection_cursor self args kwargs
      else if String.eqb name "close" then base_close self
      else ret VNone
  | c_BaseRenew =>
      if String.eqb name "__init__" then BaseRenew_init self args kwargs
      else if String.eqb name "solve_conn_curs" then
        match args with
        | [cur_conn] => solve_conn_curs self cur_conn
        | _ => raise (type_error name)
        end
      else if String.eqb name "close" then
        BaseRenew_close self (recursive_arg args kwargs)
      else raise (type_error name)
  | c_RenewCursor =>
      if String.eqb name "__init__" then RenewCursor_init self args kwargs
      else if String.eqb name "execute" then RenewCursor_execute self args kwargs
      else if String.eqb name "_RenewCursor__execute" then
        RenewCursor_private_execute self args kwargs
      else raise (type_error name)
  | c_RetryConnection =>
      if String.eqb name "__init__" then RetryConnection_init self args kwargs
      else if String.eqb name "cursor" then RetryConnection_cursor self args kwargs
      else if String.eqb name "_RetryConnection__cursor" then
        RetryConnection_private_cursor self args kwargs
      else raise (type_error name)
  end.

End Methods.

(** Calling the function [name] of class [owner] on [self], with [n]
    frames of call depth left. *)
Fixpoint call (drv : driver) (n : nat) (owner : pyclass) (name : string)
    (self : addr) (args : list value) (kwargs : kwargs_t) : M value :=
  match n with
  | O => fun st => (TooDeep, st)
  | S n' => method_body drv n' (call drv n') owner name self args kwargs
  end.

(** [target.name(...)] as the caller writes it. *)
Definition invoke (drv : driver) (n : nat) (target : value) (name : string)
    (args : list value) (kwargs : kwargs_t) : M value :=
  let! f := getattr n target name in
  call_value (call drv n) f args kwargs.

End Helper.
Import Helper.


(** ** Shapes of objects and heaps *)

Module Shape.

(** The delegation list of a class: its [__fix_attrs__]. *)
Definition fix_attrs (c : pyclass) : value :=
  match type_lookup c "__fix_attrs__" with
  | Some (_, CValue v) => v
  | _ => VTuple []
  end.

(** The successor of a handle: what its [_sub_obj] refers to. *)
Definition successor (o : obj) : option addr :=
  match dict_get (ob_dict o) "_sub_obj" with
  | Some (VRef s) => Some s
  | _ => None
  end.

(** The handle's own value of an attribute: what
    [object.__getattribute__] gives for it. *)
Definition own_value (h : list obj) (a : addr) (o : obj) (key : string) : outcome value :=
  object_getattribute (fun k => Raise (attribute_error k)) h a o key.

(** The module only ever stores [_args], [_kwargs] and [_sub_obj] in an
    instance dictionary. *)
Definition private_key (k : string) : bool :=
  String.eqb k "_args" || String.eqb k "_kwargs" || String.eqb k "_sub_obj".

(** An object at address [a] of a heap of [len] objects is tidy when its
    dictionary holds private names only and its successor, if any, is a
    younger object of the heap. *)
Definition tidy_at (a len : nat) (o : obj) : bool :=
  forallb (fun kv => private_key (fst kv)) (ob_dict o) &&
  match dict_get (ob_dict o) "_sub_obj" with
  | None | Some VNone => true
  | Some (VRef s) => Nat.ltb a s && Nat.ltb s len
  | Some _ => false
  end.

Fixpoint tidy_from (a len : nat) (l : list obj) : bool :=
  match l with
  | [] => true
  | o :: t => tidy_at a len o && tidy_from (S a) len t
  end.

Definition well_linked (h : list obj) : bool := tidy_from 0 (length h) h.

(** The classes whose instances are handles. *)
Definition is_handle (c : pyclass) : bool :=
  match c with
  | c_RenewCursor | c_RetryConnection => true
  | _ => false
  end.

End Shape.
Import Shape.

(** ** Vocabulary of the statements *)

Module Outline.

(** What [self.sub] evaluates to in a tidy object. *)
Definition sub_value (o : obj) : value :=
  match successor o with
  | Some s => VRef s
  | None => VNone
  end.

(** [g] gives every answer that [f] gives within its call depth. *)
Definition agrees (f g : addr -> string -> outcome value) : Prop :=
  forall a k, f a k <> TooDeep -> g a k = f a k.

(** A connection as [RetryConnection( *a0, **k0)] leaves it. *)
Definition fresh_connection (a0 : list value) (k0 : kwargs_t) : obj :=
  with_dict (blank c_RetryConnection) [("_args", VTuple a0); ("_kwargs", VDict k0)].

(** State after connection [a] has renewed itself: a new connection built
    from the stored arguments [a0], [k0] is the youngest object and the
    successor of [a]. *)
Definition renewed (st : state) (a : addr) (o : obj) (a0 : list value) (k0 : kwargs_t) : state :=
  let s := length (heap st) in
  {| heap := <[a := with_dict o (dict_set (ob_dict o) "_sub_obj" (VRef s))]>
               (heap st ++ [fresh_connection a0 k0]);
     trace := trace st ++ [EvConnect s a0 k0] |}.

(** The keyword arguments the driver gets from [cursor()]. *)
Definition resolved_kwargs (o : obj) (kwargs : kwargs_t) : kwargs_t :=
  setdefault kwargs "cursor_factory" (py_or (ob_cursor_factory o) (VClass c_RenewCursor)).

(** The two assignments of lines 231-232, made [times] times. *)
Fixpoint store_spec (times : nat) (cursor : value) (args : list value)
    (kwargs : kwargs_t) : M unit :=
  match times with
  | O => ret tt
  | S t =>
      do! setattr_value cursor "args" (VTuple args) in
      do! setattr_value cursor "kwargs" (VDict kwargs) in
      store_spec t cursor args kwargs
  end.

(** What [cursor()] comes to once the connection [c] that makes the
    cursor is known: the driver's [cursor] on [c], then the assignments of
    lines 231-232, once for every [cursor()] frame the result passes. *)
Definition cursor_through (drv : driver) (n : nat) (c : addr) (times : nat)
    (args : list value) (kwargs : kwargs_t) : M value :=
  let! cursor := base_connection_cursor drv n (call drv n) c args kwargs in
  do! store_spec times cursor args kwargs in
  ret cursor.

End Outline.
Import Outline.

(** ** Concrete drivers and states *)

Module Scenario.

(** A driver none of whose calls fails. *)
Definition quiet : driver :=
  {| connect_fails := fun _ _ _ _ => None;
     cursor_fails := fun _ _ _ _ => None;
     execute_fails := fun _ _ _ _ => None;
     session_lost := fun _ _ _ _ => false;
     close_fails := fun _ _ => None |}.

(** A driver whose [execute] raises [e], and nothing else fails. *)
Definition execute_raises (e : exn) : driver :=
  {| connect_fails := fun _ _ _ _ => None;
     cursor_fails := fun _ _ _ _ => None;
     execute_fails := fun _ _ _ _ => Some e;
     session_lost := fun _ _ _ _ => false;
     close_fails := fun _ _ => None |}.

Definition interface_error (msg : string) : exn :=
  {| e_class := InterfaceError; e_msg := msg; e_id := 7 |}.

(** A [RetryConnection] as [RetryConnection("dbname=test")] leaves it,
    with the given [closed] flag and further dictionary entries. *)
Definition conn_obj (closed : bool) (more : list (string * value)) : obj :=
  {| ob_class := c_RetryConnection; ob_closed := closed;
     ob_connection := VNone; ob_cursor_factory := VNone;
     ob_dict := [("_args", VTuple [VStr "dbname=test"]); ("_kwargs", VDict [])] ++ more |}.

(** A [RenewCursor] as [conn.cursor()] leaves it. *)
Definition cur_obj (conn : addr) (closed : bool) (more : list (string * value)) : obj :=
  {| ob_class := c_RenewCursor; ob_closed := closed;
     ob_connection := VRef conn; ob_cursor_factory := VNone;
     ob_dict := [("_args", VTuple []);
                 ("_kwargs", VDict [("cursor_factory", VClass c_RenewCursor)])] ++ more |}.

Definition state_of (h : list obj) : state := {| heap := h; trace := [] |}.

(** Connection 0 and its cursor 1, both open. *)
Definition st_open : state := state_of [conn_obj false []; cur_obj 0 false []].

(** The same with the connection reporting closed. *)
Definition st_conn_closed : state := state_of [conn_obj true []; cur_obj 0 false []].

(** The same with only the cursor reporting closed. *)
Definition st_cur_closed : state := state_of [conn_obj false []; cur_obj 0 true []].

(** The same with both reporting closed. *)
Definition st_both_closed : state := state_of [conn_obj true []; cur_obj 0 true []].

(** What [solve_conn_curs] leaves when cursor 1 of [st_both_closed] renews
    itself: a new connection 2, and a new cursor 3 on it that is the
    successor of cursor 1. *)
Definition st_renewed : state :=
  {| heap := [conn_obj true [];
              cur_obj 0 true [("_sub_obj", VRef 3)];
              conn_obj false [];
              cur_obj 2 false []];
     trace := [EvConnect 2 [VStr "dbname=test"] [];
               EvCursor 2 [] [("cursor_factory", VClass c_RenewCursor)]] |}.

(** Connection 0 with successor 1, both open. *)
Definition st_conn_successor : state :=
  state_of [conn_obj false [("_sub_obj", VRef 1)]; conn_obj false []].

(** An instance of [object]. *)
Definition st_stranger : state := state_of [conn_obj false []; blank c_object].

Definition select1 : list value := [VStr "SELECT 1"].

End Scenario.
Import Scenario.

(** ** Further vocabulary *)

Module Outline2.

(** A cursor as [RenewCursor(conn, ...)] leaves it: bound to [conn], with
    the constructor's arguments stored. *)
Definition fresh_cursor (conn : addr) (args : list value) (kwargs : kwargs_t) : obj :=
  with_dict (with_connection (blank c_RenewCursor) (VRef conn))
            [("_args", VTuple args); ("_kwargs", VDict kwargs)].

(** The stored value of a private name, or the class default. *)
Definition stored (o : obj) (name : string) (dflt : value) : value :=
  match dict_get (ob_dict o) name with
  | Some v => v
  | None => dflt
  end.

(** The object [o] with [s] recorded as its successor. *)
Definition with_successor (o : obj) (s : addr) : obj :=
  with_dict o (dict_set (ob_dict o) "_sub_obj" (VRef s)).

(** State after cursor [a] has renewed itself on its open connection [c]:
    a new cursor on [c], made with the stored arguments of [a], is the
    youngest object and the successor of [a]. *)
Definition cursor_renewed (st : state) (a : addr) (o : obj) (c : addr)
    (a0 : list value) (kw : kwargs_t) : state :=
  let s := length (heap st) in
  {| heap := <[a := with_successor o s]> (heap st ++ [fresh_cursor c a0 kw]);
     trace := trace st ++ [EvCursor c a0 kw] |}.

(** State after cursor [a] has renewed itself when its connection reports
    closed: a new connection made with the stored arguments [ca0], [ck0]
    of the old one, and on it a new cursor made with the stored arguments
    of [a], which is the successor of [a]. *)
Definition cursor_reconnected (st : state) (a : addr) (o : obj)
    (ca0 : list value) (ck0 : kwargs_t) (a0 : list value) (kw : kwargs_t) : state :=
  let s := length (heap st) in
  {| heap := <[a := with_successor o (S s)]>
               (heap st ++ [fresh_connection ca0 ck0; fresh_cursor s a0 kw]);
     trace := trace st ++ [EvConnect s ca0 ck0; EvCursor s a0 kw] |}.

(** State after [cursor(args, ...)] on a closed connection [a] without
    successor: [a] has renewed itself, and the new cursor, bound to the
    new connection, is the youngest object. *)
Definition reconnected_with_cursor (st : state) (a : addr) (o : obj)
    (a0 : list value) (k0 : kwargs_t) (args : list value) (kw : kwargs_t) : state :=
  let st1 := renewed st a o a0 k0 in
  {| heap := heap st1 ++ [fresh_cursor (length (heap st)) args kw];
     trace := trace st1 ++ [EvCursor (length (heap st)) args kw] |}.

(** The state the driver leaves when its [execute] on cursor [a] fails:
    the call is logged, and the cursor's connection is marked closed when
    the session was lost. *)
Definition failed_execute (drv : driver) (st : state) (a : addr)
    (args : list value) (kwargs : kwargs_t) : state :=
  let st1 := log st (EvExecute a args kwargs) in
  if session_lost drv st a args kwargs then drop_session st1 a else st1.

End Outline2.
Import Outline2.

(** ** Facts about the class hierarchy *)

Lemma mro_RenewCursor :
  mro c_RenewCursor = [c_RenewCursor; c_base_cursor; c_BaseRenew; c_object].
Proof. reflexivity. Qed.

Lemma mro_RetryConnection :
  mro c_RetryConnection = [c_RetryConnection; c_base_connection; c_BaseRenew; c_object].
Proof. reflexivity. Qed.

Lemma mro_BaseRenew : mro c_BaseRenew = [c_BaseRenew; c_object].
Proof. reflexivity. Qed.

(** ** Attribute reads: depth *)

Lemma property_get_agrees (f g : string -> outcome value) key :
  (forall k, f k <> TooDeep -> g k = f k) ->
  property_get f key <> TooDeep -> property_get g key = property_get f key.
Proof.
  intros Hfg. unfold property_get.
  destruct (String.eqb key "args"); [apply Hfg|].
  destruct (String.eqb key "kwargs"); [apply Hfg|].
  destruct (f "_sub_obj") eqn:E; intros H; try congruence;
    rewrite Hfg; rewrite E; congruence.
Qed.

Lemma object_getattribute_agrees (p q : string -> outcome value) h a o key :
  (forall k, p k <> TooDeep -> q k = p k) ->
  object_getattribute p h a o key <> TooDeep ->
  object_getattribute q h a o key = object_getattribute p h a o key.
Proof.
  intros Hpq. unfold object_getattribute.
  destruct (String.eqb key "__class__"); [reflexivity|].
  destruct (type_lookup (ob_class o) key) as [[c [| | |v]]|]; try reflexivity.
  apply Hpq.
Qed.

Lemma getattribute_frame_agrees f g h a key :
  agrees f g ->
  getattribute_frame f h a key <> TooDeep ->
  getattribute_frame g h a key = getattribute_frame f h a key.
Proof.
  intros Hfg. unfold getattribute_frame.
  destruct (h !! a) as [o|]; [|reflexivity].
  set (vf := fun name : string =>
         match super_lookup (ob_class o) (ob_class o) "__getattribute__" with
         | Some (c_BaseRenew, _) => f a name
         | _ => object_getattribute (fun k => Raise (attribute_error k)) h a o name
         end).
  set (vg := fun name : string =>
         match super_lookup (ob_class o) (ob_class o) "__getattribute__" with
         | Some (c_BaseRenew, _) => g a name
         | _ => object_getattribute (fun k => Raise (attribute_error k)) h a o name
         end).
  assert (Hv : forall k, vf k <> TooDeep -> vg k = vf k).
  { intros k. unfold vf, vg.
    destruct (super_lookup (ob_class o) (ob_class o) "__getattribute__") as [[[] ?]|];
      try reflexivity. apply Hfg. }
  assert (Hb : forall k,
             object_getattribute (property_get vf) h a o k <> TooDeep ->
             object_getattribute (property_get vg) h a o k
             = object_getattribute (property_get vf) h a o k).
  { intros k. apply object_getattribute_agrees.
    intros k'. apply property_get_agrees, Hv. }
  destruct (type_lookup (ob_class o) "__getattribute__") as [[[] ?]|]; try apply Hb.
  intros H.
  destruct (object_getattribute (property_get vf) h a o "__fix_attrs__") as [fx| |] eqn:Efix;
    try congruence.
  - rewrite Hb, Efix by (rewrite Efix; congruence).
    destruct (py_contains fx key); [|apply Hb, H].
    destruct (f a "sub") as [sub| |] eqn:Esub; try congruence.
    + rewrite Hfg, Esub by (rewrite Esub; congruence).
      destruct (truthy sub); [|apply Hb, H].
      destruct sub; try reflexivity. apply Hfg, H.
    + rewrite Hfg, Esub by (rewrite Esub; congruence). reflexivity.
  - rewrite Hb, Efix by (rewrite Efix; congruence). reflexivity.
Qed.

(** A deeper call budget does not change a read that completes. *)
Lemma getattribute_deeper n h :
  agrees (getattribute n h) (getattribute (S n) h).
Proof.
  induction n as [|n IH]; intros a key H.
  - simpl in H. congruence.
  - change (getattribute (S (S n)) h a key)
      with (getattribute_frame (getattribute (S n) h) h a key).
    change (getattribute (S n) h a key)
      with (getattribute_frame (getattribute n h) h a key) in *.
    apply getattribute_frame_agrees; assumption.
Qed.

Lemma getattribute_mono n m h a key :
  n <= m -> getattribute n h a key <> TooDeep ->
  getattribute m h a key = getattribute n h a key.
Proof.
  induction 1 as [|m Hle IH]; [reflexivity|].
  intros H. rewrite <- (IH H). apply getattribute_deeper. rewrite (IH H). exact H.
Qed.

(** ** Attribute reads in tidy heaps *)

Lemma tidy_from_lookup l : forall base len i o,
  tidy_from base len l = true -> l !! i = Some o -> tidy_at (base + i) len o = true.
Proof.
  induction l as [|x l IH]; intros base len i o Ht Hl; [discriminate|].
  simpl in Ht. apply andb_true_iff in Ht as [Hx Ht].
  destruct i as [|i]; simpl in Hl.
  - injection Hl as <-. rewrite Nat.add_0_r. exact Hx.
  - replace (base + S i) with (S base + i) by lia. eapply IH; eassumption.
Qed.

Lemma well_linked_lookup h a o :
  well_linked h = true -> h !! a = Some o -> tidy_at a (length h) o = true.
Proof. intros Hw Hl. exact (tidy_from_lookup h 0 (length h) a o Hw Hl). Qed.

Lemma only_private_get d k :
  forallb (fun kv : string * value => private_key (fst kv)) d = true ->
  private_key k = false -> dict_get d k = None.
Proof.
  induction d as [|[k' v] d IH]; intros Hd Hk; [reflexivity|].
  simpl in Hd. apply andb_true_iff in Hd as [Hk' Hd]. simpl.
  destruct (String.eqb_spec k' k) as [-> | _]; [congruence|]. apply IH; assumption.
Qed.

Lemma tidy_private a len o k :
  tidy_at a len o = true -> private_key k = false -> dict_get (ob_dict o) k = None.
Proof.
  unfold tidy_at. intros H Hk. apply andb_true_iff in H as [H _].
  apply only_private_get; assumption.
Qed.

Lemma tidy_successor a len o s :
  tidy_at a len o = true -> successor o = Some s -> a < s < len.
Proof.
  unfold tidy_at, successor. intros H Hs. apply andb_true_iff in H as [_ H].
  destruct (dict_get (ob_dict o) "_sub_obj") as [[]|]; try discriminate.
  injection Hs as ->. apply andb_true_iff in H as [H1 H2].
  apply Nat.ltb_lt in H1, H2. lia.
Qed.

Lemma has_BaseRenew_cases c :
  issubclass c c_BaseRenew = true ->
  c = c_BaseRenew \/ c = c_RenewCursor \/ c = c_RetryConnection.
Proof. destruct c; cbv; intros; try discriminate; auto. Qed.

Lemma getattribute_S n h a k :
  getattribute (S n) h a k = getattribute_frame (getattribute n h) h a k.
Proof. reflexivity. Qed.

(** Reading a private name. *)
Lemma read_private n h a o k len :
  h !! a = Some o -> tidy_at a len o = true ->
  issubclass (ob_class o) c_BaseRenew = true ->
  k = "_sub_obj" \/ k = "_args" \/ k = "_kwargs" ->
  exists v, getattribute (S n) h a k = Ret v /\
            (k = "_sub_obj" -> py_or v VNone = sub_value o).
Proof.
  intros Hl Ht Hc Hk.
  assert (Hfix : dict_get (ob_dict o) "__fix_attrs__" = None)
    by (eapply tidy_private; [eassumption|reflexivity]).
  rewrite getattribute_S. unfold getattribute_frame. rewrite Hl.
  unfold tidy_at in Ht. apply andb_true_iff in Ht as [_ Ht].
  unfold sub_value, successor.
  apply has_BaseRenew_cases in Hc.
  destruct o as [c cl cn cf d]; simpl in *.
  destruct Hc as [-> | [-> | ->]]; destruct Hk as [-> | [-> | ->]];
    cbn; rewrite ?Hfix; cbn;
    match goal with
    | |- context [dict_get d ?key] => destruct (dict_get d key) as [v|] eqn:E
    end; eexists; (split; [reflexivity|]); intros; try discriminate.
  all: try (destruct v; try discriminate; reflexivity).
  all: reflexivity.
Qed.

(** [self.sub] (lines 77-86) in a tidy object. *)
Lemma read_sub n h a o len :
  h !! a = Some o -> tidy_at a len o = true ->
  issubclass (ob_class o) c_BaseRenew = true ->
  getattribute (S (S n)) h a "sub" = Ret (sub_value o).
Proof.
  intros Hl Ht Hc.
  assert (Hfix : dict_get (ob_dict o) "__fix_attrs__" = None)
    by (eapply tidy_private; [eassumption|reflexivity]).
  destruct (read_private n h a o "_sub_obj" len Hl Ht Hc) as (v & Hv & Hs); [auto|].
  specialize (Hs eq_refl).
  rewrite getattribute_S. unfold getattribute_frame. rewrite Hl.
  unfold tidy_at in Ht. apply andb_true_iff in Ht as [_ Ht].
  unfold sub_value, successor in *.
  apply has_BaseRenew_cases in Hc.
  destruct o as [c cl cn cf d]; simpl in *.
  destruct Hc as [-> | [-> | ->]]; cbn; rewrite ?Hfix; cbn.
  - destruct (dict_get d "_sub_obj") as [[]|]; try discriminate; reflexivity.
  - rewrite Hv. rewrite Hs. reflexivity.
  - rewrite Hv. rewrite Hs. reflexivity.
Qed.

(** The frame's [super(self.__class__, self).__getattribute__], applied
    to a private name, always answers. *)
Lemma via_super_answers n h a o len k :
  h !! a = Some o -> tidy_at a len o = true ->
  k = "_sub_obj" \/ k = "_args" \/ k = "_kwargs" ->
  match super_lookup (ob_class o) (ob_class o) "__getattribute__" with
  | Some (c_BaseRenew, _) => getattribute (S n) h a k
  | _ => object_getattribute (fun k => Raise (attribute_error k)) h a o k
  end <> TooDeep.
Proof.
  intros Hl Ht Hk.
  destruct (issubclass (ob_class o) c_BaseRenew) eqn:Hc.
  - destruct (read_private n h a o k len Hl Ht Hc Hk) as (v & Hv & _).
    destruct (super_lookup _ _ _) as [[[] ?]|]; rewrite ?Hv; try congruence.
    all: unfold object_getattribute;
      destruct (String.eqb k "__class__"); try congruence;
      destruct (type_lookup (ob_class o) k) as [[? []]|];
      try destruct (dict_get (ob_dict o) k); congruence.
  - destruct (super_lookup _ _ _) as [[[] ?]|] eqn:Hs.
    all: try (unfold object_getattribute;
      destruct (String.eqb k "__class__"); try congruence;
      destruct (type_lookup (ob_class o) k) as [[? []]|];
      try destruct (dict_get (ob_dict o) k); congruence).
    destruct (ob_class o); cbv in Hc, Hs; congruence.
Qed.

Lemma base_get_answers n h a o len key :
  h !! a = Some o -> tidy_at a len o = true ->
  object_getattribute
    (property_get
       (fun name =>
          match super_lookup (ob_class o) (ob_class o) "__getattribute__" with
          | Some (c_BaseRenew, _) => getattribute (S n) h a name
          | _ => object_getattribute (fun k => Raise (attribute_error k)) h a o name
          end)) h a o key <> TooDeep.
Proof.
  intros Hl Ht.
  pose proof (via_super_answers n h a o len "_sub_obj" Hl Ht (or_introl eq_refl)) as Hs.
  pose proof (via_super_answers n h a o len "_args" Hl Ht
                (or_intror (or_introl eq_refl))) as Ha.
  pose proof (via_super_answers n h a o len "_kwargs" Hl Ht
                (or_intror (or_intror eq_refl))) as Hk.
  unfold object_getattribute.
  destruct (String.eqb key "__class__"); try congruence.
  destruct (type_lookup (ob_class o) key) as [[? []]|];
    try destruct (dict_get (ob_dict o) key); try congruence.
  all: unfold property_get.
  all: destruct (String.eqb key "args"); [exact Ha|].
  all: destruct (String.eqb key "kwargs"); [exact Hk|].
  all: cbv beta in *.
  all: match goal with |- match ?x with _ => _ end <> _ => destruct x eqn:E end;
    try congruence.
  all: exfalso; exact (Hs E).
Qed.

(** In a tidy heap every read completes once the call depth exceeds the
    number of younger objects by three. *)
Lemma getattribute_answers h :
  well_linked h = true ->
  forall m n a key, length h - a <= m -> m + 3 <= n ->
  getattribute n h a key <> TooDeep.
Proof.
  intros Hw. induction m as [|m IH]; intros n a key Hm Hn.
  - destruct n as [|[|[|n]]]; try lia.
    rewrite getattribute_S. unfold getattribute_frame.
    destruct (h !! a) as [o|] eqn:Hl; [|congruence].
    apply lookup_lt_Some in Hl. lia.
  - destruct n as [|[|[|n]]]; try lia.
    rewrite getattribute_S. unfold getattribute_frame.
    destruct (h !! a) as [o|] eqn:Hl; [|congruence].
    pose proof (well_linked_lookup h a o Hw Hl) as Ht.
    pose proof (base_get_answers (S n) h a o (length h) key Hl Ht) as Hb.
    pose proof (base_get_answers (S n) h a o (length h) "__fix_attrs__" Hl Ht) as Hf.
    destruct (type_lookup (ob_class o) "__getattribute__") as [[[] ?]|] eqn:Hg;
      try exact Hb.
    assert (Hc : issubclass (ob_class o) c_BaseRenew = true)
      by (destruct (ob_class o); cbv in Hg |- *; congruence).
    match goal with |- match ?x with _ => _ end <> _ => destruct x end;
      try congruence.
    destruct (py_contains _ key); [|exact Hb].
    rewrite (read_sub n h a o (length h) Hl Ht Hc).
    unfold sub_value. destruct (successor o) as [s|] eqn:Hs; cbn [truthy]; [|exact Hb].
    pose proof (tidy_successor a (length h) o s Ht Hs).
    apply IH; lia.
Qed.

(** ** Delegated attributes *)

(** C5. For a handle (a [RenewCursor] or a [RetryConnection]) in a tidy
    heap and an attribute name of its delegation set (cursor: [closed],
    [connection], [fetchone], [fetchall]; connection: [closed],
    [connection]), reading the attribute gives what reading it on the
    successor gives when there is a successor, and the handle's own value
    otherwise; with enough call depth the read completes. *)
Theorem delegated_read_follows_successor
    (h : list obj) (a : addr) (o : obj) (key : string) (n : nat) :
  well_linked h = true ->
  h !! a = Some o ->
  (ob_class o = c_RenewCursor /\
     In key ["closed"; "connection"; "fetchone"; "fetchall"]) \/
  (ob_class o = c_RetryConnection /\ In key ["closed"; "connection"]) ->
  length h + 3 <= n ->
  py_contains (fix_attrs (ob_class o)) key = true /\
  match successor o with
  | Some s => getattribute n h a key = getattribute n h s key
  | None => getattribute n h a key = own_value h a o key
  end /\
  getattribute n h a key <> TooDeep.
Proof.
  intros Hw Hl Hk Hn.
  pose proof (well_linked_lookup h a o Hw Hl) as Ht.
  assert (Hlen : a < length h) by (eapply lookup_lt_Some; eassumption).
  assert (Hfix : dict_get (ob_dict o) "__fix_attrs__" = None)
    by (eapply tidy_private; [eassumption|reflexivity]).
  assert (Hc : issubclass (ob_class o) c_BaseRenew = true)
    by (destruct Hk as [[-> _]|[-> _]]; reflexivity).
  assert (Hin : py_contains (fix_attrs (ob_class o)) key = true).
  { destruct Hk as [[-> Hk]|[-> Hk]]; simpl in Hk;
      repeat (destruct Hk as [<-|Hk]; [reflexivity|]); contradiction. }
  split; [exact Hin|].
  assert (Hdone : getattribute n h a key <> TooDeep)
    by (apply (getattribute_answers h Hw (length h)); lia).
  split; [|exact Hdone].
  destruct n as [|[|[|n]]]; try lia.
  assert (Hstep : getattribute (S (S (S n))) h a key =
                  match successor o with
                  | Some s => getattribute (S (S n)) h s key
                  | None => own_value h a o key
                  end).
  { rewrite getattribute_S. unfold getattribute_frame. rewrite Hl.
    rewrite (read_sub n h a o (length h) Hl Ht Hc).
    unfold sub_value, own_value, fix_attrs in *.
    destruct (successor o) as [s|]; cbn [truthy];
      destruct o as [c cl cn cf d]; simpl in Hk, Hfix, Hin |- *;
      destruct Hk as [[-> Hk]|[-> Hk]]; cbn in Hin |- *; rewrite ?Hfix; cbn;
        rewrite ?Hin; try reflexivity;
        simpl in Hk; repeat (destruct Hk as [<-|Hk]; [reflexivity|]); contradiction. }
  rewrite Hstep in *.
  destruct (successor o) as [s|] eqn:Hs; [|reflexivity].
  symmetry. apply getattribute_deeper. exact Hdone.
Qed.

(** [st_renewed] is the state after a renewal: the cursor of
    [st_both_closed] renewing itself constructs one connection from the
    old connection's stored arguments and one cursor on it from its own. *)
Lemma renewal_of_closed_cursor :
  call quiet 7 c_BaseRenew "solve_conn_curs" 1 [VRef 1] [] st_both_closed
  = (Ret VNone, st_renewed).
Proof. reflexivity. Qed.

Lemma delegated_read_witness :
  getattribute 7 (heap st_renewed) 1 "connection" = Ret (VRef 2).
Proof.
  destruct (delegated_read_follows_successor (heap st_renewed) 1
              (cur_obj 0 true [("_sub_obj", VRef 3)]) "connection" 7)
    as (_ & H & _).
  - reflexivity.
  - reflexivity.
  - left. split; [reflexivity|]. simpl. auto.
  - simpl. lia.
  - exact (eq_trans H eq_refl).
Defined.

(** ** The missing import *)

Lemma call_S drv n owner name self args kwargs :
  call drv (S n) owner name self args kwargs
  = method_body drv n (call drv n) owner name self args kwargs.
Proof. reflexivity. Qed.

(** C10. [logging] is not bound in the module, so a [logging.debug] or
    [logging.warning] call raises [NameError] and leaves the state as it
    is.  Hence [execute] raises [NameError] without having renewed when
    the connection reports closed, and likewise when the cursor reports
    closed; when the attempt raises an [InterfaceError] of any message and
    the [close()] of line 178 returns, it raises [NameError] right after
    that close; and [solve_conn_curs] raises [NameError] when given
    neither a cursor nor a connection. *)
Theorem logging_calls_raise_NameError
    (drv : driver) (n : nat) (self : addr) (args : list value) (kwargs : kwargs_t)
    (st : state) :
  existsb (String.eqb "logging") module_globals = false /\
  logging_debug st = (Raise (name_error "logging"), st) /\
  logging_warning st = (Raise (name_error "logging"), st) /\
  (forall c closed,
     getattr_value n (heap st) (VRef self) "connection" = Ret c ->
     getattr_value n (heap st) c "closed" = Ret closed ->
     truthy closed = true ->
     call drv (S n) c_RenewCursor "execute" self args kwargs st
     = (Raise (name_error "logging"), st)) /\
  (forall c closed closed',
     getattr_value n (heap st) (VRef self) "connection" = Ret c ->
     getattr_value n (heap st) c "closed" = Ret closed ->
     truthy closed = false ->
     getattr_value n (heap st) (VRef self) "closed" = Ret closed' ->
     truthy closed' = true ->
     call drv (S n) c_RenewCursor "execute" self args kwargs st
     = (Raise (name_error "logging"), st)) /\
  (forall e st1 v st2,
     execute_prechecks n (call drv n) self st = (Ret tt, st) ->
     call_private_execute n (call drv n) self args kwargs st = (Raise e, st1) ->
     e_class e = InterfaceError ->
     invoke drv n (VRef self) "close" [] [] st1 = (Ret v, st2) ->
     call drv (S n) c_RenewCursor "execute" self args kwargs st
     = (Raise (name_error "logging"), st2)) /\
  (forall cur_conn k,
     getattr_value n (heap st) cur_conn "__class__" = Ret k ->
     issubclass_value k c_base_cursor = false ->
     issubclass_value k c_base_connection = false ->
     call drv (S n) c_BaseRenew "solve_conn_curs" self [cur_conn] [] st
     = (Raise (name_error "logging"), st)).
Proof.
  repeat split.
  - intros c closed Hc Hcl Ht. rewrite call_S. cbn.
    unfold RenewCursor_execute, execute_prechecks, bind, getattr, lift.
    rewrite Hc, Hcl, Ht. reflexivity.
  - intros c closed closed' Hc Hcl Ht Hcl' Ht'. rewrite call_S. cbn.
    unfold RenewCursor_execute, execute_prechecks, bind, getattr, lift, ret.
    rewrite Hc, Hcl, Ht, Hcl', Ht'. reflexivity.
  - intros e st1 v st2 Hpre Hex He Hclose. rewrite call_S. cbn.
    unfold RenewCursor_execute, bind at 1. rewrite Hpre.
    unfold bind at 1, try_except. rewrite Hex, He. cbn [is_InterfaceError].
    unfold execute_handler. cbn [truthy String.eqb Ascii.eqb Bool.eqb negb].
    unfold invoke in Hclose. unfold bind in Hclose |- *.
    destruct (getattr n (VRef self) "close" st1) as [[f| |] st1'] eqn:Hf;
      try discriminate.
    rewrite Hclose. reflexivity.
  - intros cur_conn k Hk Hcur Hconn. rewrite call_S. cbn.
    unfold solve_conn_curs, bind, getattr, lift.
    rewrite Hk, Hcur. cbv beta iota. rewrite Hk, Hconn. reflexivity.
Qed.

Lemma logging_calls_witness :
  call quiet 5 c_RenewCursor "execute" 1 select1 [] st_conn_closed
  = (Raise (name_error "logging"), st_conn_closed) /\
  call quiet 5 c_RenewCursor "execute" 1 select1 [] st_cur_closed
  = (Raise (name_error "logging"), st_cur_closed) /\
  call quiet 5 c_BaseRenew "solve_conn_curs" 0 [VRef 1] [] st_stranger
  = (Raise (name_error "logging"), st_stranger) /\
  call (execute_raises (interface_error "cursor already closed")) 5
    c_RenewCursor "execute" 1 select1 [] st_open
  = (Raise (name_error "logging"),
     {| heap := [conn_obj false []; cur_obj 0 true []];
        trace := [EvExecute 1 select1 []; EvClose 1] |}).
Proof.
  split; [|split; [|split]].
  - apply (proj1 (proj2 (proj2 (proj2
             (logging_calls_raise_NameError quiet 4 1 select1 [] st_conn_closed))))
           (VRef 0) (VBool true)); reflexivity.
  - apply (proj1 (proj2 (proj2 (proj2 (proj2
             (logging_calls_raise_NameError quiet 4 1 select1 [] st_cur_closed)))))
           (VRef 0) (VBool false) (VBool true)); reflexivity.
  - apply (proj2 (proj2 (proj2 (proj2 (proj2 (proj2
             (logging_calls_raise_NameError quiet 4 0 [] [] st_stranger))))))
           (VRef 1) (VClass c_object)); reflexivity.
  - apply (proj1 (proj2 (proj2 (proj2 (proj2 (proj2
             (logging_calls_raise_NameError
                (execute_raises (interface_error "cursor already closed"))
                4 1 select1 [] st_open))))))
           (interface_error "cursor already closed")
           (log st_open (EvExecute 1 select1 [])) VNone); reflexivity.
Defined.

(** ** Closing *)

Lemma tidy_no_method o a len name :
  tidy_at a len o = true -> private_key name = false ->
  dict_get (ob_dict o) name = None.
Proof. apply tidy_private. Qed.

(** Reading a method that is not delegated, on an object with
    [BaseRenew] behind it or not. *)
Lemma read_close n h a o len :
  h !! a = Some o -> tidy_at a len o = true ->
  getattribute (S n) h a "close" =
  match type_lookup (ob_class o) "close" with
  | Some (owner, CMethod) => Ret (VMethod a owner "close")
  | _ => Raise (attribute_error "close")
  end.
Proof.
  intros Hl Ht.
  assert (Hfix : dict_get (ob_dict o) "__fix_attrs__" = None)
    by (eapply tidy_private; [eassumption|reflexivity]).
  assert (Hcl : dict_get (ob_dict o) "close" = None)
    by (eapply tidy_private; [eassumption|reflexivity]).
  rewrite getattribute_S. unfold getattribute_frame. rewrite Hl.
  destruct o as [c cl cn cf d]; simpl in *.
  destruct c; cbn; rewrite ?Hfix; cbn; rewrite ?Hcl; reflexivity.
Qed.

Lemma super_close_missing c :
  issubclass c c_BaseRenew = true -> super_lookup c_BaseRenew c "close" = None.
Proof.
  intros H. apply has_BaseRenew_cases in H as [-> | [-> | ->]]; reflexivity.
Qed.

Lemma super_close_raises self o st :
  heap st !! self = Some o ->
  issubclass (ob_class o) c_BaseRenew = true ->
  super_getattr c_BaseRenew self "close" st = (Raise (attribute_error "close"), st).
Proof.
  intros Hl Hc. unfold super_getattr, lift. rewrite Hl.
  rewrite (super_close_missing _ Hc). reflexivity.
Qed.

Lemma call_BaseRenew_close drv n self recursive :
  call drv (S n) c_BaseRenew "close" self [recursive] []
  = BaseRenew_close n (call drv n) self recursive.
Proof. reflexivity. Qed.

(** C9, amended. The body of [BaseRenew.close], run on an instance of a
    class with [BaseRenew] in its MRO, never returns: its
    [super(BaseRenew, self).close()] finds no [close] (only [object]
    follows [BaseRenew]) and raises [AttributeError], at once when
    [recursive] is false or there is no successor, and otherwise after the
    successor's [close()] has run.  But [h.close()] on a [RenewCursor] or
    [RetryConnection] is not that body: the driver's type precedes
    [BaseRenew] in the MRO, so the call is the driver's [close]. *)
Theorem BaseRenew_close_raises_AttributeError
    (drv : driver) (n : nat) (st : state) (self : addr) (o : obj) (recursive : value) :
  well_linked (heap st) = true ->
  heap st !! self = Some o ->
  issubclass (ob_class o) c_BaseRenew = true ->
  super_lookup c_BaseRenew (ob_class o) "close" = None /\
  (truthy recursive = false \/ successor o = None ->
   call drv (3 + n) c_BaseRenew "close" self [recursive] [] st
   = (Raise (attribute_error "close"), st)) /\
  (forall s os,
     truthy recursive = true -> successor o = Some s -> heap st !! s = Some os ->
     is_handle (ob_class os) = true \/ ob_class os = c_base_cursor
       \/ ob_class os = c_base_connection ->
     call drv (3 + n) c_BaseRenew "close" self [recursive] [] st
     = match base_close drv s st with
       | (Ret _, st1) => (Raise (attribute_error "close"), st1)
       | r => r
       end) /\
  (is_handle (ob_class o) = true ->
   invoke drv (3 + n) (VRef self) "close" [] [] st = base_close drv self st).
Proof.
  intros Hw Hl Hc.
  pose proof (well_linked_lookup _ _ _ Hw Hl) as Ht.
  pose proof (read_sub n (heap st) self o _ Hl Ht Hc) as Hsub.
  split; [apply super_close_missing, Hc|].
  split; [|split].
  - intros Hno. change (3 + n) with (S (S (S n))).
    rewrite call_BaseRenew_close. unfold BaseRenew_close.
    destruct (truthy recursive) eqn:Hr.
    + destruct Hno as [Hno|Hno]; [discriminate|].
      unfold bind, getattr, lift. cbn [getattr_value]. rewrite Hsub.
      unfold sub_value. rewrite Hno. cbn [truthy]. unfold ret.
      rewrite (super_close_raises self o st Hl Hc). reflexivity.
    + unfold bind, ret. rewrite (super_close_raises self o st Hl Hc). reflexivity.
  - intros s os Hr Hs Hls Hcls. change (3 + n) with (S (S (S n))).
    rewrite call_BaseRenew_close.
    pose proof (well_linked_lookup _ _ _ Hw Hls) as Hts.
    pose proof (tidy_successor _ _ _ _ Ht Hs) as Hlt.
    unfold BaseRenew_close, bind, getattr, lift. rewrite Hr.
    cbn [getattr_value]. rewrite Hsub. unfold sub_value. rewrite Hs.
    cbn [truthy getattr_value].
    rewrite Hsub. unfold sub_value. rewrite Hs. cbn [getattr_value].
    rewrite (read_close (S n) (heap st) s os _ Hls Hts).
    assert (Hdrv : exists owner,
               type_lookup (ob_class os) "close" = Some (owner, CMethod) /\
               (owner = c_base_cursor \/ owner = c_base_connection)).
    { destruct os as [c cl cn cf d]; simpl in *.
      destruct Hcls as [Hh|[-> | ->]];
        [destruct c; try discriminate|..]; eexists; (split; [reflexivity|]); auto. }
    destruct Hdrv as (owner & -> & Howner).
    unfold call_value. rewrite call_S.
    assert (Hbody : method_body drv (S n) (call drv (S n)) owner "close" s [] []
                    = base_close drv s)
      by (destruct Howner as [-> | ->]; reflexivity).
    rewrite Hbody. unfold base_close.
    destruct (close_fails drv st s); [reflexivity|].
    rewrite Hls. unfold ret.
    assert (Hl' : heap (set_heap (log st (EvClose s))
                          (<[s := with_closed os true]> (heap st))) !! self = Some o).
    { simpl. rewrite list_lookup_insert_ne by lia. exact Hl. }
    rewrite (super_close_raises self o _ Hl' Hc). reflexivity.
  - intros Hh. change (3 + n) with (S (S (S n))).
    unfold invoke, bind, getattr, lift. cbn [getattr_value].
    rewrite (read_close (S (S n)) (heap st) self o _ Hl Ht).
    destruct o as [c cl cn cf d]; simpl in *.
    destruct c; try discriminate; reflexivity.
Qed.

Lemma BaseRenew_close_witness :
  call quiet 3 c_BaseRenew "close" 0 [VBool true] [] st_conn_successor
  = (Raise (attribute_error "close"),
     {| heap := [conn_obj false [("_sub_obj", VRef 1)]; conn_obj true []];
        trace := [EvClose 1] |}) /\
  invoke quiet 3 (VRef 0) "close" [] [] st_conn_successor
  = base_close quiet 0 st_conn_successor.
Proof.
  destruct (BaseRenew_close_raises_AttributeError quiet 0 st_conn_successor 0
              (conn_obj false [("_sub_obj", VRef 1)]) (VBool true))
    as (_ & _ & Hcascade & Hdriver); try reflexivity.
  split.
  - exact (Hcascade 1 (conn_obj false []) eq_refl eq_refl eq_refl (or_introl eq_refl)).
  - exact (Hdriver eq_refl).
Defined.

(** C9 as stated fails: [close()] on an open [RenewCursor] returns; it is
    the driver's close, which marks the cursor closed. *)
Lemma close_on_handle_returns :
  let r := invoke quiet 6 (VRef 1) "close" [] [] st_open in
  fst r = Ret VNone /\
  (forall e, fst r <> Raise e) /\
  snd r = {| heap := [conn_obj false []; cur_obj 0 true []]; trace := [EvClose 1] |}.
Proof. cbv zeta. repeat split. intros e. vm_compute. discriminate. Qed.

(** C6 at [st_conn_successor]: [close()] on connection 0, whose successor
    is connection 1, returns after the driver has closed connection 0
    only; the successor is still open. *)
Theorem close_leaves_successor_open :
  let r := invoke quiet 6 (VRef 0) "close" [] [] st_conn_successor in
  fst r = Ret VNone /\
  trace (snd r) = [EvClose 0] /\
  heap (snd r) = [conn_obj true [("_sub_obj", VRef 1)]; conn_obj false []].
Proof. cbv zeta. repeat split. Qed.

(** ** Execute *)

(** An error of the attempt that is not an [InterfaceError] goes to the
    caller as it is. *)
Lemma other_errors_propagate drv n self args kwargs st e st1 :
  execute_prechecks n (call drv n) self st = (Ret tt, st) ->
  call_private_execute n (call drv n) self args kwargs st = (Raise e, st1) ->
  is_InterfaceError (e_class e) = false ->
  call drv (S n) c_RenewCursor "execute" self args kwargs st = (Raise e, st1).
Proof.
  intros Hpre Hex He. rewrite call_S. cbn.
  unfold RenewCursor_execute, bind at 1. rewrite Hpre.
  unfold bind, try_except. rewrite Hex, He. reflexivity.
Qed.

(** The handler does the same whatever the error: the test of line 176
    is on a constant. *)
Lemma handler_ignores_the_error drv n self args kwargs e e' :
  execute_handler n (call drv n) self args kwargs e
  = execute_handler n (call drv n) self args kwargs e'.
Proof. reflexivity. Qed.

(** C1 at [st_open]: the attempt raises an [InterfaceError] whose message
    is neither of the two closed-handle messages.  The caller gets
    [NameError], not that error, and the cursor has been closed. *)
Theorem other_InterfaceError_is_not_reraised :
  let e := interface_error "lost synchronization with server" in
  let r := invoke (execute_raises e) 6 (VRef 1) "execute" select1 [] st_open in
  fst r = Raise (name_error "logging") /\
  fst r <> Raise e /\
  trace (snd r) = [EvExecute 1 select1 []; EvClose 1] /\
  heap (snd r) = [conn_obj false []; cur_obj 0 true []].
Proof. cbv zeta. repeat split. vm_compute. discriminate. Qed.

(** C2 at [st_conn_closed]: [execute] on a cursor whose connection reports
    closed raises [NameError]; nothing is constructed, no successor is
    attached, the driver is not called. *)
Theorem closed_connection_is_not_renewed :
  invoke quiet 6 (VRef 1) "execute" select1 [] st_conn_closed
  = (Raise (name_error "logging"), st_conn_closed).
Proof. reflexivity. Qed.

(** C3 at [st_open]: the attempt raises "connection already closed".  The
    cursor is closed, not the connection; there is no renewal and no
    second attempt; the caller gets [NameError]. *)
Theorem closed_connection_error_closes_cursor :
  let e := interface_error "connection already closed" in
  let r := invoke (execute_raises e) 6 (VRef 1) "execute" select1 [] st_open in
  fst r = Raise (name_error "logging") /\
  trace (snd r) = [EvExecute 1 select1 []; EvClose 1] /\
  heap (snd r) = [conn_obj false []; cur_obj 0 true []].
Proof. cbv zeta. repeat split. Qed.

(** C4 at [st_open]: the attempt raises "cursor already closed".  The
    cursor is closed once; then the caller gets [NameError]: there is no
    renewal and no second attempt. *)
Theorem closed_cursor_error_is_not_retried :
  let e := interface_error "cursor already closed" in
  let r := invoke (execute_raises e) 6 (VRef 1) "execute" select1 [] st_open in
  fst r = Raise (name_error "logging") /\
  trace (snd r) = [EvExecute 1 select1 []; EvClose 1] /\
  heap (snd r) = [conn_obj false []; cur_obj 0 true []].
Proof. cbv zeta. repeat split. Qed.

(** C8 at [st_both_closed] and [st_cur_closed]: with connection and
    cursor both reporting closed, [execute] raises [NameError] at the
    first check and [solve_conn_curs] runs in neither; with only the
    cursor reporting closed it raises at the second check, again without
    [solve_conn_curs]. *)
Theorem prechecks_do_not_renew :
  invoke quiet 6 (VRef 1) "execute" select1 [] st_both_closed
  = (Raise (name_error "logging"), st_both_closed) /\
  invoke quiet 6 (VRef 1) "execute" select1 [] st_cur_closed
  = (Raise (name_error "logging"), st_cur_closed).
Proof. split; reflexivity. Qed.

(** ** Reads on a tidy RetryConnection *)

Section ConnectionReads.

Variables (h : list obj) (a : addr) (o : obj) (len : nat).
Hypothesis Hl : h !! a = Some o.
Hypothesis Ht : tidy_at a len o = true.
Hypothesis Hc : ob_class o = c_RetryConnection.

Let Hsubclass : issubclass (ob_class o) c_BaseRenew = true.
Proof. rewrite Hc. reflexivity. Qed.

Ltac open_read :=
  rewrite getattribute_S; unfold getattribute_frame; rewrite Hl;
  pose proof (tidy_private a len o "__fix_attrs__" Ht eq_refl) as Hfix;
  destruct o as [c cl cn cf d];
  cbn [ob_class ob_dict ob_closed ob_cursor_factory ob_connection] in *;
  subst c; cbn -[getattribute]; rewrite ?Hfix; cbn -[getattribute].

Lemma conn_read_private n k dflt :
  In (k, dflt) [("_args", VTuple []); ("_kwargs", VDict []); ("_sub_obj", VNone)] ->
  getattribute (S n) h a k =
  Ret (match dict_get (ob_dict o) k with Some v => v | None => dflt end).
Proof.
  intros Hk.
  repeat (destruct Hk as [Hk|Hk];
          [injection Hk as <- <-; open_read;
           match goal with
           | |- context [dict_get ?d ?k] => destruct (dict_get d k)
           end; reflexivity|]).
  contradiction.
Qed.

Lemma conn_read_cursor_factory n :
  getattribute (S n) h a "cursor_factory" = Ret (ob_cursor_factory o).
Proof. open_read. reflexivity. Qed.

Lemma conn_read_class n :
  getattribute (S n) h a "__class__" = Ret (VClass c_RetryConnection).
Proof. open_read. reflexivity. Qed.

Lemma conn_read_method n name :
  In name ["solve_conn_curs"; "_RetryConnection__cursor"; "cursor"] ->
  getattribute (S n) h a name =
  Ret (VMethod a (if String.eqb name "solve_conn_curs" then c_BaseRenew
                  else c_RetryConnection) name).
Proof.
  intros Hn.
  assert (Hd : dict_get (ob_dict o) name = None).
  { apply (tidy_private a len o name Ht).
    simpl in Hn. repeat (destruct Hn as [<-|Hn]; [reflexivity|]). contradiction. }
  open_read.
  repeat (destruct Hn as [<-|Hn]; [cbn; rewrite Hd; reflexivity|]). contradiction.
Qed.

Lemma conn_read_closed n :
  getattribute (S (S (S n))) h a "closed" =
  match successor o with
  | Some s => getattribute (S (S n)) h s "closed"
  | None => Ret (VBool (ob_closed o))
  end.
Proof.
  pose proof (read_sub n h a o len Hl Ht Hsubclass) as Hsub.
  rewrite getattribute_S. unfold getattribute_frame. rewrite Hl, Hsub.
  pose proof (tidy_private a len o "__fix_attrs__" Ht eq_refl) as Hfix.
  unfold sub_value. destruct (successor o) as [s|]; cbn [truthy];
    destruct o as [c cl cn cf d]; simpl in *; subst c; cbn; rewrite ?Hfix; cbn;
    reflexivity.
Qed.

Lemma conn_read_stored n :
  getattribute (S (S n)) h a "args" =
    Ret (match dict_get (ob_dict o) "_args" with Some v => v | None => VTuple [] end) /\
  getattribute (S (S n)) h a "kwargs" =
    Ret (match dict_get (ob_dict o) "_kwargs" with Some v => v | None => VDict [] end).
Proof.
  pose proof (conn_read_private n "_args" (VTuple [])) as Ha.
  pose proof (conn_read_private n "_kwargs" (VDict [])) as Hk.
  split; open_read; [rewrite Ha | rewrite Hk]; simpl; auto.
Qed.

End ConnectionReads.

(** ** RetryConnection.cursor *)

(** Case analysis on the assignments of lines 231-232, in order. *)
Ltac run_stores :=
  repeat (cbv beta iota delta [ret]; try reflexivity;
          match goal with
          | |- context [setattr_value ?c ?k ?v ?s] =>
              is_var s; destruct (setattr_value c k v s) as [[[]| |] ?]
          end).

Lemma call_RetryConnection_cursor drv n self args kwargs :
  call drv (S n) c_RetryConnection "cursor" self args kwargs
  = RetryConnection_cursor n (call drv n) self args kwargs.
Proof. reflexivity. Qed.

Lemma call_private_cursor drv n self args kwargs :
  call drv (S n) c_RetryConnection "_RetryConnection__cursor" self args kwargs
  = RetryConnection_private_cursor n (call drv n) self args kwargs.
Proof. reflexivity. Qed.

Lemma call_base_cursor drv n self args kwargs :
  call drv (S n) c_base_connection "cursor" self args kwargs
  = base_connection_cursor drv n (call drv n) self args kwargs.
Proof. reflexivity. Qed.

Lemma super_cursor_is_driver st a o :
  heap st !! a = Some o -> ob_class o = c_RetryConnection ->
  super_getattr c_RetryConnection a "cursor" st
  = (Ret (VMethod a c_base_connection "cursor"), st).
Proof. intros Hl Hc. unfold super_getattr, lift. rewrite Hl, Hc. reflexivity. Qed.

(** [self.__cursor(...)] on a connection without successor is the
    driver's [cursor]. *)
Lemma private_cursor_no_successor drv n st a o args kwargs :
  heap st !! a = Some o -> tidy_at a (length (heap st)) o = true ->
  ob_class o = c_RetryConnection -> successor o = None ->
  call drv (S (S (S n))) c_RetryConnection "_RetryConnection__cursor" a args kwargs st
  = base_connection_cursor drv (S n) (call drv (S n)) a args kwargs st.
Proof.
  intros Hl Ht Hc Hs.
  rewrite call_private_cursor. unfold RetryConnection_private_cursor.
  unfold bind at 1, getattr, lift. cbn [getattr_value].
  rewrite (read_sub n (heap st) a o _ Hl Ht) by (rewrite Hc; reflexivity).
  unfold sub_value. rewrite Hs. cbn [truthy].
  unfold bind. rewrite (super_cursor_is_driver st a o Hl Hc).
  unfold call_value. rewrite call_base_cursor. reflexivity.
Qed.

(** [cursor()] on an open connection without successor. *)
Lemma cursor_no_successor drv n st a o args kwargs :
  heap st !! a = Some o -> tidy_at a (length (heap st)) o = true ->
  ob_class o = c_RetryConnection -> successor o = None -> ob_closed o = false ->
  call drv (S (S (S (S n)))) c_RetryConnection "cursor" a args kwargs st
  = cursor_through drv (S n) a 1 args (resolved_kwargs o kwargs) st.
Proof.
  intros Hl Ht Hc Hs Hcl.
  rewrite call_RetryConnection_cursor. unfold RetryConnection_cursor.
  unfold bind at 1, getattr, lift. cbn [getattr_value].
  rewrite (conn_read_cursor_factory (heap st) a o _ Hl Ht Hc).
  unfold bind at 1. unfold bind at 1, getattr, lift. cbn [getattr_value].
  rewrite (conn_read_closed (heap st) a o _ Hl Ht Hc), Hs, Hcl. cbn [truthy].
  unfold ret at 1. unfold bind at 1, getattr, lift. cbn [getattr_value].
  rewrite (conn_read_method (heap st) a o _ Hl Ht Hc) by (simpl; auto).
  cbn [String.eqb Ascii.eqb Bool.eqb]. unfold call_value at 1.
  unfold bind at 1.
  rewrite (private_cursor_no_successor drv n st a o _ _ Hl Ht Hc Hs).
  unfold cursor_through, resolved_kwargs, store_spec, bind.
  destruct (base_connection_cursor _ _ _ _ _ _ _) as [[cur| |] st1]; try reflexivity.
  run_stores.
Qed.

(** ** Renewal of a connection *)

Lemma lookup_fresh (h : list obj) (x : obj) : (h ++ [x]) !! length h = Some x.
Proof. apply list_lookup_middle. reflexivity. Qed.

Lemma insert_fresh (h : list obj) (x y : obj) : <[length h := y]> (h ++ [x]) = h ++ [y].
Proof.
  rewrite insert_app_r_alt by lia. rewrite Nat.sub_diag. reflexivity.
Qed.

(** [RetryConnection( *a0, **k0)]: the driver connects, then the
    arguments are stored. *)
Lemma construct_connection drv n st a0 k0 :
  instantiate (call drv (S (S (S n)))) c_RetryConnection a0 k0 st =
  let s := length (heap st) in
  let tr := trace st ++ [EvConnect s a0 k0] in
  match connect_fails drv (set_heap st (heap st ++ [blank c_RetryConnection])) s a0 k0 with
  | Some e => (Raise e, {| heap := heap st ++ [blank c_RetryConnection]; trace := tr |})
  | None => (Ret (VRef s), {| heap := heap st ++ [fresh_connection a0 k0]; trace := tr |})
  end.
Proof.
  unfold instantiate.
  change (type_lookup c_RetryConnection "__init__") with (Some (c_RetryConnection, CMethod)).
  cbv zeta. cbv beta iota.
  unfold bind at 1. rewrite call_S.
  change (method_body drv (S (S n)) (call drv (S (S n))) c_RetryConnection "__init__")
    with (RetryConnection_init (call drv (S (S n)))).
  unfold RetryConnection_init. unfold bind at 1. rewrite call_S.
  change (method_body drv (S n) (call drv (S n)) c_base_connection "__init__")
    with (base_connection_init drv).
  unfold base_connection_init.
  destruct (connect_fails drv _ _ a0 k0) as [e|]; [reflexivity|].
  unfold bind at 1. rewrite call_S.
  change (method_body drv (S n) (call drv (S n)) c_BaseRenew "__init__")
    with (BaseRenew_init).
  unfold BaseRenew_init, bind, setattr, ret. cbn [heap log set_heap trace].
  rewrite lookup_fresh. cbn. rewrite insert_fresh, lookup_fresh. cbn.
  rewrite insert_fresh. reflexivity.
Qed.

Lemma call_solve drv n self cur_conn :
  call drv (S n) c_BaseRenew "solve_conn_curs" self [cur_conn] []
  = solve_conn_curs n (call drv n) self cur_conn.
Proof. reflexivity. Qed.

(** [self.solve_conn_curs(self)] on a connection (line 129). *)
Lemma renew_connection drv n st a o a0 k0 :
  heap st !! a = Some o -> tidy_at a (length (heap st)) o = true ->
  ob_class o = c_RetryConnection ->
  dict_get (ob_dict o) "_args" = Some (VTuple a0) ->
  dict_get (ob_dict o) "_kwargs" = Some (VDict k0) ->
  connect_fails drv (set_heap st (heap st ++ [blank c_RetryConnection]))
    (length (heap st)) a0 k0 = None ->
  renew_self (S (S (S (S n)))) (call drv (S (S (S (S n))))) a st = (Ret tt, renewed st a o a0 k0).
Proof.
  intros Hl Ht Hc Ha Hk Hok.
  unfold renew_self, bind at 1, getattr, lift. cbn [getattr_value].
  rewrite (conn_read_method (heap st) a o _ Hl Ht Hc) by (simpl; auto).
  cbn [String.eqb Ascii.eqb Bool.eqb]. unfold call_value at 1.
  rewrite call_solve. unfold solve_conn_curs.
  unfold bind, getattr, lift. cbn [getattr_value].
  rewrite !(conn_read_class (heap st) a o _ Hl Ht Hc).
  change (issubclass_value (VClass c_RetryConnection) c_base_cursor) with false.
  cbv beta iota.
  rewrite !(conn_read_class (heap st) a o _ Hl Ht Hc).
  change (issubclass_value (VClass c_RetryConnection) c_base_connection) with true.
  cbv beta iota.
  rewrite !(conn_read_class (heap st) a o _ Hl Ht Hc).
  destruct (conn_read_stored (heap st) a o _ Hl Ht Hc (S n)) as [Hra Hrk].
  rewrite Hra, Hrk, Ha, Hk. unfold unpack_args, unpack_kwargs, ret.
  unfold call_value.
  rewrite (construct_connection drv n st a0 k0). cbv zeta. rewrite Hok.
  unfold setattr. cbn [heap].
  assert (Hlen : a < length (heap st)) by (eapply lookup_lt_Some; eassumption).
  rewrite lookup_app_l by exact Hlen. rewrite Hl, Hc.
  change (type_lookup c_RetryConnection "sub") with (Some (c_BaseRenew, CProperty)).
  cbv beta iota. unfold store. rewrite Hc. reflexivity.
Qed.

Lemma setdefault_present d k v w :
  dict_get d k = Some w -> setdefault d k v = d.
Proof. unfold setdefault. intros ->. reflexivity. Qed.



(** The part of [cursor()] after the renewal check (lines 229-233), on a
    connection whose successor [s] is an open [RetryConnection] without
    successor: the driver's [cursor] runs on [s]. *)
Lemma cursor_tail_through_successor drv n st a o s os args kw f :
  heap st !! a = Some o -> tidy_at a (length (heap st)) o = true ->
  ob_class o = c_RetryConnection -> successor o = Some s ->
  heap st !! s = Some os -> tidy_at s (length (heap st)) os = true ->
  ob_class os = c_RetryConnection -> successor os = None -> ob_closed os = false ->
  dict_get kw "cursor_factory" = Some f ->
  (let! g := getattr (S (S (S (S (S n))))) (VRef a) "_RetryConnection__cursor" in
   let! cursor := call_value (call drv (S (S (S (S (S n)))))) g args kw in
   do! setattr_value cursor "args" (VTuple args) in
   do! setattr_value cursor "kwargs" (VDict kw) in
   ret cursor) st
  = cursor_through drv (S n) s 2 args kw st.
Proof.
  intros Hl Ht Hc Hs Hls Hts Hcs Hss Hcls Hkw.
  unfold bind at 1, getattr, lift. cbn [getattr_value].
  rewrite (conn_read_method (heap st) a o _ Hl Ht Hc) by (simpl; auto).
  cbn [String.eqb Ascii.eqb Bool.eqb]. unfold call_value at 1.
  rewrite call_private_cursor. unfold RetryConnection_private_cursor.
  unfold bind at 1. unfold bind at 1, getattr, lift. cbn [getattr_value].
  rewrite (read_sub (S (S n)) (heap st) a o _ Hl Ht) by (rewrite Hc; reflexivity).
  unfold sub_value. rewrite Hs. cbn [truthy].
  unfold bind at 1, getattr, lift. cbn [getattr_value].
  rewrite (read_sub (S (S n)) (heap st) a o _ Hl Ht) by (rewrite Hc; reflexivity).
  unfold sub_value. rewrite Hs.
  unfold bind at 1, getattr, lift. cbn [getattr_value].
  rewrite (conn_read_method (heap st) s os _ Hls Hts Hcs) by (simpl; auto).
  cbn [String.eqb Ascii.eqb Bool.eqb]. unfold call_value at 1.
  rewrite (cursor_no_successor drv n st s os args kw Hls Hts Hcs Hss Hcls).
  unfold resolved_kwargs. rewrite (setdefault_present _ _ _ _ Hkw).
  unfold cursor_through, store_spec, bind.
  destruct (base_connection_cursor _ _ _ _ _ _ _) as [[cur| |] st1]; try reflexivity.
  run_stores.
Qed.

Lemma dict_get_set_same d k v : dict_get (dict_set d k v) k = Some v.
Proof.
  induction d as [|[k' v'] d IH]; simpl.
  - rewrite String.eqb_refl. reflexivity.
  - destruct (String.eqb k' k) eqn:E; simpl.
    + rewrite String.eqb_refl. reflexivity.
    + rewrite E. exact IH.
Qed.

Lemma dict_get_set_other d k v k' :
  k <> k' -> dict_get (dict_set d k v) k' = dict_get d k'.
Proof.
  intros Hne. induction d as [|[k0 v0] d IH]; simpl.
  - destruct (String.eqb_spec k k'); [contradiction|reflexivity].
  - destruct (String.eqb_spec k0 k) as [->|Hk0]; simpl.
    + destruct (String.eqb_spec k k'); [contradiction|reflexivity].
    + destruct (String.eqb k0 k'); [reflexivity|exact IH].
Qed.

Lemma private_keys_dict_set d k v :
  forallb (fun kv : string * value => private_key (fst kv)) d = true ->
  private_key k = true ->
  forallb (fun kv : string * value => private_key (fst kv)) (dict_set d k v) = true.
Proof.
  intros Hd Hk. induction d as [|[k' v'] d IH]; simpl.
  - rewrite Hk. reflexivity.
  - simpl in Hd. apply andb_true_iff in Hd as [Hk' Hd].
    destruct (String.eqb k' k); simpl.
    + rewrite Hk. exact Hd.
    + rewrite Hk'. apply IH, Hd.
Qed.

(** The two objects that matter in [renewed]. *)
Lemma renewed_shape st a o a0 k0 :
  heap st !! a = Some o -> tidy_at a (length (heap st)) o = true ->
  let st' := renewed st a o a0 k0 in
  let s := length (heap st) in
  let o' := with_dict o (dict_set (ob_dict o) "_sub_obj" (VRef s)) in
  heap st' !! a = Some o' /\
  tidy_at a (length (heap st')) o' = true /\
  successor o' = Some s /\
  heap st' !! s = Some (fresh_connection a0 k0) /\
  tidy_at s (length (heap st')) (fresh_connection a0 k0) = true.
Proof.
  intros Hl Ht. cbv zeta.
  assert (Hlen : a < length (heap st)) by (eapply lookup_lt_Some; eassumption).
  unfold renewed. cbn [heap].
  assert (Hlen' : length (<[a := with_dict o (dict_set (ob_dict o) "_sub_obj"
                                   (VRef (length (heap st))))]>
                            (heap st ++ [fresh_connection a0 k0]))
                  = S (length (heap st))).
  { rewrite length_insert, length_app. simpl. lia. }
  rewrite Hlen'.
  split; [|split; [|split; [|split]]].
  - apply list_lookup_insert_eq. rewrite length_app. simpl. lia.
  - unfold tidy_at in *. apply andb_true_iff in Ht as [Hkeys _].
    cbn [ob_dict with_dict]. rewrite private_keys_dict_set by (auto; reflexivity).
    rewrite dict_get_set_same. simpl.
    apply andb_true_iff. split; apply Nat.ltb_lt; lia.
  - unfold successor. cbn [ob_dict with_dict]. rewrite dict_get_set_same. reflexivity.
  - rewrite list_lookup_insert_ne by lia. apply lookup_fresh.
  - reflexivity.
Qed.


(** ** Stored arguments and the successor slot *)

(** Reads of the three properties need no more of the object than that
    its dictionary does not shadow [__fix_attrs__]. *)
Lemma read_property n h a o :
  h !! a = Some o ->
  issubclass (ob_class o) c_BaseRenew = true ->
  dict_get (ob_dict o) "__fix_attrs__" = None ->
  getattribute (S (S n)) h a "args" = Ret (stored o "_args" (VTuple [])) /\
  getattribute (S (S n)) h a "kwargs" = Ret (stored o "_kwargs" (VDict [])) /\
  getattribute (S (S n)) h a "sub" = Ret (py_or (stored o "_sub_obj" VNone) VNone).
Proof.
  intros Hl Hc Hfix. apply has_BaseRenew_cases in Hc.
  rewrite !(getattribute_S (S n)).
  unfold getattribute_frame at 1 2 3, stored. rewrite Hl.
  destruct o as [c cl cn cf d];
    cbn [ob_class ob_dict ob_closed ob_cursor_factory ob_connection] in *.
  destruct Hc as [-> | [-> | ->]]; cbn -[getattribute]; rewrite ?Hfix;
    cbn -[getattribute];
    rewrite ?getattribute_S; unfold getattribute_frame; rewrite ?Hl;
    cbn -[getattribute]; rewrite ?Hfix; cbn -[getattribute];
    repeat split;
    repeat match goal with
           | |- context [dict_get d ?k] => destruct (dict_get d k)
           end; reflexivity.
Qed.

Lemma BaseRenew_props c :
  issubclass c c_BaseRenew = true ->
  type_lookup c "args" = Some (c_BaseRenew, CProperty) /\
  type_lookup c "kwargs" = Some (c_BaseRenew, CProperty) /\
  type_lookup c "sub" = Some (c_BaseRenew, CProperty) /\
  has_dict c = true.
Proof.
  intros Hc. apply has_BaseRenew_cases in Hc as [-> | [-> | ->]];
    repeat split; reflexivity.
Qed.

Lemma call_BaseRenew_init drv n self args kwargs :
  call drv (S n) c_BaseRenew "__init__" self args kwargs
  = BaseRenew_init self args kwargs.
Proof. reflexivity. Qed.

(** X1. [BaseRenew.__init__] (lines 33-35) and the [args] and [kwargs]
    properties (lines 37-75) round-trip: after the constructor has run on
    an object, reading [args] gives the positional arguments and reading
    [kwargs] the keyword arguments it was called with; [sub], the trace
    and every other object are as before. *)
Theorem init_arguments_read_back
    (drv : driver) (n m : nat) (st : state) (a : addr) (o : obj)
    (args : list value) (kwargs : kwargs_t) :
  heap st !! a = Some o ->
  issubclass (ob_class o) c_BaseRenew = true ->
  dict_get (ob_dict o) "__fix_attrs__" = None ->
  exists st',
    call drv (S n) c_BaseRenew "__init__" a args kwargs st = (Ret VNone, st') /\
    getattribute (S (S m)) (heap st') a "args" = Ret (VTuple args) /\
    getattribute (S (S m)) (heap st') a "kwargs" = Ret (VDict kwargs) /\
    getattribute (S (S m)) (heap st') a "sub" = getattribute (S (S m)) (heap st) a "sub" /\
    trace st' = trace st /\
    (forall b, b <> a -> heap st' !! b = heap st !! b).
Proof.
  intros Hl Hc Hfix.
  destruct (BaseRenew_props _ Hc) as (Ha & Hk & _ & Hd).
  assert (Hlen : a < length (heap st)) by (eapply lookup_lt_Some; eassumption).
  set (d' := dict_set (dict_set (ob_dict o) "_args" (VTuple args)) "_kwargs" (VDict kwargs)).
  exists (set_heap st (<[a := with_dict o d']> (heap st))).
  assert (Hl' : <[a := with_dict o d']> (heap st) !! a = Some (with_dict o d'))
    by (apply list_lookup_insert_eq; exact Hlen).
  assert (Hfix' : dict_get (ob_dict (with_dict o d')) "__fix_attrs__" = None).
  { cbn [ob_dict with_dict]. unfold d'.
    rewrite !dict_get_set_other by discriminate. exact Hfix. }
  destruct (read_property m _ a (with_dict o d') Hl' Hc Hfix') as (Ra & Rk & Rs).
  destruct (read_property m _ a o Hl Hc Hfix) as (_ & _ & Rs0).
  split; [|split; [|split; [|split; [|split]]]].
  - rewrite call_BaseRenew_init.
    unfold BaseRenew_init, bind, setattr, store, ret.
    rewrite Hl, Ha, Hd. cbn [heap set_heap private_name String.eqb Ascii.eqb Bool.eqb].
    rewrite list_lookup_insert_eq by exact Hlen.
    cbn [ob_class with_dict]. rewrite Hk, Hd.
    cbn [private_name String.eqb Ascii.eqb Bool.eqb ob_dict with_dict heap set_heap].
    rewrite list_insert_insert_eq. reflexivity.
  - cbn [heap set_heap]. rewrite Ra. unfold stored, d'. cbn [ob_dict with_dict].
    rewrite dict_get_set_other by discriminate. rewrite dict_get_set_same. reflexivity.
  - cbn [heap set_heap]. rewrite Rk. unfold stored, d'. cbn [ob_dict with_dict].
    rewrite dict_get_set_same. reflexivity.
  - cbn [heap set_heap]. rewrite Rs, Rs0. unfold stored, d'. cbn [ob_dict with_dict].
    rewrite !dict_get_set_other by discriminate. reflexivity.
  - reflexivity.
  - intros b Hb. cbn [heap set_heap]. apply list_lookup_insert_ne. congruence.
Qed.

Lemma init_arguments_witness :
  exists st',
    call quiet 1 c_BaseRenew "__init__" 0 [VStr "dbname=other"] [("async", VInt 0)] st_open
    = (Ret VNone, st') /\
    getattribute 2 (heap st') 0 "args" = Ret (VTuple [VStr "dbname=other"]) /\
    getattribute 2 (heap st') 0 "kwargs" = Ret (VDict [("async", VInt 0)]).
Proof.
  destruct (init_arguments_read_back quiet 0 0 st_open 0 (conn_obj false [])
              [VStr "dbname=other"] [("async", VInt 0)])
    as (st' & Hrun & Ha & Hk & _).
  - reflexivity.
  - reflexivity.
  - reflexivity.
  - exists st'. auto.
Defined.

(** X2. The [sub] property (lines 77-96): after [h.sub = v], reading
    [h.sub] gives [v] when [v] is true and [None] when it is false (the
    getter ends in [or None]); the stored arguments are untouched. *)
Theorem sub_reads_back_or_None
    (n : nat) (st : state) (a : addr) (o : obj) (v : value) :
  heap st !! a = Some o ->
  issubclass (ob_class o) c_BaseRenew = true ->
  dict_get (ob_dict o) "__fix_attrs__" = None ->
  exists st',
    setattr a "sub" v st = (Ret tt, st') /\
    getattribute (S (S n)) (heap st') a "sub" = Ret (if truthy v then v else VNone) /\
    getattribute (S (S n)) (heap st') a "args" = getattribute (S (S n)) (heap st) a "args" /\
    getattribute (S (S n)) (heap st') a "kwargs" = getattribute (S (S n)) (heap st) a "kwargs" /\
    trace st' = trace st.
Proof.
  intros Hl Hc Hfix.
  destruct (BaseRenew_props _ Hc) as (_ & _ & Hs & Hd).
  assert (Hlen : a < length (heap st)) by (eapply lookup_lt_Some; eassumption).
  set (d' := dict_set (ob_dict o) "_sub_obj" v).
  exists (set_heap st (<[a := with_dict o d']> (heap st))).
  assert (Hl' : <[a := with_dict o d']> (heap st) !! a = Some (with_dict o d'))
    by (apply list_lookup_insert_eq; exact Hlen).
  assert (Hfix' : dict_get (ob_dict (with_dict o d')) "__fix_attrs__" = None).
  { cbn [ob_dict with_dict]. unfold d'.
    rewrite dict_get_set_other by discriminate. exact Hfix. }
  destruct (read_property n _ a (with_dict o d') Hl' Hc Hfix') as (Ra & Rk & Rs).
  destruct (read_property n _ a o Hl Hc Hfix) as (Ra0 & Rk0 & _).
  split; [|split; [|split; [|split]]].
  - unfold setattr, store. rewrite Hl, Hs, Hd. reflexivity.
  - cbn [heap set_heap]. rewrite Rs. unfold stored, d'. cbn [ob_dict with_dict].
    rewrite dict_get_set_same. unfold py_or. destruct (truthy v); reflexivity.
  - cbn [heap set_heap]. rewrite Ra, Ra0. unfold stored, d'. cbn [ob_dict with_dict].
    rewrite dict_get_set_other by discriminate. reflexivity.
  - cbn [heap set_heap]. rewrite Rk, Rk0. unfold stored, d'. cbn [ob_dict with_dict].
    rewrite dict_get_set_other by discriminate. reflexivity.
  - reflexivity.
Qed.

Lemma sub_reads_back_witness :
  exists st',
    setattr 1 "sub" (VInt 0) st_open = (Ret tt, st') /\
    getattribute 2 (heap st') 1 "sub" = Ret VNone.
Proof.
  destruct (sub_reads_back_or_None 0 st_open 1 (cur_obj 0 false []) (VInt 0))
    as (st' & Hset & Hsub & _).
  - reflexivity.
  - reflexivity.
  - reflexivity.
  - exists st'. auto.
Defined.

(** ** Constructors *)

(** X3. [RetryConnection( *a0, **k0)] (lines 210-212): the driver
    connects once, with exactly these arguments, before anything is
    stored.  When the connect raises, the error reaches the caller and the
    arguments are not stored; otherwise the new connection is open, has no
    successor, and reads back [a0] and [k0].  Older objects are untouched. *)
Theorem connection_constructor
    (drv : driver) (n m : nat) (st : state) (a0 : list value) (k0 : kwargs_t) :
  let s := length (heap st) in
  let r := instantiate (call drv (S (S (S n)))) c_RetryConnection a0 k0 st in
  trace (snd r) = trace st ++ [EvConnect s a0 k0] /\
  (forall b, b < s -> heap (snd r) !! b = heap st !! b) /\
  match connect_fails drv (set_heap st (heap st ++ [blank c_RetryConnection])) s a0 k0 with
  | Some e =>
      fst r = Raise e /\
      getattribute (S (S m)) (heap (snd r)) s "args" = Ret (VTuple []) /\
      getattribute (S (S m)) (heap (snd r)) s "kwargs" = Ret (VDict [])
  | None =>
      fst r = Ret (VRef s) /\
      getattribute (S (S m)) (heap (snd r)) s "args" = Ret (VTuple a0) /\
      getattribute (S (S m)) (heap (snd r)) s "kwargs" = Ret (VDict k0) /\
      getattribute (S (S m)) (heap (snd r)) s "sub" = Ret VNone /\
      getattribute (S (S (S m))) (heap (snd r)) s "closed" = Ret (VBool false)
  end.
Proof.
  cbv zeta. rewrite construct_connection. cbv zeta.
  destruct (connect_fails drv _ _ a0 k0) as [e|]; cbn [fst snd heap trace].
  - split; [reflexivity|]. split.
    + intros b Hb. apply lookup_app_l. exact Hb.
    + destruct (read_property m (heap st ++ [blank c_RetryConnection]) (length (heap st))
                  (blank c_RetryConnection) (lookup_fresh _ _) eq_refl eq_refl)
        as (Ra & Rk & _).
      split; [reflexivity|]. split; assumption.
  - split; [reflexivity|]. split.
    + intros b Hb. apply lookup_app_l. exact Hb.
    + destruct (read_property m (heap st ++ [fresh_connection a0 k0]) (length (heap st))
                  (fresh_connection a0 k0) (lookup_fresh _ _) eq_refl eq_refl)
        as (Ra & Rk & Rs).
      split; [reflexivity|]. split; [exact Ra|]. split; [exact Rk|]. split; [exact Rs|].
      rewrite (conn_read_closed (heap st ++ [fresh_connection a0 k0])
                 (length (heap st)) (fresh_connection a0 k0) (S (length (heap st)))
                 (lookup_fresh _ _) eq_refl eq_refl m).
      reflexivity.
Qed.

Lemma connection_constructor_witness :
  let r := instantiate (call quiet 3) c_RetryConnection [VStr "dbname=two"] [] st_open in
  fst r = Ret (VRef 2) /\
  trace (snd r) = [EvConnect 2 [VStr "dbname=two"] []] /\
  getattribute 2 (heap (snd r)) 2 "args" = Ret (VTuple [VStr "dbname=two"]) /\
  heap (snd r) !! 1 = heap st_open !! 1.
Proof.
  cbv zeta.
  destruct (connection_constructor quiet 0 0 st_open [VStr "dbname=two"] [])
    as (Htrace & Hold & Hnew & Hargs & _).
  split; [exact Hnew|]. split; [exact Htrace|]. split; [exact Hargs|].
  apply Hold. simpl. lia.
Defined.

Lemma call_RenewCursor_init drv n self args kwargs :
  call drv (S n) c_RenewCursor "__init__" self args kwargs
  = RenewCursor_init (call drv n) self args kwargs.
Proof. reflexivity. Qed.

Lemma call_base_cursor_init drv n self args kwargs :
  call drv (S n) c_base_cursor "__init__" self args kwargs
  = base_cursor_init self args kwargs.
Proof. reflexivity. Qed.

(** [RenewCursor(conn, ...)], lines 152-154, with arguments that the
    driver's constructor accepts. *)
Lemma construct_cursor
    (drv : driver) (n : nat) (st : state) (c : addr) (oc : obj)
    (args : list value) (kwargs : kwargs_t) (b : list (string * value)) :
  bind_args cursor_init_params args kwargs = Some b ->
  bound b "conn" = VRef c ->
  heap st !! c = Some oc ->
  issubclass (ob_class oc) c_base_connection = true ->
  instantiate (call drv (S (S (S n)))) c_RenewCursor args kwargs st
  = (Ret (VRef (length (heap st))),
     set_heap st (heap st ++ [fresh_cursor c args kwargs])).
Proof.
  intros Hb Hconn Hl Hc.
  assert (Hlen : c < length (heap st)) by (eapply lookup_lt_Some; eassumption).
  unfold instantiate.
  change (type_lookup c_RenewCursor "__init__") with (Some (c_RenewCursor, CMethod)).
  cbv beta iota zeta.
  unfold bind at 1. rewrite call_RenewCursor_init. unfold RenewCursor_init.
  unfold bind at 1. rewrite call_base_cursor_init. unfold base_cursor_init.
  rewrite Hb, Hconn.
  cbn [heap set_heap]. rewrite lookup_app_l by exact Hlen. rewrite Hl, Hc.
  rewrite lookup_fresh, insert_fresh.
  unfold bind at 1. rewrite call_BaseRenew_init.
  unfold BaseRenew_init, bind, setattr, ret. cbn [heap set_heap].
  rewrite lookup_fresh. cbn. rewrite insert_fresh, lookup_fresh. cbn.
  rewrite insert_fresh. reflexivity.
Qed.





(** ** Cursors made by a connection *)

Lemma read_class_of_handle n h a o :
  h !! a = Some o -> is_handle (ob_class o) = true ->
  dict_get (ob_dict o) "__fix_attrs__" = None ->
  getattribute (S n) h a "__class__" = Ret (VClass (ob_class o)).
Proof.
  intros Hl Hh Hfix. rewrite getattribute_S. unfold getattribute_frame. rewrite Hl.
  destruct o as [c cl cn cf d];
    cbn [ob_class ob_dict ob_closed ob_cursor_factory ob_connection] in *.
  destruct c; try discriminate; cbn -[getattribute]; rewrite Hfix; reflexivity.
Qed.

(** The driver's [cursor] when its arguments bind and the factory they
    give is [RenewCursor]. *)
Lemma driver_cursor_bound drv n st c oc args kw b :
  heap st !! c = Some oc ->
  issubclass (ob_class oc) c_base_connection = true ->
  bind_args cursor_params args kw = Some b ->
  bound b "cursor_factory" = VClass c_RenewCursor ->
  cursor_fails drv st c args kw = None ->
  base_connection_cursor drv (S (S (S n))) (call drv (S (S (S n)))) c args kw st
  = (Ret (VRef (length (heap st))),
     {| heap := heap st ++ [fresh_cursor c [VRef c; bound b "name"] []];
        trace := trace st ++ [EvCursor c args kw] |}).
Proof.
  intros Hl Hc Hb Hf Hok.
  unfold base_connection_cursor. rewrite Hb, Hok, Hl, Hf. cbv zeta beta iota.
  unfold bind at 1. unfold call_value at 1.
  rewrite (construct_cursor drv n (log st (EvCursor c args kw)) c oc
             [VRef c; bound b "name"] [] _ eq_refl eq_refl Hl Hc).
  unfold bind, getattr, lift. cbn [getattr_value heap set_heap log].
  match goal with
  | |- context [getattribute _ (?h ++ [?x]) (length ?h) "__class__"] =>
      rewrite (read_class_of_handle _ (h ++ [x]) (length h) x (lookup_fresh h x)
                 eq_refl eq_refl)
  end.
  reflexivity.
Qed.

(** At most one positional argument binds the first parameter. *)
Lemma bind_args_short p params args kw b :
  length args <= 1 ->
  bind_args (p :: params) args kw = Some b ->
  b = match args with v :: _ => [(p, v)] | [] => [] end ++ kw.
Proof.
  intros Hlen. unfold bind_args.
  destruct args as [|v [|w args]]; simpl in Hlen; try lia; cbn [bind_positional].
  all: match goal with |- context [forallb ?f ?k] => destruct (forallb f k) end;
    congruence.
Qed.

(** The driver's [cursor] with [RenewCursor] as the factory given by
    keyword. *)
Lemma driver_makes_RenewCursor drv n st c oc args kw :
  heap st !! c = Some oc ->
  issubclass (ob_class oc) c_base_connection = true ->
  length args <= 1 ->
  bind_args cursor_params args kw <> None ->
  dict_get kw "cursor_factory" = Some (VClass c_RenewCursor) ->
  cursor_fails drv st c args kw = None ->
  base_connection_cursor drv (S (S (S n))) (call drv (S (S (S n)))) c args kw st
  = (Ret (VRef (length (heap st))),
     {| heap := heap st ++
                [fresh_cursor c
                   [VRef c;
                    match args with
                    | v :: _ => v
                    | [] => match dict_get kw "name" with Some v => v | None => VNone end
                    end] []];
        trace := trace st ++ [EvCursor c args kw] |}).
Proof.
  intros Hl Hc Hlen Hbind Hkw Hok.
  destruct (bind_args cursor_params args kw) as [b|] eqn:Hb; [clear Hbind|congruence].
  pose proof (bind_args_short _ _ _ _ _ Hlen Hb) as Eb.
  rewrite (driver_cursor_bound drv n st c oc args kw b Hl Hc Hb); [|
    subst b; unfold bound; destruct args as [|v [|w args]]; simpl in Hlen; try lia;
    cbn; rewrite Hkw; reflexivity | exact Hok].
  subst b. unfold bound.
  destruct args as [|v [|w args]]; simpl in Hlen; try lia; reflexivity.
Qed.

(** [cursor()] with [RenewCursor] as the resolved factory, in full. *)
Lemma cursor_explicit
    (drv : driver) (n : nat) (st : state) (a : addr) (o : obj)
    (args : list value) (kwargs : kwargs_t) :
  heap st !! a = Some o ->
  tidy_at a (length (heap st)) o = true ->
  ob_class o = c_RetryConnection ->
  successor o = None ->
  ob_closed o = false ->
  length args <= 1 ->
  bind_args cursor_params args (resolved_kwargs o kwargs) <> None ->
  dict_get (resolved_kwargs o kwargs) "cursor_factory" = Some (VClass c_RenewCursor) ->
  cursor_fails drv st a args (resolved_kwargs o kwargs) = None ->
  call drv (S (S (S (S (S (S n)))))) c_RetryConnection "cursor" a args kwargs st
  = (Ret (VRef (length (heap st))),
     {| heap := heap st ++ [fresh_cursor a args (resolved_kwargs o kwargs)];
        trace := trace st ++ [EvCursor a args (resolved_kwargs o kwargs)] |}).
Proof.
  intros Hl Ht Hc Hs Hcl Hlen Hbind Hkw Hok.
  rewrite (cursor_no_successor drv (S (S n)) st a o args kwargs Hl Ht Hc Hs Hcl).
  unfold cursor_through, bind at 1.
  rewrite (driver_makes_RenewCursor drv n st a o args _ Hl) by
    (try assumption; rewrite Hc; reflexivity).
  unfold store_spec, bind, setattr_value, setattr, store, ret.
  cbn [heap set_heap]. rewrite lookup_fresh. cbn. rewrite insert_fresh, lookup_fresh.
  cbn. rewrite insert_fresh. reflexivity.
Qed.

(** X5. [cursor()] on an open connection without successor, when the
    resolved factory is [RenewCursor] and the driver's [cursor] accepts
    the arguments and does not fail: the driver is called once, on this connection, with the
    call's arguments and the resolved factory; the result is a new cursor
    bound to this connection whose stored arguments are those of the
    [cursor()] call (with [cursor_factory] filled in), not those of its
    constructor.  Nothing else changes. *)
Theorem cursor_is_bound_and_remembers_the_call
    (drv : driver) (n : nat) (st : state) (a : addr) (o : obj)
    (args : list value) (kwargs : kwargs_t) :
  heap st !! a = Some o ->
  tidy_at a (length (heap st)) o = true ->
  ob_class o = c_RetryConnection ->
  successor o = None ->
  ob_closed o = false ->
  length args <= 1 ->
  bind_args cursor_params args (resolved_kwargs o kwargs) <> None ->
  dict_get (resolved_kwargs o kwargs) "cursor_factory" = Some (VClass c_RenewCursor) ->
  cursor_fails drv st a args (resolved_kwargs o kwargs) = None ->
  call drv (6 + n) c_RetryConnection "cursor" a args kwargs st
  = (Ret (VRef (length (heap st))),
     {| heap := heap st ++ [fresh_cursor a args (resolved_kwargs o kwargs)];
        trace := trace st ++ [EvCursor a args (resolved_kwargs o kwargs)] |}).
Proof. apply cursor_explicit. Qed.

Lemma cursor_is_bound_witness :
  call quiet 6 c_RetryConnection "cursor" 0 [VStr "c2"] [] st_open
  = (Ret (VRef 2),
     {| heap := heap st_open ++
                [fresh_cursor 0 [VStr "c2"] [("cursor_factory", VClass c_RenewCursor)]];
        trace := [EvCursor 0 [VStr "c2"] [("cursor_factory", VClass c_RenewCursor)]] |}).
Proof.
  apply (cursor_is_bound_and_remembers_the_call quiet 0 st_open 0 (conn_obj false []));
    first [reflexivity | vm_compute; discriminate].
Defined.

(** ** Reads on a tidy RenewCursor *)

Section CursorReads.

Variables (h : list obj) (a : addr) (o : obj) (len : nat).
Hypothesis Hl : h !! a = Some o.
Hypothesis Ht : tidy_at a len o = true.
Hypothesis Hc : ob_class o = c_RenewCursor.

Let Hsub_class : issubclass (ob_class o) c_BaseRenew = true.
Proof. rewrite Hc. reflexivity. Qed.

Lemma cur_read_method n name :
  In name ["solve_conn_curs"; "_RenewCursor__execute"; "execute"; "close"] ->
  getattribute (S n) h a name =
  Ret (VMethod a (if String.eqb name "solve_conn_curs" then c_BaseRenew
                  else if String.eqb name "close" then c_base_cursor
                  else c_RenewCursor) name).
Proof.
  intros Hn.
  assert (Hd : dict_get (ob_dict o) name = None).
  { apply (tidy_private a len o name Ht).
    simpl in Hn. repeat (destruct Hn as [<-|Hn]; [reflexivity|]). contradiction. }
  pose proof (tidy_private a len o "__fix_attrs__" Ht eq_refl) as Hfix.
  rewrite getattribute_S. unfold getattribute_frame. rewrite Hl.
  destruct o as [c cl cn cf d];
    cbn [ob_class ob_dict ob_closed ob_cursor_factory ob_connection] in *.
  subst c.
  repeat (destruct Hn as [<-|Hn];
          [cbn -[getattribute]; rewrite Hfix; cbn -[getattribute]; rewrite Hd;
           reflexivity|]).
  contradiction.
Qed.

Lemma cur_read_delegated n key :
  In key ["closed"; "connection"] ->
  getattribute (S (S (S n))) h a key =
  match successor o with
  | Some s => getattribute (S (S n)) h s key
  | None => Ret (member_value h o key)
  end.
Proof.
  intros Hk.
  pose proof (read_sub n h a o len Hl Ht Hsub_class) as Hsub.
  pose proof (tidy_private a len o "__fix_attrs__" Ht eq_refl) as Hfix.
  rewrite getattribute_S. unfold getattribute_frame. rewrite Hl, Hsub.
  unfold sub_value.
  destruct o as [c cl cn cf d];
    cbn [ob_class ob_dict ob_closed ob_cursor_factory ob_connection] in *.
  subst c.
  destruct (successor _) as [s|]; cbn [truthy];
    repeat (destruct Hk as [<-|Hk];
            [cbn -[getattribute]; rewrite Hfix; reflexivity|]);
    contradiction.
Qed.

End CursorReads.

Lemma getattr_value_mono n m h v key r :
  n <= m -> getattr_value n h v key = Ret r -> getattr_value m h v key = Ret r.
Proof.
  intros Hle. destruct v; simpl; auto.
  intros H. rewrite (getattribute_mono n m h a key Hle); [exact H|].
  rewrite H. discriminate.
Qed.

(** ** Execute on an open cursor *)

Lemma call_RenewCursor_execute drv n self args kwargs :
  call drv (S n) c_RenewCursor "execute" self args kwargs
  = RenewCursor_execute n (call drv n) self args kwargs.
Proof. reflexivity. Qed.

Lemma call_private_execute_body drv n self args kwargs :
  call drv (S n) c_RenewCursor "_RenewCursor__execute" self args kwargs
  = RenewCursor_private_execute n (call drv n) self args kwargs.
Proof. reflexivity. Qed.

Lemma call_base_execute drv n self args kwargs :
  call drv (S n) c_base_cursor "execute" self args kwargs
  = base_cursor_execute drv self args kwargs.
Proof. reflexivity. Qed.

Lemma call_base_cursor_close drv n self :
  call drv (S n) c_base_cursor "close" self [] [] = base_close drv self.
Proof. reflexivity. Qed.

Lemma super_execute_is_driver st a o :
  heap st !! a = Some o -> ob_class o = c_RenewCursor ->
  super_getattr c_RenewCursor a "execute" st
  = (Ret (VMethod a c_base_cursor "execute"), st).
Proof. intros Hl Hc. unfold super_getattr, lift. rewrite Hl, Hc. reflexivity. Qed.

Lemma member_connection h o : member_value h o "connection" = ob_connection o.
Proof. reflexivity. Qed.

Lemma member_closed_cursor h o :
  ob_class o = c_RenewCursor ->
  member_value h o "closed" = VBool (ob_closed o || connection_closed h o).
Proof. intros Hc. unfold member_value. rewrite Hc. reflexivity. Qed.

(** The checks of lines 166-171 pass and change nothing on a cursor that
    does not report closed and whose connection does not either. *)
Lemma prechecks_pass drv n st a o closed :
  heap st !! a = Some o -> tidy_at a (length (heap st)) o = true ->
  ob_class o = c_RenewCursor -> successor o = None -> ob_closed o = false ->
  connection_closed (heap st) o = false ->
  getattr_value (S (S (S n))) (heap st) (ob_connection o) "closed" = Ret closed ->
  truthy closed = false ->
  execute_prechecks (S (S (S n))) (call drv (S (S (S n)))) a st = (Ret tt, st).
Proof.
  intros Hl Ht Hc Hs Hcl Hdrv Hconn Hfalse.
  unfold execute_prechecks, bind, getattr, lift. cbn [getattr_value].
  rewrite !(cur_read_delegated (heap st) a o _ Hl Ht Hc n) by (simpl; auto).
  rewrite Hs. rewrite member_connection.
  rewrite Hconn, Hfalse. unfold ret at 1. cbv beta iota.
  rewrite (cur_read_delegated (heap st) a o _ Hl Ht Hc n) by (simpl; auto).
  rewrite Hs. rewrite (member_closed_cursor _ _ Hc), Hcl, Hdrv. reflexivity.
Qed.

(** What losing the session does to the heap: the connection of the
    cursor is marked closed, nothing else changes. *)
Lemma drop_session_lookup st a o :
  heap st !! a = Some o ->
  trace (drop_session st a) = trace st /\
  length (heap (drop_session st a)) = length (heap st) /\
  (heap (drop_session st a) !! a = Some o \/
   heap (drop_session st a) !! a = Some (with_closed o true)).
Proof.
  intros Hl. unfold drop_session. rewrite Hl.
  destruct (ob_connection o) as [| | | | |c| | |]; try solve [repeat split; auto].
  destruct (heap st !! c) as [oc|] eqn:Hlc; [|repeat split; auto].
  cbn [heap trace set_heap]. split; [reflexivity|]. split; [apply length_insert|].
  destruct (decide (c = a)) as [->|Hne].
  - right. rewrite list_lookup_insert_eq by (eapply lookup_lt_Some; eassumption).
    congruence.
  - left. rewrite list_lookup_insert_ne by exact Hne. exact Hl.
Qed.

Lemma failed_execute_lookup drv st a o args kwargs :
  heap st !! a = Some o ->
  trace (failed_execute drv st a args kwargs) = trace st ++ [EvExecute a args kwargs] /\
  length (heap (failed_execute drv st a args kwargs)) = length (heap st) /\
  (heap (failed_execute drv st a args kwargs) !! a = Some o \/
   heap (failed_execute drv st a args kwargs) !! a = Some (with_closed o true)).
Proof.
  intros Hl. unfold failed_execute. cbv zeta.
  destruct (session_lost drv st a args kwargs).
  - exact (drop_session_lookup (log st (EvExecute a args kwargs)) a o Hl).
  - repeat split; auto.
Qed.

(** [self.__execute(...)] on a cursor without successor is the driver's
    [execute] on that cursor. *)
Lemma private_execute_no_successor drv n st a o args kwargs :
  heap st !! a = Some o -> tidy_at a (length (heap st)) o = true ->
  ob_class o = c_RenewCursor -> successor o = None ->
  call_private_execute (S (S (S n))) (call drv (S (S (S n)))) a args kwargs st
  = match execute_fails drv st a args kwargs with
    | Some e => (Raise e, failed_execute drv st a args kwargs)
    | None => (Ret tt, log st (EvExecute a args kwargs))
    end.
Proof.
  intros Hl Ht Hc Hs.
  unfold call_private_execute, bind at 1, getattr, lift. cbn [getattr_value].
  rewrite (cur_read_method (heap st) a o _ Hl Ht Hc) by (simpl; auto).
  cbn [String.eqb Ascii.eqb Bool.eqb]. unfold call_value at 1.
  rewrite call_private_execute_body. unfold RenewCursor_private_execute.
  unfold bind, getattr, lift. cbn [getattr_value].
  rewrite (read_sub n (heap st) a o _ Hl Ht) by (rewrite Hc; reflexivity).
  unfold sub_value. rewrite Hs. cbn [truthy].
  rewrite (super_execute_is_driver st a o Hl Hc).
  unfold call_value. rewrite call_base_execute. unfold base_cursor_execute, failed_execute.
  destruct (execute_fails drv st a args kwargs); reflexivity.
Qed.

(** [execute] on a cursor without successor that passes the checks, for
    every behaviour of the driver. *)
Lemma execute_on_open_cursor drv n st a o args kwargs closed :
  heap st !! a = Some o -> tidy_at a (length (heap st)) o = true ->
  ob_class o = c_RenewCursor -> successor o = None -> ob_closed o = false ->
  connection_closed (heap st) o = false ->
  getattr_value (S (S (S n))) (heap st) (ob_connection o) "closed" = Ret closed ->
  truthy closed = false ->
  call drv (S (S (S (S n)))) c_RenewCursor "execute" a args kwargs st
  = match execute_fails drv st a args kwargs with
    | None => (Ret VNone, log st (EvExecute a args kwargs))
    | Some e =>
        let st1 := failed_execute drv st a args kwargs in
        if is_InterfaceError (e_class e) then
          match close_fails drv st1 a with
          | Some e' => (Raise e', log st1 (EvClose a))
          | None =>
              (Raise (name_error "logging"),
               set_heap (log st1 (EvClose a)) (<[a := with_closed o true]> (heap st1)))
          end
        else (Raise e, st1)
    end.
Proof.
  intros Hl Ht Hc Hs Hcl Hdrv Hconn Hfalse.
  rewrite call_RenewCursor_execute. unfold RenewCursor_execute.
  unfold bind at 1.
  rewrite (prechecks_pass drv n st a o closed Hl Ht Hc Hs Hcl Hdrv Hconn Hfalse).
  unfold bind at 1, try_except.
  rewrite (private_execute_no_successor drv n st a o args kwargs Hl Ht Hc Hs).
  destruct (execute_fails drv st a args kwargs) as [e|]; [|reflexivity].
  cbv zeta.
  destruct (is_InterfaceError (e_class e)); [|reflexivity].
  destruct (failed_execute_lookup drv st a o args kwargs Hl) as (_ & Hlen1 & Hl1).
  set (st1 := failed_execute drv st a args kwargs) in *.
  assert (Hrd : getattribute (S (S (S n))) (heap st1) a "close"
                = Ret (VMethod a c_base_cursor "close")).
  { destruct Hl1 as [Hl1|Hl1].
    - rewrite (cur_read_method (heap st1) a o (length (heap st)) Hl1 Ht Hc) by (simpl; auto).
      reflexivity.
    - rewrite (cur_read_method (heap st1) a (with_closed o true) (length (heap st)) Hl1 Ht Hc)
        by (simpl; auto).
      reflexivity. }
  unfold execute_handler. cbn [truthy String.eqb Ascii.eqb Bool.eqb negb].
  unfold bind at 1. unfold bind at 1. unfold bind at 1.
  unfold getattr, lift. cbn [getattr_value].
  rewrite Hrd. unfold call_value at 1.
  unfold bind at 1. rewrite call_base_cursor_close. unfold base_close.
  destruct (close_fails drv st1 a); [reflexivity|].
  destruct Hl1 as [Hl1|Hl1]; rewrite Hl1; reflexivity.
Qed.

(** X6. [execute] on a cursor that has no successor and does not report
    closed (neither it nor the driver's connection behind it is closed),
    on a connection that does not report closed: when the driver's
    [execute] succeeds, the driver is called exactly once, on this cursor,
    with the caller's arguments; [execute] returns [None] and no object
    changes. *)
Theorem execute_calls_the_driver_once
    (drv : driver) (n : nat) (st : state) (a : addr) (o : obj)
    (args : list value) (kwargs : kwargs_t) (closed : value) :
  heap st !! a = Some o ->
  tidy_at a (length (heap st)) o = true ->
  ob_class o = c_RenewCursor ->
  successor o = None ->
  ob_closed o = false ->
  connection_closed (heap st) o = false ->
  getattr_value (3 + n) (heap st) (ob_connection o) "closed" = Ret closed ->
  truthy closed = false ->
  execute_fails drv st a args kwargs = None ->
  call drv (4 + n) c_RenewCursor "execute" a args kwargs st
  = (Ret VNone, log st (EvExecute a args kwargs)).
Proof.
  intros Hl Ht Hc Hs Hcl Hdrv Hconn Hfalse Hok.
  change (4 + n) with (S (S (S (S n)))).
  rewrite (execute_on_open_cursor drv n st a o args kwargs closed) by assumption.
  rewrite Hok. reflexivity.
Qed.

Lemma execute_once_witness :
  call quiet 4 c_RenewCursor "execute" 1 select1 [] st_open
  = (Ret VNone, log st_open (EvExecute 1 select1 [])).
Proof.
  apply (execute_calls_the_driver_once quiet 0 st_open 1 (cur_obj 0 false [])
           select1 [] (VBool false)); reflexivity.
Defined.

(** X7. Under the same conditions, an error of the driver's [execute]
    that is not an [InterfaceError] reaches the caller as the same
    exception object, and the state is the one the driver's failing call
    left: the driver has been called once, and the module itself closes
    nothing and renews nothing.  (The driver may have marked the
    connection closed, when the error was the loss of the session.) *)
Theorem execute_passes_other_errors_on
    (drv : driver) (n : nat) (st : state) (a : addr) (o : obj)
    (args : list value) (kwargs : kwargs_t) (closed : value) (e : exn) :
  heap st !! a = Some o ->
  tidy_at a (length (heap st)) o = true ->
  ob_class o = c_RenewCursor ->
  successor o = None ->
  ob_closed o = false ->
  connection_closed (heap st) o = false ->
  getattr_value (3 + n) (heap st) (ob_connection o) "closed" = Ret closed ->
  truthy closed = false ->
  execute_fails drv st a args kwargs = Some e ->
  e_class e <> InterfaceError ->
  call drv (4 + n) c_RenewCursor "execute" a args kwargs st
  = base_cursor_execute drv a args kwargs st /\
  base_cursor_execute drv a args kwargs st
  = (Raise e, failed_execute drv st a args kwargs) /\
  trace (failed_execute drv st a args kwargs) = trace st ++ [EvExecute a args kwargs] /\
  (session_lost drv st a args kwargs = false ->
   heap (failed_execute drv st a args kwargs) = heap st).
Proof.
  intros Hl Ht Hc Hs Hcl Hdrv Hconn Hfalse Hfail He.
  change (4 + n) with (S (S (S (S n)))).
  rewrite (execute_on_open_cursor drv n st a o args kwargs closed) by assumption.
  unfold base_cursor_execute. rewrite Hfail. cbv zeta.
  split; [destruct (e_class e); try reflexivity; contradiction|].
  split; [reflexivity|].
  split; [exact (proj1 (failed_execute_lookup drv st a o args kwargs Hl))|].
  intros Hkept. unfold failed_execute. rewrite Hkept. reflexivity.
Qed.

Lemma execute_other_error_witness :
  let e := {| e_class := DriverError; e_msg := "server closed the connection"; e_id := 3 |} in
  let drv := {| connect_fails := fun _ _ _ _ => None;
                cursor_fails := fun _ _ _ _ => None;
                execute_fails := fun _ _ _ _ => Some e;
                session_lost := fun _ _ _ _ => true;
                close_fails := fun _ _ => None |} in
  call drv 4 c_RenewCursor "execute" 1 select1 [] st_open
  = (Raise e,
     {| heap := [conn_obj true []; cur_obj 0 false []];
        trace := [EvExecute 1 select1 []] |}).
Proof.
  cbv zeta.
  destruct (execute_passes_other_errors_on
              {| connect_fails := fun _ _ _ _ => None;
                 cursor_fails := fun _ _ _ _ => None;
                 execute_fails := fun _ _ _ _ =>
                   Some {| e_class := DriverError; e_msg := "server closed the connection";
                           e_id := 3 |};
                 session_lost := fun _ _ _ _ => true;
                 close_fails := fun _ _ => None |}
              0 st_open 1 (cur_obj 0 false []) select1 [] (VBool false)
              {| e_class := DriverError; e_msg := "server closed the connection"; e_id := 3 |})
    as (Hcall & Hdrv & _).
  - reflexivity.
  - reflexivity.
  - reflexivity.
  - reflexivity.
  - reflexivity.
  - reflexivity.
  - reflexivity.
  - reflexivity.
  - reflexivity.
  - discriminate.
  - exact (eq_trans Hcall Hdrv).
Defined.

(** X8. Under the same conditions, an [InterfaceError] of the driver's
    [execute] is handled the same way whatever its message: the cursor's
    own [close()] runs (the driver's close of this cursor); if that
    raises, its error reaches the caller, and otherwise the cursor is
    marked closed and the caller gets [NameError] for [logging].  The
    module does not close the connection, nothing is constructed and the
    driver's [execute] is not called a second time. *)
Theorem execute_on_InterfaceError
    (drv : driver) (n : nat) (st : state) (a : addr) (o : obj)
    (args : list value) (kwargs : kwargs_t) (closed : value) (e : exn) :
  heap st !! a = Some o ->
  tidy_at a (length (heap st)) o = true ->
  ob_class o = c_RenewCursor ->
  successor o = None ->
  ob_closed o = false ->
  connection_closed (heap st) o = false ->
  getattr_value (3 + n) (heap st) (ob_connection o) "closed" = Ret closed ->
  truthy closed = false ->
  execute_fails drv st a args kwargs = Some e ->
  e_class e = InterfaceError ->
  call drv (4 + n) c_RenewCursor "execute" a args kwargs st
  = let st1 := failed_execute drv st a args kwargs in
    match close_fails drv st1 a with
    | Some e' => (Raise e', log st1 (EvClose a))
    | None =>
        (Raise (name_error "logging"),
         {| heap := <[a := with_closed o true]> (heap st1);
            trace := trace st ++ [EvExecute a args kwargs; EvClose a] |})
    end.
Proof.
  intros Hl Ht Hc Hs Hcl Hdrv Hconn Hfalse Hfail He.
  change (4 + n) with (S (S (S (S n)))).
  rewrite (execute_on_open_cursor drv n st a o args kwargs closed) by assumption.
  cbv zeta. rewrite Hfail, He. cbn [is_InterfaceError].
  destruct (close_fails drv _ a); [reflexivity|].
  unfold set_heap, log. cbn [heap trace].
  rewrite (proj1 (failed_execute_lookup drv st a o args kwargs Hl)).
  rewrite <- app_assoc. reflexivity.
Qed.

Lemma execute_on_InterfaceError_witness :
  call (execute_raises (interface_error "server closed the connection")) 4
    c_RenewCursor "execute" 1 select1 [] st_open
  = (Raise (name_error "logging"),
     {| heap := [conn_obj false []; cur_obj 0 true []];
        trace := [EvExecute 1 select1 []; EvClose 1] |}).
Proof.
  apply (execute_on_InterfaceError
           (execute_raises (interface_error "server closed the connection"))
           0 st_open 1 (cur_obj 0 false []) select1 [] (VBool false)
           (interface_error "server closed the connection"));
    reflexivity.
Defined.

(** [execute] through a successor, lines 200-201. *)
Lemma execute_via_successor
    (drv : driver) (n : nat) (st : state) (a s : addr) (o os : obj)
    (args : list value) (kwargs : kwargs_t) (closed : value) :
  heap st !! a = Some o ->
  tidy_at a (length (heap st)) o = true ->
  ob_class o = c_RenewCursor ->
  successor o = Some s ->
  heap st !! s = Some os ->
  tidy_at s (length (heap st)) os = true ->
  ob_class os = c_RenewCursor ->
  successor os = None ->
  ob_closed os = false ->
  connection_closed (heap st) os = false ->
  getattr_value (3 + n) (heap st) (ob_connection os) "closed" = Ret closed ->
  truthy closed = false ->
  execute_fails drv st s args kwargs = None ->
  call drv (6 + n) c_RenewCursor "execute" a args kwargs st
  = (Ret VNone, log st (EvExecute s args kwargs)).
Proof.
  intros Hl Ht Hc Hs Hls Hts Hcs Hss Hcls Hdrv Hconn Hfalse Hok.
  change (6 + n) with (S (S (S (S (S (S n)))))). change (3 + n) with (S (S (S n))) in Hconn.
  assert (Hconn' : getattr_value (S (S (S (S (S n))))) (heap st) (ob_connection os) "closed"
                   = Ret closed)
    by (eapply getattr_value_mono; [|exact Hconn]; lia).
  rewrite call_RenewCursor_execute. unfold RenewCursor_execute.
  assert (Hpre : execute_prechecks (S (S (S (S (S n))))) (call drv (S (S (S (S (S n))))))
                   a st = (Ret tt, st)).
  { unfold execute_prechecks, bind, getattr, lift. cbn [getattr_value].
    rewrite !(cur_read_delegated (heap st) a o _ Hl Ht Hc (S (S n))) by (simpl; auto).
    rewrite Hs.
    rewrite !(cur_read_delegated (heap st) s os _ Hls Hts Hcs (S n)) by (simpl; auto).
    rewrite Hss. rewrite member_connection.
    rewrite Hconn', Hfalse. unfold ret at 1. cbv beta iota.
    rewrite (cur_read_delegated (heap st) a o _ Hl Ht Hc (S (S n))) by (simpl; auto).
    rewrite Hs.
    rewrite (cur_read_delegated (heap st) s os _ Hls Hts Hcs (S n)) by (simpl; auto).
    rewrite Hss. rewrite (member_closed_cursor _ _ Hcs), Hcls, Hdrv. reflexivity. }
  unfold bind at 1. rewrite Hpre.
  assert (Hrun : call_private_execute (S (S (S (S (S n))))) (call drv (S (S (S (S (S n))))))
                   a args kwargs st = (Ret tt, log st (EvExecute s args kwargs))).
  { unfold call_private_execute, bind at 1, getattr, lift. cbn [getattr_value].
    rewrite (cur_read_method (heap st) a o _ Hl Ht Hc) by (simpl; auto).
    cbn [String.eqb Ascii.eqb Bool.eqb]. unfold call_value at 1.
    rewrite call_private_execute_body. unfold RenewCursor_private_execute.
    unfold bind at 1. unfold bind at 1, getattr, lift. cbn [getattr_value].
    rewrite (read_sub (S (S n)) (heap st) a o _ Hl Ht) by (rewrite Hc; reflexivity).
    unfold sub_value. rewrite Hs. cbn [truthy].
    unfold bind at 1, getattr, lift. cbn [getattr_value].
    rewrite (read_sub (S (S n)) (heap st) a o _ Hl Ht) by (rewrite Hc; reflexivity).
    unfold sub_value. rewrite Hs.
    unfold bind at 1, getattr, lift. cbn [getattr_value].
    rewrite (cur_read_method (heap st) s os _ Hls Hts Hcs) by (simpl; auto).
    cbn [String.eqb Ascii.eqb Bool.eqb]. unfold call_value at 1.
    unfold bind at 1.
    rewrite (execute_on_open_cursor drv n st s os args kwargs closed) by assumption.
    rewrite Hok. reflexivity. }
  unfold bind, try_except. rewrite Hrun. reflexivity.
Qed.

(** X9. [execute] on a cursor with a successor (lines 200-201): when the
    successor is an open cursor without successor of its own (neither it
    nor the driver's connection behind it is closed), on a connection
    that does not report closed, and the driver's [execute]
    succeeds, the statement is executed once, on the successor, and never
    on the stale original. *)
Theorem execute_goes_to_the_successor
    (drv : driver) (n : nat) (st : state) (a s : addr) (o os : obj)
    (args : list value) (kwargs : kwargs_t) (closed : value) :
  heap st !! a = Some o ->
  tidy_at a (length (heap st)) o = true ->
  ob_class o = c_RenewCursor ->
  successor o = Some s ->
  heap st !! s = Some os ->
  tidy_at s (length (heap st)) os = true ->
  ob_class os = c_RenewCursor ->
  successor os = None ->
  ob_closed os = false ->
  connection_closed (heap st) os = false ->
  getattr_value (3 + n) (heap st) (ob_connection os) "closed" = Ret closed ->
  truthy closed = false ->
  execute_fails drv st s args kwargs = None ->
  call drv (6 + n) c_RenewCursor "execute" a args kwargs st
  = (Ret VNone, log st (EvExecute s args kwargs)).
Proof. apply execute_via_successor. Qed.

Lemma execute_goes_to_the_successor_witness :
  call quiet 6 c_RenewCursor "execute" 1 select1 [] st_renewed
  = (Ret VNone, log st_renewed (EvExecute 3 select1 [])).
Proof.
  apply (execute_goes_to_the_successor quiet 0 st_renewed 1 3
           (cur_obj 0 true [("_sub_obj", VRef 3)]) (cur_obj 2 false [])
           select1 [] (VBool false));
    reflexivity.
Defined.

(** ** Renewal of a cursor *)

Lemma setattr_sub st a o v :
  heap st !! a = Some o -> issubclass (ob_class o) c_BaseRenew = true ->
  setattr a "sub" v st
  = (Ret tt, set_heap st (<[a := with_dict o (dict_set (ob_dict o) "_sub_obj" v)]> (heap st))).
Proof.
  intros Hl Hc. destruct (BaseRenew_props _ Hc) as (_ & _ & Hs & Hd).
  unfold setattr, store. rewrite Hl, Hs, Hd. reflexivity.
Qed.

(** [self.solve_conn_curs(self)] on a cursor whose connection is open
    (lines 121-127 without line 125). *)
Lemma renew_cursor_same_connection drv n st a o c oc a0 k0 :
  heap st !! a = Some o -> tidy_at a (length (heap st)) o = true ->
  ob_class o = c_RenewCursor -> successor o = None ->
  ob_connection o = VRef c ->
  heap st !! c = Some oc -> tidy_at c (length (heap st)) oc = true ->
  ob_class oc = c_RetryConnection -> successor oc = None -> ob_closed oc = false ->
  dict_get (ob_dict o) "_args" = Some (VTuple a0) ->
  dict_get (ob_dict o) "_kwargs" = Some (VDict k0) ->
  length a0 <= 1 ->
  bind_args cursor_params a0 (resolved_kwargs oc k0) <> None ->
  dict_get (resolved_kwargs oc k0) "cursor_factory" = Some (VClass c_RenewCursor) ->
  cursor_fails drv st c a0 (resolved_kwargs oc k0) = None ->
  call drv (S (S (S (S (S (S (S n))))))) c_BaseRenew "solve_conn_curs" a [VRef a] [] st
  = (Ret VNone, cursor_renewed st a o c a0 (resolved_kwargs oc k0)).
Proof.
  intros Hl Ht Hc Hs Hconn Hlc Htc Hcc Hsc Hclc Ha Hk Hlen Hbind Hkw Hok.
  pose proof (tidy_private a _ o "__fix_attrs__" Ht eq_refl) as Hfix.
  assert (Hsubc : issubclass (ob_class o) c_BaseRenew = true) by (rewrite Hc; reflexivity).
  assert (Hh : is_handle (ob_class o) = true) by (rewrite Hc; reflexivity).
  rewrite call_solve. unfold solve_conn_curs.
  unfold bind at 1, getattr, lift. cbn [getattr_value].
  rewrite (read_class_of_handle _ (heap st) a o Hl Hh Hfix), Hc.
  change (issubclass_value (VClass c_RenewCursor) c_base_cursor) with true.
  cbv beta iota.
  unfold bind at 1, getattr, lift. cbn [getattr_value].
  rewrite (cur_read_delegated (heap st) a o _ Hl Ht Hc (S (S (S n)))) by (simpl; auto).
  rewrite Hs. cbn [member_value String.eqb Ascii.eqb Bool.eqb]. rewrite Hconn.
  unfold bind at 1. unfold bind at 1, getattr, lift. cbn [getattr_value].
  rewrite (cur_read_delegated (heap st) a o _ Hl Ht Hc (S (S (S n)))) by (simpl; auto).
  rewrite Hs. cbn [member_value String.eqb Ascii.eqb Bool.eqb]. rewrite Hconn.
  cbn [getattr_value].
  rewrite (conn_read_closed (heap st) c oc _ Hlc Htc Hcc), Hsc, Hclc. cbn [truthy].
  unfold bind at 1, ret at 1.
  unfold bind at 1, getattr, lift. cbn [getattr_value].
  rewrite (conn_read_method (heap st) c oc _ Hlc Htc Hcc) by (simpl; auto).
  cbn [String.eqb Ascii.eqb Bool.eqb].
  destruct (read_property (S (S (S (S n)))) (heap st) a o Hl Hsubc Hfix) as (Ra & Rk & _).
  unfold bind at 1, getattr, lift. cbn [getattr_value]. rewrite Ra.
  unfold bind at 1, getattr, lift. cbn [getattr_value]. rewrite Rk.
  unfold stored. rewrite Ha, Hk.
  unfold bind at 1, unpack_args, ret at 1. unfold bind at 1, unpack_kwargs, ret at 1.
  unfold bind at 1, call_value.
  rewrite (cursor_explicit drv n st c oc a0 k0) by assumption.
  unfold bind, ret.
  assert (Hlen' : a < length (heap st)) by (eapply lookup_lt_Some; eassumption).
  rewrite (setattr_sub _ a o);
    [reflexivity
    | cbn [heap]; rewrite lookup_app_l by exact Hlen'; exact Hl
    | exact Hsubc].
Qed.

(** X10. A cursor renewing itself while its connection is open
    ([solve_conn_curs], lines 121-127): no connection is constructed; the
    driver makes one new cursor on the same connection from the arguments
    stored on the old cursor (arguments that the driver's [cursor]
    accepts), and that cursor becomes the successor.  The
    old cursor is not closed and keeps its stored arguments. *)
Theorem cursor_renewal_keeps_the_connection
    (drv : driver) (n : nat) (st : state) (a : addr) (o : obj) (c : addr) (oc : obj)
    (a0 : list value) (k0 : kwargs_t) :
  heap st !! a = Some o -> tidy_at a (length (heap st)) o = true ->
  ob_class o = c_RenewCursor -> successor o = None ->
  ob_connection o = VRef c ->
  heap st !! c = Some oc -> tidy_at c (length (heap st)) oc = true ->
  ob_class oc = c_RetryConnection -> successor oc = None -> ob_closed oc = false ->
  dict_get (ob_dict o) "_args" = Some (VTuple a0) ->
  dict_get (ob_dict o) "_kwargs" = Some (VDict k0) ->
  length a0 <= 1 ->
  bind_args cursor_params a0 (resolved_kwargs oc k0) <> None ->
  dict_get (resolved_kwargs oc k0) "cursor_factory" = Some (VClass c_RenewCursor) ->
  cursor_fails drv st c a0 (resolved_kwargs oc k0) = None ->
  call drv (7 + n) c_BaseRenew "solve_conn_curs" a [VRef a] [] st
  = (Ret VNone, cursor_renewed st a o c a0 (resolved_kwargs oc k0)).
Proof. apply renew_cursor_same_connection. Qed.

Lemma cursor_renewal_witness :
  call quiet 7 c_BaseRenew "solve_conn_curs" 1 [VRef 1] [] st_cur_closed
  = (Ret VNone,
     {| heap := [conn_obj false [];
                 cur_obj 0 true [("_sub_obj", VRef 2)];
                 cur_obj 0 false []];
        trace := [EvCursor 0 [] [("cursor_factory", VClass c_RenewCursor)]] |}).
Proof.
  apply (cursor_renewal_keeps_the_connection quiet 0 st_cur_closed 1
           (cur_obj 0 true []) 0 (conn_obj false []) []
           [("cursor_factory", VClass c_RenewCursor)]);
    try reflexivity.
  - simpl. lia.
  - vm_compute. discriminate.
Defined.

(** [self.solve_conn_curs(self)] on a cursor whose connection reports
    closed (lines 121-127 with line 125). *)
Lemma renew_cursor_new_connection
    (drv : driver) (n : nat) (st : state) (a : addr) (o : obj) (c : addr) (oc : obj)
    (ca0 : list value) (ck0 : kwargs_t) (a0 : list value) (k0 : kwargs_t) :
  let kw := setdefault k0 "cursor_factory" (VClass c_RenewCursor) in
  let s := length (heap st) in
  let st1 := {| heap := heap st ++ [fresh_connection ca0 ck0];
                trace := trace st ++ [EvConnect s ca0 ck0] |} in
  heap st !! a = Some o -> tidy_at a (length (heap st)) o = true ->
  ob_class o = c_RenewCursor -> successor o = None ->
  ob_connection o = VRef c ->
  heap st !! c = Some oc -> tidy_at c (length (heap st)) oc = true ->
  ob_class oc = c_RetryConnection -> successor oc = None -> ob_closed oc = true ->
  dict_get (ob_dict oc) "_args" = Some (VTuple ca0) ->
  dict_get (ob_dict oc) "_kwargs" = Some (VDict ck0) ->
  dict_get (ob_dict o) "_args" = Some (VTuple a0) ->
  dict_get (ob_dict o) "_kwargs" = Some (VDict k0) ->
  length a0 <= 1 ->
  bind_args cursor_params a0 kw <> None ->
  dict_get kw "cursor_factory" = Some (VClass c_RenewCursor) ->
  connect_fails drv (set_heap st (heap st ++ [blank c_RetryConnection])) s ca0 ck0 = None ->
  cursor_fails drv st1 s a0 kw = None ->
  call drv (7 + n) c_BaseRenew "solve_conn_curs" a [VRef a] [] st
  = (Ret VNone, cursor_reconnected st a o ca0 ck0 a0 kw) /\
  heap (cursor_reconnected st a o ca0 ck0 a0 kw) !! c = Some oc.
Proof.
  intros kw s st1 Hl Ht Hc Hs Hconn Hlc Htc Hcc Hsc Hclc Hca Hck Ha Hk Hlen Hbind Hkw
    Hconnect Hcursor.
  pose proof (tidy_private a _ o "__fix_attrs__" Ht eq_refl) as Hfix.
  assert (Hsubc : issubclass (ob_class o) c_BaseRenew = true) by (rewrite Hc; reflexivity).
  assert (Hh : is_handle (ob_class o) = true) by (rewrite Hc; reflexivity).
  assert (Hlen' : a < length (heap st)) by (eapply lookup_lt_Some; eassumption).
  assert (Hlenc : c < length (heap st)) by (eapply lookup_lt_Some; eassumption).
  assert (Hne : a <> c) by (intros ->; congruence).
  split.
  2:{ unfold cursor_reconnected. cbn [heap].
      rewrite list_lookup_insert_ne by exact Hne.
      rewrite lookup_app_l by exact Hlenc. exact Hlc. }
  change (7 + n) with (S (S (S (S (S (S (S n))))))).
  rewrite call_solve. unfold solve_conn_curs.
  unfold bind at 1, getattr, lift. cbn [getattr_value].
  rewrite (read_class_of_handle _ (heap st) a o Hl Hh Hfix), Hc.
  change (issubclass_value (VClass c_RenewCursor) c_base_cursor) with true.
  cbv beta iota.
  unfold bind at 1, getattr, lift. cbn [getattr_value].
  rewrite (cur_read_delegated (heap st) a o _ Hl Ht Hc (S (S (S n)))) by (simpl; auto).
  rewrite Hs. cbn [member_value String.eqb Ascii.eqb Bool.eqb]. rewrite Hconn.
  unfold bind at 1. unfold bind at 1, getattr, lift. cbn [getattr_value].
  rewrite (cur_read_delegated (heap st) a o _ Hl Ht Hc (S (S (S n)))) by (simpl; auto).
  rewrite Hs. cbn [member_value String.eqb Ascii.eqb Bool.eqb]. rewrite Hconn.
  cbn [getattr_value].
  rewrite (conn_read_closed (heap st) c oc _ Hlc Htc Hcc), Hsc, Hclc. cbn [truthy].
  unfold bind at 1. unfold bind at 1. unfold bind at 1, getattr, lift.
  cbn [getattr_value].
  rewrite (cur_read_delegated (heap st) a o _ Hl Ht Hc (S (S (S n)))) by (simpl; auto).
  rewrite Hs. cbn [member_value String.eqb Ascii.eqb Bool.eqb]. rewrite Hconn.
  cbn [getattr_value].
  rewrite (conn_read_class (heap st) c oc _ Hlc Htc Hcc).
  destruct (conn_read_stored (heap st) c oc _ Hlc Htc Hcc (S (S (S (S n))))) as [Rca Rck].
  unfold bind at 1. unfold bind at 1, getattr, lift. cbn [getattr_value].
  rewrite (cur_read_delegated (heap st) a o _ Hl Ht Hc (S (S (S n)))) by (simpl; auto).
  rewrite Hs. cbn [member_value String.eqb Ascii.eqb Bool.eqb]. rewrite Hconn.
  cbn [getattr_value]. rewrite Rca, Hca.
  unfold bind at 1. unfold bind at 1, getattr, lift. cbn [getattr_value].
  rewrite (cur_read_delegated (heap st) a o _ Hl Ht Hc (S (S (S n)))) by (simpl; auto).
  rewrite Hs. cbn [member_value String.eqb Ascii.eqb Bool.eqb]. rewrite Hconn.
  cbn [getattr_value]. rewrite Rck, Hck.
  unfold bind at 1, unpack_args, ret at 1. unfold bind at 1, unpack_kwargs, ret at 1.
  unfold call_value at 1.
  rewrite (construct_connection drv (S (S (S n))) st ca0 ck0). cbv zeta.
  unfold s in Hconnect. rewrite Hconnect. fold s. fold st1.
  assert (Hl1 : heap st1 !! a = Some o)
    by (unfold st1; cbn [heap]; rewrite lookup_app_l by exact Hlen'; exact Hl).
  assert (Hls1 : heap st1 !! s = Some (fresh_connection ca0 ck0))
    by (unfold st1, s; cbn [heap]; apply lookup_fresh).
  assert (Hlen1 : length (heap st1) = S s)
    by (unfold st1, s; cbn [heap]; rewrite length_app; simpl; lia).
  assert (Hts1 : tidy_at s (length (heap st1)) (fresh_connection ca0 ck0) = true)
    by reflexivity.
  unfold bind at 1, getattr, lift. cbn [getattr_value].
  rewrite (conn_read_method (heap st1) s (fresh_connection ca0 ck0) _ Hls1 Hts1 eq_refl)
    by (simpl; auto).
  cbn [String.eqb Ascii.eqb Bool.eqb].
  destruct (read_property (S (S (S (S n)))) (heap st1) a o Hl1 Hsubc Hfix) as (Ra & Rk & _).
  unfold bind at 1, getattr, lift. cbn [getattr_value]. rewrite Ra.
  unfold bind at 1, getattr, lift. cbn [getattr_value]. rewrite Rk.
  unfold stored. rewrite Ha, Hk.
  unfold bind at 1, unpack_args, ret at 1. unfold bind at 1, unpack_kwargs, ret at 1.
  unfold bind at 1, call_value.
  rewrite (cursor_explicit drv n st1 s (fresh_connection ca0 ck0) a0 k0 Hls1 Hts1
             eq_refl eq_refl eq_refl Hlen Hbind Hkw Hcursor).
  unfold bind, ret.
  rewrite (setattr_sub _ a o);
    [| cbn [heap]; rewrite lookup_app_l by (rewrite Hlen1; lia); exact Hl1
     | exact Hsubc].
  unfold cursor_reconnected, with_successor, set_heap. cbn [heap trace].
  rewrite Hlen1. unfold st1. cbn [heap trace].
  rewrite <- !app_assoc. reflexivity.
Qed.

(** X11. A cursor renewing itself while its connection reports closed
    ([solve_conn_curs], lines 121-127 with line 125): one connection is
    constructed from the stored arguments of the old connection, and one
    cursor is made on it from the stored arguments of the old cursor
    (arguments that the driver's [cursor] accepts) and becomes the
    successor.  The new connection is not recorded on the old
    one, which stays closed and without successor, so another cursor of the
    same closed connection would construct a connection of its own. *)
Theorem cursor_renewal_reconnects
    (drv : driver) (n : nat) (st : state) (a : addr) (o : obj) (c : addr) (oc : obj)
    (ca0 : list value) (ck0 : kwargs_t) (a0 : list value) (k0 : kwargs_t) :
  let kw := setdefault k0 "cursor_factory" (VClass c_RenewCursor) in
  let s := length (heap st) in
  let st1 := {| heap := heap st ++ [fresh_connection ca0 ck0];
                trace := trace st ++ [EvConnect s ca0 ck0] |} in
  heap st !! a = Some o -> tidy_at a (length (heap st)) o = true ->
  ob_class o = c_RenewCursor -> successor o = None ->
  ob_connection o = VRef c ->
  heap st !! c = Some oc -> tidy_at c (length (heap st)) oc = true ->
  ob_class oc = c_RetryConnection -> successor oc = None -> ob_closed oc = true ->
  dict_get (ob_dict oc) "_args" = Some (VTuple ca0) ->
  dict_get (ob_dict oc) "_kwargs" = Some (VDict ck0) ->
  dict_get (ob_dict o) "_args" = Some (VTuple a0) ->
  dict_get (ob_dict o) "_kwargs" = Some (VDict k0) ->
  length a0 <= 1 ->
  bind_args cursor_params a0 kw <> None ->
  dict_get kw "cursor_factory" = Some (VClass c_RenewCursor) ->
  connect_fails drv (set_heap st (heap st ++ [blank c_RetryConnection])) s ca0 ck0 = None ->
  cursor_fails drv st1 s a0 kw = None ->
  call drv (7 + n) c_BaseRenew "solve_conn_curs" a [VRef a] [] st
  = (Ret VNone, cursor_reconnected st a o ca0 ck0 a0 kw) /\
  heap (cursor_reconnected st a o ca0 ck0 a0 kw) !! c = Some oc.
Proof. apply renew_cursor_new_connection. Qed.

Lemma cursor_renewal_reconnects_witness :
  call quiet 7 c_BaseRenew "solve_conn_curs" 1 [VRef 1] [] st_both_closed
  = (Ret VNone, st_renewed) /\
  heap st_renewed !! 0 = Some (conn_obj true []).
Proof.
  apply (cursor_renewal_reconnects quiet 0 st_both_closed 1
           (cur_obj 0 true []) 0 (conn_obj true []) [VStr "dbname=test"] [] []
           [("cursor_factory", VClass c_RenewCursor)]);
    try reflexivity.
  - simpl. lia.
  - vm_compute. discriminate.
Defined.

(** ** Renewal of a connection *)

(** X12. A connection renewing itself ([solve_conn_curs], lines 128-129):
    the driver connects once with the arguments stored on the handle, and
    the new connection becomes the successor, displacing whatever
    successor there was.  Nothing is closed: the trace gains the connect
    only and every other object, a displaced successor included, is as
    before.  Afterwards the handle reports not closed. *)
Theorem connection_renewal_replaces_successor
    (drv : driver) (n m : nat) (st : state) (a : addr) (o : obj)
    (a0 : list value) (k0 : kwargs_t) :
  heap st !! a = Some o ->
  tidy_at a (length (heap st)) o = true ->
  ob_class o = c_RetryConnection ->
  dict_get (ob_dict o) "_args" = Some (VTuple a0) ->
  dict_get (ob_dict o) "_kwargs" = Some (VDict k0) ->
  connect_fails drv (set_heap st (heap st ++ [blank c_RetryConnection]))
    (length (heap st)) a0 k0 = None ->
  let st' := renewed st a o a0 k0 in
  call drv (5 + n) c_BaseRenew "solve_conn_curs" a [VRef a] [] st = (Ret VNone, st') /\
  trace st' = trace st ++ [EvConnect (length (heap st)) a0 k0] /\
  (forall b, b <> a -> b < length (heap st) -> heap st' !! b = heap st !! b) /\
  getattribute (2 + m) (heap st') a "sub" = Ret (VRef (length (heap st))) /\
  getattribute (4 + m) (heap st') a "closed" = Ret (VBool false).
Proof.
  intros Hl Ht Hc Ha Hk Hok st'.
  destruct (renewed_shape st a o a0 k0 Hl Ht) as (Hl' & Ht' & Hs' & Hls & Hts).
  assert (Hlen : a < length (heap st)) by (eapply lookup_lt_Some; eassumption).
  split; [|split; [|split; [|split]]].
  - change (5 + n) with (S (S (S (S (S n))))).
    rewrite call_solve. unfold solve_conn_curs.
    unfold bind, getattr, lift. cbn [getattr_value].
    rewrite !(conn_read_class (heap st) a o _ Hl Ht Hc).
    change (issubclass_value (VClass c_RetryConnection) c_base_cursor) with false.
    cbv beta iota.
    rewrite !(conn_read_class (heap st) a o _ Hl Ht Hc).
    change (issubclass_value (VClass c_RetryConnection) c_base_connection) with true.
    cbv beta iota.
    rewrite !(conn_read_class (heap st) a o _ Hl Ht Hc).
    destruct (conn_read_stored (heap st) a o _ Hl Ht Hc (S (S n))) as [Hra Hrk].
    rewrite Hra, Hrk, Ha, Hk. unfold unpack_args, unpack_kwargs, ret.
    unfold call_value.
    rewrite (construct_connection drv (S n) st a0 k0). cbv zeta. rewrite Hok.
    unfold setattr. cbn [heap].
    rewrite lookup_app_l by exact Hlen. rewrite Hl, Hc.
    change (type_lookup c_RetryConnection "sub") with (Some (c_BaseRenew, CProperty)).
    cbv beta iota. unfold store. rewrite Hc. reflexivity.
  - reflexivity.
  - intros b Hb Hlt. unfold st', renewed. cbn [heap].
    rewrite list_lookup_insert_ne by congruence. apply lookup_app_l. exact Hlt.
  - change (2 + m) with (S (S m)).
    rewrite (read_sub m (heap st') a _ _ Hl' Ht') by (cbn [ob_class with_dict]; rewrite Hc; reflexivity).
    unfold sub_value. rewrite Hs'. reflexivity.
  - change (4 + m) with (S (S (S (S m)))).
    rewrite (conn_read_closed (heap st') a _ _ Hl' Ht' Hc), Hs'.
    rewrite (conn_read_closed (heap st') _ _ _ Hls Hts eq_refl). reflexivity.
Qed.

Lemma connection_renewal_witness :
  call quiet 5 c_BaseRenew "solve_conn_curs" 0 [VRef 0] [] st_conn_successor
  = (Ret VNone,
     {| heap := [conn_obj false [("_sub_obj", VRef 2)]; conn_obj false [];
                 conn_obj false []];
        trace := [EvConnect 2 [VStr "dbname=test"] []] |}).
Proof.
  destruct (connection_renewal_replaces_successor quiet 0 0 st_conn_successor 0
              (conn_obj false [("_sub_obj", VRef 1)]) [VStr "dbname=test"] [])
    as (Hrun & _).
  - reflexivity.
  - reflexivity.
  - reflexivity.
  - reflexivity.
  - reflexivity.
  - reflexivity.
  - exact Hrun.
Defined.

(** ** Renewal keeps the heap tidy *)

Lemma tidy_at_longer a len len' o :
  tidy_at a len o = true -> len <= len' -> tidy_at a len' o = true.
Proof.
  unfold tidy_at. intros H Hle. apply andb_true_iff in H as [Hk H].
  rewrite Hk. cbn [andb].
  destruct (dict_get (ob_dict o) "_sub_obj") as [[]|]; try exact H.
  apply andb_true_iff in H as [H1 H2]. apply Nat.ltb_lt in H2.
  rewrite H1. cbn [andb]. apply Nat.ltb_lt. lia.
Qed.

Lemma tidy_from_longer l : forall base len len',
  tidy_from base len l = true -> len <= len' -> tidy_from base len' l = true.
Proof.
  induction l as [|x l IH]; intros base len len' H Hle; [reflexivity|].
  simpl in *. apply andb_true_iff in H as [Hx H].
  rewrite (tidy_at_longer _ _ _ _ Hx Hle). cbn [andb]. eapply IH; eassumption.
Qed.

Lemma tidy_from_app l1 : forall base len l2,
  tidy_from base len l1 = true ->
  tidy_from (base + length l1) len l2 = true ->
  tidy_from base len (l1 ++ l2) = true.
Proof.
  induction l1 as [|x l1 IH]; intros base len l2 H1 H2; simpl in *.
  - rewrite Nat.add_0_r in H2. exact H2.
  - apply andb_true_iff in H1 as [Hx H1]. rewrite Hx. cbn [andb].
    apply IH; [exact H1|]. replace (S base + length l1) with (base + S (length l1)) by lia.
    exact H2.
Qed.

Lemma tidy_from_insert l : forall base len i x,
  tidy_from base len l = true ->
  tidy_at (base + i) len x = true ->
  tidy_from base len (<[i := x]> l) = true.
Proof.
  induction l as [|y l IH]; intros base len i x H Hx; [reflexivity|].
  simpl in H. apply andb_true_iff in H as [Hy H].
  destruct i as [|i]; simpl.
  - rewrite Nat.add_0_r in Hx. rewrite Hx, H. reflexivity.
  - rewrite Hy. cbn [andb]. apply IH; [exact H|].
    replace (S base + i) with (base + S i) by lia. exact Hx.
Qed.

Lemma tidy_with_successor a len o s :
  tidy_at a len o = true -> a < s -> s < len ->
  tidy_at a len (with_successor o s) = true.
Proof.
  unfold tidy_at, with_successor. intros H Has Hs.
  apply andb_true_iff in H as [Hk _]. cbn [ob_dict with_dict].
  rewrite private_keys_dict_set by (auto; reflexivity).
  rewrite dict_get_set_same. cbn [andb].
  apply andb_true_iff. split; apply Nat.ltb_lt; assumption.
Qed.

(** A heap stays tidy when objects without successor are appended and an
    old object takes one of them as its successor. *)
Lemma well_linked_after_renewal h a o news k :
  well_linked h = true -> h !! a = Some o ->
  tidy_from (length h) (length h + length news) news = true ->
  k < length news ->
  well_linked (<[a := with_successor o (length h + k)]> (h ++ news)) = true.
Proof.
  intros Hw Hl Hnews Hk.
  assert (Hlen : a < length h) by (eapply lookup_lt_Some; eassumption).
  pose proof (well_linked_lookup h a o Hw Hl) as Ht.
  unfold well_linked in *. rewrite length_insert, length_app.
  apply tidy_from_insert.
  - apply tidy_from_app.
    + eapply tidy_from_longer; [exact Hw|lia].
    + exact Hnews.
  - apply tidy_with_successor; [|lia|lia].
    eapply tidy_at_longer; [exact Ht|lia].
Qed.

Lemma well_linked_app h x :
  well_linked h = true ->
  tidy_at (length h) (S (length h)) x = true ->
  well_linked (h ++ [x]) = true.
Proof.
  intros Hw Hx. unfold well_linked in *. rewrite length_app. cbn [length].
  replace (length h + 1) with (S (length h)) by lia.
  apply tidy_from_app.
  - eapply tidy_from_longer; [exact Hw|lia].
  - cbn [tidy_from Nat.add]. rewrite Hx. reflexivity.
Qed.

(** [self.solve_conn_curs(self)] on a connection (lines 128-129), for
    both outcomes of the connect. *)
Lemma solve_on_connection drv n st a o a0 k0 :
  heap st !! a = Some o -> tidy_at a (length (heap st)) o = true ->
  ob_class o = c_RetryConnection ->
  dict_get (ob_dict o) "_args" = Some (VTuple a0) ->
  dict_get (ob_dict o) "_kwargs" = Some (VDict k0) ->
  call drv (S (S (S (S (S n))))) c_BaseRenew "solve_conn_curs" a [VRef a] [] st
  = match connect_fails drv (set_heap st (heap st ++ [blank c_RetryConnection]))
            (length (heap st)) a0 k0 with
    | None => (Ret VNone, renewed st a o a0 k0)
    | Some e =>
        (Raise e,
         {| heap := heap st ++ [blank c_RetryConnection];
            trace := trace st ++ [EvConnect (length (heap st)) a0 k0] |})
    end.
Proof.
  intros Hl Ht Hc Ha Hk.
  assert (Hlen : a < length (heap st)) by (eapply lookup_lt_Some; eassumption).
  rewrite call_solve. unfold solve_conn_curs.
  unfold bind, getattr, lift. cbn [getattr_value].
  rewrite !(conn_read_class (heap st) a o _ Hl Ht Hc).
  change (issubclass_value (VClass c_RetryConnection) c_base_cursor) with false.
  cbv beta iota.
  rewrite !(conn_read_class (heap st) a o _ Hl Ht Hc).
  change (issubclass_value (VClass c_RetryConnection) c_base_connection) with true.
  cbv beta iota.
  rewrite !(conn_read_class (heap st) a o _ Hl Ht Hc).
  destruct (conn_read_stored (heap st) a o _ Hl Ht Hc (S (S n))) as [Hra Hrk].
  rewrite Hra, Hrk, Ha, Hk. unfold unpack_args, unpack_kwargs, ret.
  unfold call_value.
  rewrite (construct_connection drv (S n) st a0 k0). cbv zeta.
  destruct (connect_fails drv _ _ a0 k0) as [e|]; [reflexivity|].
  unfold setattr. cbn [heap].
  rewrite lookup_app_l by exact Hlen. rewrite Hl, Hc.
  change (type_lookup c_RetryConnection "sub") with (Some (c_BaseRenew, CProperty)).
  cbv beta iota. unfold store. rewrite Hc. reflexivity.
Qed.

(** X13. [solve_conn_curs] keeps successor links pointing from older to
    younger objects, and instance dictionaries down to the three private
    names: if the heap is tidy before [h.solve_conn_curs(h)], it is tidy
    in the state the call leaves, for a connection renewing itself
    (whether the connect succeeds or raises), for a cursor renewing itself
    on its open connection, and for a cursor renewing itself with a new
    connection.  So renewal creates no cycle of successors, and delegated
    reads keep terminating. *)
Theorem renewal_keeps_the_heap_tidy
    (drv : driver) (n : nat) (st : state) (a : addr) (o : obj) :
  well_linked (heap st) = true ->
  heap st !! a = Some o ->
  let st' := snd (call drv (7 + n) c_BaseRenew "solve_conn_curs" a [VRef a] [] st) in
  (forall a0 k0,
     ob_class o = c_RetryConnection ->
     dict_get (ob_dict o) "_args" = Some (VTuple a0) ->
     dict_get (ob_dict o) "_kwargs" = Some (VDict k0) ->
     well_linked (heap st') = true) /\
  (forall c oc a0 k0,
     ob_class o = c_RenewCursor -> successor o = None ->
     ob_connection o = VRef c -> heap st !! c = Some oc ->
     ob_class oc = c_RetryConnection -> successor oc = None -> ob_closed oc = false ->
     dict_get (ob_dict o) "_args" = Some (VTuple a0) ->
     dict_get (ob_dict o) "_kwargs" = Some (VDict k0) ->
     length a0 <= 1 ->
     bind_args cursor_params a0 (resolved_kwargs oc k0) <> None ->
     dict_get (resolved_kwargs oc k0) "cursor_factory" = Some (VClass c_RenewCursor) ->
     cursor_fails drv st c a0 (resolved_kwargs oc k0) = None ->
     well_linked (heap st') = true) /\
  (forall c oc ca0 ck0 a0 k0,
     let kw := setdefault k0 "cursor_factory" (VClass c_RenewCursor) in
     let s := length (heap st) in
     ob_class o = c_RenewCursor -> successor o = None ->
     ob_connection o = VRef c -> heap st !! c = Some oc ->
     ob_class oc = c_RetryConnection -> successor oc = None -> ob_closed oc = true ->
     dict_get (ob_dict oc) "_args" = Some (VTuple ca0) ->
     dict_get (ob_dict oc) "_kwargs" = Some (VDict ck0) ->
     dict_get (ob_dict o) "_args" = Some (VTuple a0) ->
     dict_get (ob_dict o) "_kwargs" = Some (VDict k0) ->
     length a0 <= 1 ->
     bind_args cursor_params a0 kw <> None ->
     dict_get kw "cursor_factory" = Some (VClass c_RenewCursor) ->
     connect_fails drv (set_heap st (heap st ++ [blank c_RetryConnection])) s ca0 ck0 = None ->
     cursor_fails drv {| heap := heap st ++ [fresh_connection ca0 ck0];
                         trace := trace st ++ [EvConnect s ca0 ck0] |} s a0 kw = None ->
     well_linked (heap st') = true).
Proof.
  intros Hw Hl st'.
  pose proof (well_linked_lookup _ _ _ Hw Hl) as Ht.
  split; [|split].
  - intros a0 k0 Hc Ha Hk. unfold st'.
    change (7 + n) with (S (S (S (S (S (S (S n))))))).
    rewrite (solve_on_connection drv (S (S n)) st a o a0 k0 Hl Ht Hc Ha Hk).
    destruct (connect_fails drv _ _ a0 k0) as [e|]; cbn [snd heap].
    + apply well_linked_app; [exact Hw|reflexivity].
    + unfold renewed. cbn [heap].
      replace (length (heap st)) with (length (heap st) + 0) at 1 by lia.
      apply (well_linked_after_renewal (heap st) a o [fresh_connection a0 k0] 0 Hw Hl);
        [reflexivity|simpl; lia].
  - intros c oc a0 k0 Hc Hs Hconn Hlc Hcc Hsc Hclc Ha Hk Hlen Hbind Hkw Hok.
    pose proof (well_linked_lookup _ _ _ Hw Hlc) as Htc.
    unfold st'. change (7 + n) with (S (S (S (S (S (S (S n))))))).
    rewrite (renew_cursor_same_connection drv n st a o c oc a0 k0 Hl Ht Hc Hs Hconn
               Hlc Htc Hcc Hsc Hclc Ha Hk Hlen Hbind Hkw Hok).
    cbn [snd]. unfold cursor_renewed. cbn [heap].
    replace (length (heap st)) with (length (heap st) + 0) at 1 by lia.
    apply (well_linked_after_renewal (heap st) a o
             [fresh_cursor c a0 (resolved_kwargs oc k0)] 0 Hw Hl);
      [reflexivity|simpl; lia].
  - intros c oc ca0 ck0 a0 k0 kw s Hc Hs Hconn Hlc Hcc Hsc Hclc Hca Hck Ha Hk Hlen
      Hbind Hkw Hconnect Hcursor.
    pose proof (well_linked_lookup _ _ _ Hw Hlc) as Htc.
    unfold st'.
    rewrite (proj1 (renew_cursor_new_connection drv n st a o c oc ca0 ck0 a0 k0
                      Hl Ht Hc Hs Hconn Hlc Htc Hcc Hsc Hclc Hca Hck Ha Hk Hlen
                      Hbind Hkw Hconnect Hcursor)).
    cbn [snd]. unfold cursor_reconnected. cbn [heap].
    replace (S (length (heap st))) with (length (heap st) + 1) by lia.
    apply (well_linked_after_renewal (heap st) a o
             [fresh_connection ca0 ck0; fresh_cursor (length (heap st)) a0 kw] 1 Hw Hl);
      [reflexivity|simpl; lia].
Qed.

Lemma renewal_keeps_tidy_witness :
  well_linked (heap st_renewed) = true.
Proof.
  destruct (renewal_keeps_the_heap_tidy quiet 0 st_both_closed 1 (cur_obj 0 true []))
    as (_ & _ & H).
  - reflexivity.
  - reflexivity.
  - apply (H 0 (conn_obj true []) [VStr "dbname=test"] [] []
             [("cursor_factory", VClass c_RenewCursor)]);
      first [reflexivity | simpl; lia | vm_compute; discriminate].
Defined.

(** ** Closing a handle *)

Lemma handle_read_closed n h a o len :
  h !! a = Some o -> tidy_at a len o = true -> is_handle (ob_class o) = true ->
  getattribute (S (S (S n))) h a "closed" =
  match successor o with
  | Some s => getattribute (S (S n)) h s "closed"
  | None => Ret (member_value h o "closed")
  end.
Proof.
  intros Hl Ht Hh.
  destruct (ob_class o) eqn:Hc; try discriminate.
  - rewrite (cur_read_delegated h a o len Hl Ht Hc n) by (simpl; auto). reflexivity.
  - rewrite (conn_read_closed h a o len Hl Ht Hc).
    unfold member_value. rewrite Hc. reflexivity.
Qed.

Lemma close_is_driver_close drv n st a o :
  heap st !! a = Some o -> tidy_at a (length (heap st)) o = true ->
  is_handle (ob_class o) = true ->
  invoke drv (S n) (VRef a) "close" [] [] st = base_close drv a st.
Proof.
  intros Hl Ht Hh. unfold invoke, bind, getattr, lift. cbn [getattr_value].
  rewrite (read_close n (heap st) a o _ Hl Ht).
  destruct o as [c cl cn cf d]; simpl in *.
  destruct c; try discriminate; reflexivity.
Qed.

(** A closed handle reports closed. *)
Lemma closed_handle_reports_closed h o :
  is_handle (ob_class o) = true ->
  member_value h (with_closed o true) "closed" = VBool true.
Proof.
  intros Hh. unfold member_value. cbn [ob_class ob_closed with_closed String.eqb Ascii.eqb Bool.eqb].
  destruct (ob_class o); try discriminate; reflexivity.
Qed.

(** What an object reports as [closed] changes with the closing of
    another object only if that one is its connection. *)
Lemma member_closed_insert h a x o :
  ob_connection o <> VRef a ->
  member_value (<[a := x]> h) o "closed" = member_value h o "closed".
Proof.
  intros Hne. unfold member_value, connection_closed.
  cbn [String.eqb Ascii.eqb Bool.eqb].
  destruct (ob_connection o) as [| | | | |c| | |]; try reflexivity.
  rewrite list_lookup_insert_ne by congruence. reflexivity.
Qed.

(** X14. [close()] on a [RenewCursor] or [RetryConnection] (the driver's
    close, by the order of the bases at lines 143 and 206) closes the
    handle's own driver object and nothing else.  A handle without
    successor then reports closed.  A handle with a successor keeps
    reporting what the successor reports: the successor is not touched,
    and unless it is a cursor of the very handle that was closed it
    reports what it did before, so a renewed handle that has been closed
    still reads as open when its successor does. *)
Theorem close_closes_only_the_handle
    (drv : driver) (n m : nat) (st : state) (a : addr) (o : obj) :
  heap st !! a = Some o ->
  tidy_at a (length (heap st)) o = true ->
  is_handle (ob_class o) = true ->
  close_fails drv st a = None ->
  let st' := {| heap := <[a := with_closed o true]> (heap st);
                trace := trace st ++ [EvClose a] |} in
  invoke drv (1 + n) (VRef a) "close" [] [] st = (Ret VNone, st') /\
  (successor o = None ->
   getattribute (3 + m) (heap st') a "closed" = Ret (VBool true)) /\
  (forall s os,
     successor o = Some s -> heap st !! s = Some os ->
     tidy_at s (length (heap st)) os = true ->
     is_handle (ob_class os) = true -> successor os = None ->
     heap st' !! s = Some os /\
     getattribute (4 + m) (heap st') a "closed" = getattribute (3 + m) (heap st') s "closed" /\
     getattribute (3 + m) (heap st') s "closed" = Ret (member_value (heap st') os "closed") /\
     (ob_connection os <> VRef a ->
      getattribute (4 + m) (heap st') a "closed" = getattribute (4 + m) (heap st) a "closed")).
Proof.
  intros Hl Ht Hh Hok st'.
  assert (Hlen : a < length (heap st)) by (eapply lookup_lt_Some; eassumption).
  assert (Hl' : heap st' !! a = Some (with_closed o true))
    by (apply list_lookup_insert_eq; exact Hlen).
  assert (Hlen' : length (heap st') = length (heap st))
    by (unfold st'; cbn [heap]; apply length_insert).
  assert (Ht' : tidy_at a (length (heap st')) (with_closed o true) = true)
    by (rewrite Hlen'; exact Ht).
  split; [|split].
  - change (1 + n) with (S n).
    rewrite (close_is_driver_close drv n st a o Hl Ht Hh).
    unfold base_close. rewrite Hok, Hl. reflexivity.
  - intros Hs. change (3 + m) with (S (S (S m))).
    rewrite (handle_read_closed m (heap st') a _ _ Hl' Ht' Hh).
    change (successor (with_closed o true)) with (successor o). rewrite Hs.
    rewrite (closed_handle_reports_closed _ _ Hh). reflexivity.
  - intros s os Hs Hls Hts Hhs Hss.
    pose proof (tidy_successor _ _ _ _ Ht Hs) as Hlt.
    assert (Hls' : heap st' !! s = Some os).
    { unfold st'. cbn [heap]. rewrite list_lookup_insert_ne by lia. exact Hls. }
    assert (Hts' : tidy_at s (length (heap st')) os = true) by (rewrite Hlen'; exact Hts).
    change (4 + m) with (S (S (S (S m)))). change (3 + m) with (S (S (S m))).
    assert (Ha' : getattribute (S (S (S (S m)))) (heap st') a "closed"
                  = getattribute (S (S (S m))) (heap st') s "closed").
    { rewrite (handle_read_closed (S m) (heap st') a _ _ Hl' Ht' Hh).
      change (successor (with_closed o true)) with (successor o). rewrite Hs. reflexivity. }
    assert (Hs' : getattribute (S (S (S m))) (heap st') s "closed"
                  = Ret (member_value (heap st') os "closed")).
    { rewrite (handle_read_closed m (heap st') s os _ Hls' Hts' Hhs), Hss. reflexivity. }
    split; [exact Hls'|]. split; [exact Ha'|]. split; [exact Hs'|].
    intros Hne. rewrite Ha', Hs'.
    rewrite (handle_read_closed (S m) (heap st) a o _ Hl Ht Hh), Hs.
    rewrite (handle_read_closed m (heap st) s os _ Hls Hts Hhs), Hss.
    unfold st'. cbn [heap]. rewrite (member_closed_insert _ _ _ _ Hne). reflexivity.
Qed.

Lemma close_closes_only_the_handle_witness :
  invoke quiet 1 (VRef 1) "close" [] [] st_renewed
  = (Ret VNone,
     {| heap := <[1 := with_closed (cur_obj 0 true [("_sub_obj", VRef 3)]) true]>
                  (heap st_renewed);
        trace := trace st_renewed ++ [EvClose 1] |}) /\
  getattribute 4
    (<[1 := with_closed (cur_obj 0 true [("_sub_obj", VRef 3)]) true]> (heap st_renewed))
    1 "closed" = Ret (VBool false).
Proof.
  destruct (close_closes_only_the_handle quiet 0 0 st_renewed 1
              (cur_obj 0 true [("_sub_obj", VRef 3)]))
    as (Hrun & _ & Hsucc).
  - reflexivity.
  - reflexivity.
  - reflexivity.
  - reflexivity.
  - split; [exact Hrun|].
    destruct (Hsucc 3 (cur_obj 2 false []) eq_refl eq_refl eq_refl eq_refl eq_refl)
      as (_ & Ha & Hs & _).
    exact (eq_trans Ha (eq_trans Hs eq_refl)).
Defined.

(** ** Cursors of a renewed connection *)

(** [cursor()] through a successor, in full. *)
Lemma cursor_via_successor
    (drv : driver) (n : nat) (st : state) (a s : addr) (o os : obj)
    (args : list value) (kwargs : kwargs_t) :
  heap st !! a = Some o -> tidy_at a (length (heap st)) o = true ->
  ob_class o = c_RetryConnection -> successor o = Some s ->
  heap st !! s = Some os -> tidy_at s (length (heap st)) os = true ->
  ob_class os = c_RetryConnection -> successor os = None -> ob_closed os = false ->
  length args <= 1 ->
  bind_args cursor_params args (resolved_kwargs o kwargs) <> None ->
  dict_get (resolved_kwargs o kwargs) "cursor_factory" = Some (VClass c_RenewCursor) ->
  cursor_fails drv st s args (resolved_kwargs o kwargs) = None ->
  call drv (8 + n) c_RetryConnection "cursor" a args kwargs st
  = (Ret (VRef (length (heap st))),
     {| heap := heap st ++ [fresh_cursor s args (resolved_kwargs o kwargs)];
        trace := trace st ++ [EvCursor s args (resolved_kwargs o kwargs)] |}).
Proof.
  intros Hl Ht Hc Hs Hls Hts Hcs Hss Hcls Hlen Hbind Hkw Hok.
  change (8 + n) with (S (S (S (S (S (S (S (S n)))))))).
  rewrite call_RetryConnection_cursor. unfold RetryConnection_cursor.
  unfold bind at 1, getattr, lift. cbn [getattr_value].
  rewrite (conn_read_cursor_factory (heap st) a o _ Hl Ht Hc).
  unfold bind at 1. unfold bind at 1, getattr, lift. cbn [getattr_value].
  rewrite (conn_read_closed (heap st) a o _ Hl Ht Hc), Hs.
  rewrite (conn_read_closed (heap st) s os _ Hls Hts Hcs), Hss, Hcls. cbn [truthy].
  unfold ret at 1.
  transitivity (cursor_through drv (S (S (S n))) s 2 args (resolved_kwargs o kwargs) st).
  { apply (cursor_tail_through_successor drv (S (S n)) st a o s os args
             (resolved_kwargs o kwargs) (VClass c_RenewCursor)); assumption. }
  unfold cursor_through, bind at 1.
  rewrite (driver_makes_RenewCursor drv n st s os args _ Hls) by
    (try assumption; rewrite Hcs; reflexivity).
  unfold store_spec, bind, setattr_value, setattr, store, ret.
  cbn [heap set_heap]. rewrite lookup_fresh. cbn. rewrite insert_fresh, lookup_fresh.
  cbn. rewrite insert_fresh, lookup_fresh. cbn. rewrite insert_fresh, lookup_fresh.
  cbn. rewrite insert_fresh. reflexivity.
Qed.

(** X15. [cursor()] on a connection whose successor is an open connection
    (lines 226-229 and 245-246), with [RenewCursor] as the resolved
    factory and arguments that the driver's [cursor] accepts: the handle does not renew itself again, whatever its own
    driver object reports; the driver makes the cursor on the successor,
    and the cursor returned is bound to the successor and stores the
    arguments of the call. *)
Theorem cursor_of_renewed_connection
    (drv : driver) (n : nat) (st : state) (a s : addr) (o os : obj)
    (args : list value) (kwargs : kwargs_t) :
  heap st !! a = Some o -> tidy_at a (length (heap st)) o = true ->
  ob_class o = c_RetryConnection -> successor o = Some s ->
  heap st !! s = Some os -> tidy_at s (length (heap st)) os = true ->
  ob_class os = c_RetryConnection -> successor os = None -> ob_closed os = false ->
  length args <= 1 ->
  bind_args cursor_params args (resolved_kwargs o kwargs) <> None ->
  dict_get (resolved_kwargs o kwargs) "cursor_factory" = Some (VClass c_RenewCursor) ->
  cursor_fails drv st s args (resolved_kwargs o kwargs) = None ->
  call drv (8 + n) c_RetryConnection "cursor" a args kwargs st
  = (Ret (VRef (length (heap st))),
     {| heap := heap st ++ [fresh_cursor s args (resolved_kwargs o kwargs)];
        trace := trace st ++ [EvCursor s args (resolved_kwargs o kwargs)] |}).
Proof. apply cursor_via_successor. Qed.

Lemma cursor_of_renewed_connection_witness :
  call quiet 8 c_RetryConnection "cursor" 0 [] [] st_conn_successor
  = (Ret (VRef 2),
     {| heap := heap st_conn_successor ++
                [fresh_cursor 1 [] [("cursor_factory", VClass c_RenewCursor)]];
        trace := [EvCursor 1 [] [("cursor_factory", VClass c_RenewCursor)]] |}).
Proof.
  apply (cursor_of_renewed_connection quiet 0 st_conn_successor 0 1
           (conn_obj false [("_sub_obj", VRef 1)]) (conn_obj false []));
    try reflexivity.
  - simpl. lia.
  - vm_compute. discriminate.
Defined.

(** X16. A closed connection reconnects once (for [cursor()] arguments
    that the driver's [cursor] accepts).  The first [cursor()] on a
    closed connection without successor makes the driver connect once and
    then make the cursor on the new connection; a second [cursor()] on the
    same handle finds the successor open and only makes another cursor on
    it: over both calls the trace holds one connect.  Both cursors are
    bound to the new connection. *)
Theorem closed_connection_reconnects_once
    (drv : driver) (n : nat) (st : state) (a : addr) (o : obj)
    (a0 : list value) (k0 : kwargs_t)
    (args : list value) (kwargs : kwargs_t) (args2 : list value) (kwargs2 : kwargs_t) :
  let s := length (heap st) in
  let kw := resolved_kwargs o kwargs in
  let kw2 := resolved_kwargs o kwargs2 in
  let st2 := reconnected_with_cursor st a o a0 k0 args kw in
  heap st !! a = Some o -> tidy_at a (length (heap st)) o = true ->
  ob_class o = c_RetryConnection -> successor o = None -> ob_closed o = true ->
  dict_get (ob_dict o) "_args" = Some (VTuple a0) ->
  dict_get (ob_dict o) "_kwargs" = Some (VDict k0) ->
  connect_fails drv (set_heap st (heap st ++ [blank c_RetryConnection])) s a0 k0 = None ->
  length args <= 1 ->
  bind_args cursor_params args kw <> None ->
  dict_get kw "cursor_factory" = Some (VClass c_RenewCursor) ->
  cursor_fails drv (renewed st a o a0 k0) s args kw = None ->
  length args2 <= 1 ->
  bind_args cursor_params args2 kw2 <> None ->
  dict_get kw2 "cursor_factory" = Some (VClass c_RenewCursor) ->
  cursor_fails drv st2 s args2 kw2 = None ->
  call drv (8 + n) c_RetryConnection "cursor" a args kwargs st = (Ret (VRef (S s)), st2) /\
  call drv (8 + n) c_RetryConnection "cursor" a args2 kwargs2 st2
  = (Ret (VRef (S (S s))),
     {| heap := heap st2 ++ [fresh_cursor s args2 kw2];
        trace := trace st ++ [EvConnect s a0 k0; EvCursor s args kw; EvCursor s args2 kw2] |}).
Proof.
  intros s kw kw2 st2 Hl Ht Hc Hs Hcl Ha Hk Hconnect Hlen Hbind Hkw Hcursor Hlen2 Hbind2 Hkw2 Hcursor2.
  destruct (renewed_shape st a o a0 k0 Hl Ht) as (Hl' & Ht' & Hs' & Hls & Hts).
  assert (Hlenh : length (heap (renewed st a o a0 k0)) = S s).
  { unfold renewed. cbn [heap]. rewrite length_insert, length_app. simpl. unfold s. lia. }
  assert (Ha_lt : a < s) by (eapply lookup_lt_Some; eassumption).
  split.
  - change (8 + n) with (S (S (S (S (S (S (S (S n)))))))).
    rewrite call_RetryConnection_cursor. unfold RetryConnection_cursor.
    unfold bind at 1, getattr, lift. cbn [getattr_value].
    rewrite (conn_read_cursor_factory (heap st) a o _ Hl Ht Hc).
    unfold bind at 1. unfold bind at 1, getattr, lift. cbn [getattr_value].
    rewrite (conn_read_closed (heap st) a o _ Hl Ht Hc), Hs, Hcl. cbn [truthy].
    unfold s in Hconnect.
    rewrite (renew_connection drv (S (S (S n))) st a o a0 k0 Hl Ht Hc Ha Hk Hconnect).
    transitivity (cursor_through drv (S (S (S n))) s 2 args kw (renewed st a o a0 k0)).
    { apply (cursor_tail_through_successor drv (S (S n)) (renewed st a o a0 k0) a
               (with_dict o (dict_set (ob_dict o) "_sub_obj" (VRef (length (heap st)))))
               s (fresh_connection a0 k0) args kw (VClass c_RenewCursor));
        try assumption; reflexivity. }
    unfold cursor_through, bind at 1.
    rewrite (driver_makes_RenewCursor drv n (renewed st a o a0 k0) s
               (fresh_connection a0 k0) args kw Hls eq_refl Hlen Hbind Hkw Hcursor).
    rewrite Hlenh.
    unfold store_spec, bind, setattr_value, setattr, store, ret.
    cbn [heap set_heap]. rewrite <- Hlenh.
    rewrite lookup_fresh. cbn. rewrite insert_fresh, lookup_fresh.
    cbn. rewrite insert_fresh, lookup_fresh. cbn. rewrite insert_fresh, lookup_fresh.
    cbn. rewrite insert_fresh. reflexivity.
  - assert (Hl2 : heap st2 !! a = Some (with_successor o s)).
    { unfold st2, reconnected_with_cursor. cbn [heap].
      rewrite lookup_app_l by (rewrite Hlenh; lia). exact Hl'. }
    assert (Hls2 : heap st2 !! s = Some (fresh_connection a0 k0)).
    { unfold st2, reconnected_with_cursor. cbn [heap].
      rewrite lookup_app_l by (rewrite Hlenh; lia). exact Hls. }
    assert (Hlen2h : length (heap st2) = S (S s)).
    { unfold st2, reconnected_with_cursor. cbn [heap].
      rewrite length_app, Hlenh. simpl. lia. }
    assert (Ht2 : tidy_at a (length (heap st2)) (with_successor o s) = true).
    { eapply tidy_at_longer; [exact Ht'|]. rewrite Hlenh, Hlen2h. lia. }
    pose proof (cursor_via_successor drv n st2 a s (with_successor o s)
                  (fresh_connection a0 k0) args2 kwargs2 Hl2 Ht2 Hc Hs' Hls2 eq_refl
                  eq_refl eq_refl eq_refl Hlen2 Hbind2 Hkw2 Hcursor2) as Hrun.
    rewrite Hrun. rewrite Hlen2h.
    unfold st2 at 2, reconnected_with_cursor, renewed. cbn [trace].
    rewrite <- !app_assoc. reflexivity.
Qed.

Lemma closed_connection_reconnects_once_witness :
  exists st2,
    call quiet 8 c_RetryConnection "cursor" 0 [VStr "c1"] [] st_conn_closed
    = (Ret (VRef 3), st2) /\
    fst (call quiet 8 c_RetryConnection "cursor" 0 [VStr "c2"] [] st2) = Ret (VRef 4) /\
    trace (snd (call quiet 8 c_RetryConnection "cursor" 0 [VStr "c2"] [] st2))
    = [EvConnect 2 [VStr "dbname=test"] [];
       EvCursor 2 [VStr "c1"] [("cursor_factory", VClass c_RenewCursor)];
       EvCursor 2 [VStr "c2"] [("cursor_factory", VClass c_RenewCursor)]].
Proof.
  destruct (closed_connection_reconnects_once quiet 0 st_conn_closed 0 (conn_obj true [])
              [VStr "dbname=test"] [] [VStr "c1"] [] [VStr "c2"] [])
    as (H1 & H2).
  - reflexivity.
  - reflexivity.
  - reflexivity.
  - reflexivity.
  - reflexivity.
  - reflexivity.
  - reflexivity.
  - reflexivity.
  - reflexivity.
  - vm_compute. discriminate.
  - reflexivity.
  - reflexivity.
  - reflexivity.
  - vm_compute. discriminate.
  - reflexivity.
  - reflexivity.
  - eexists. split; [exact H1|]. split.
    + exact (f_equal fst H2).
    + exact (f_equal (fun r => trace (snd r)) H2).
Defined.

(** ** Renewal, then execute *)

(** X17. Renewal heals a cursor when it is reached.  A cursor whose
    connection is open, whatever the cursor itself reports, renews itself
    through [solve_conn_curs] (its stored arguments being such that the
    driver's [cursor] accepts them); [execute] on the same handle then passes
    both checks (it reports what its successor reports) and runs the
    statement once, on the successor, when the driver's [execute]
    succeeds. *)
Theorem renewed_cursor_executes_on_successor
    (drv : driver) (n : nat) (st : state) (a : addr) (o : obj) (c : addr) (oc : obj)
    (a0 : list value) (k0 : kwargs_t) (args : list value) (kwargs : kwargs_t) :
  let st' := cursor_renewed st a o c a0 (resolved_kwargs oc k0) in
  let s := length (heap st) in
  heap st !! a = Some o -> tidy_at a (length (heap st)) o = true ->
  ob_class o = c_RenewCursor -> successor o = None ->
  ob_connection o = VRef c ->
  heap st !! c = Some oc -> tidy_at c (length (heap st)) oc = true ->
  ob_class oc = c_RetryConnection -> successor oc = None -> ob_closed oc = false ->
  dict_get (ob_dict o) "_args" = Some (VTuple a0) ->
  dict_get (ob_dict o) "_kwargs" = Some (VDict k0) ->
  length a0 <= 1 ->
  bind_args cursor_params a0 (resolved_kwargs oc k0) <> None ->
  dict_get (resolved_kwargs oc k0) "cursor_factory" = Some (VClass c_RenewCursor) ->
  cursor_fails drv st c a0 (resolved_kwargs oc k0) = None ->
  execute_fails drv st' s args kwargs = None ->
  call drv (7 + n) c_BaseRenew "solve_conn_curs" a [VRef a] [] st = (Ret VNone, st') /\
  call drv (6 + n) c_RenewCursor "execute" a args kwargs st'
  = (Ret VNone, log st' (EvExecute s args kwargs)).
Proof.
  intros st' s Hl Ht Hc Hs Hconn Hlc Htc Hcc Hsc Hclc Ha Hk Hlen Hbind Hkw Hok Hexec.
  split; [apply renew_cursor_same_connection; assumption|].
  assert (Ha_lt : a < length (heap st)) by (eapply lookup_lt_Some; eassumption).
  assert (Hc_lt : c < length (heap st)) by (eapply lookup_lt_Some; eassumption).
  assert (Hne : a <> c) by (intros ->; congruence).
  assert (Hlen' : length (heap st') = S (length (heap st))).
  { unfold st', cursor_renewed. cbn [heap]. rewrite length_insert, length_app. simpl. lia. }
  assert (Hl' : heap st' !! a = Some (with_successor o s)).
  { unfold st', cursor_renewed. cbn [heap]. apply list_lookup_insert_eq.
    rewrite length_app. simpl. lia. }
  assert (Hls : heap st' !! s = Some (fresh_cursor c a0 (resolved_kwargs oc k0))).
  { unfold st', cursor_renewed, s. cbn [heap].
    rewrite list_lookup_insert_ne by lia. apply lookup_fresh. }
  assert (Hlc' : heap st' !! c = Some oc).
  { unfold st', cursor_renewed. cbn [heap].
    rewrite list_lookup_insert_ne by exact Hne. rewrite lookup_app_l by exact Hc_lt.
    exact Hlc. }
  assert (Ht' : tidy_at a (length (heap st')) (with_successor o s) = true).
  { apply tidy_with_successor; [|unfold s; lia|rewrite Hlen'; unfold s; lia].
    eapply tidy_at_longer; [exact Ht|]. rewrite Hlen'. lia. }
  assert (Htc' : tidy_at c (length (heap st')) oc = true).
  { eapply tidy_at_longer; [exact Htc|]. rewrite Hlen'. lia. }
  apply (execute_via_successor drv n st' a s (with_successor o s)
           (fresh_cursor c a0 (resolved_kwargs oc k0)) args kwargs (VBool false));
    try assumption; try reflexivity.
  - unfold successor, with_successor. cbn [ob_dict with_dict].
    rewrite dict_get_set_same. reflexivity.
  - unfold connection_closed.
    cbn [ob_connection fresh_cursor with_dict with_connection].
    rewrite Hlc', Hclc. apply andb_false_r.
  - cbn [ob_connection fresh_cursor with_dict with_connection getattr_value].
    change (3 + n) with (S (S (S n))).
    rewrite (conn_read_closed (heap st') c oc _ Hlc' Htc' Hcc), Hsc, Hclc. reflexivity.
Qed.

Lemma renewed_cursor_executes_witness :
  exists st',
    call quiet 7 c_BaseRenew "solve_conn_curs" 1 [VRef 1] [] st_cur_closed
    = (Ret VNone, st') /\
    call quiet 6 c_RenewCursor "execute" 1 select1 [] st'
    = (Ret VNone, log st' (EvExecute 2 select1 [])).
Proof.
  destruct (renewed_cursor_executes_on_successor quiet 0 st_cur_closed 1
              (cur_obj 0 true []) 0 (conn_obj false []) []
              [("cursor_factory", VClass c_RenewCursor)] select1 [])
    as (H1 & H2).
  - reflexivity.
  - reflexivity.
  - reflexivity.
  - reflexivity.
  - reflexivity.
  - reflexivity.
  - reflexivity.
  - reflexivity.
  - reflexivity.
  - reflexivity.
  - reflexivity.
  - reflexivity.
  - simpl. lia.
  - vm_compute. discriminate.
  - reflexivity.
  - reflexivity.
  - reflexivity.
  - eexists. split; [exact H1|exact H2].
Defined.

(** ** A reconnect that fails *)

(** X18. When the driver's connect raises during the renewal of a
    connection (line 129), the error reaches the caller of
    [solve_conn_curs], and of [cursor()] on a closed connection (line
    227), as it is.  No successor is attached: the handle is exactly as
    before, and [cursor()] has not asked the driver for a cursor. *)
Theorem failed_reconnect_surfaces
    (drv : driver) (n : nat) (st : state) (a : addr) (o : obj)
    (a0 : list value) (k0 : kwargs_t) (args : list value) (kwargs : kwargs_t) (e : exn) :
  heap st !! a = Some o ->
  tidy_at a (length (heap st)) o = true ->
  ob_class o = c_RetryConnection ->
  dict_get (ob_dict o) "_args" = Some (VTuple a0) ->
  dict_get (ob_dict o) "_kwargs" = Some (VDict k0) ->
  connect_fails drv (set_heap st (heap st ++ [blank c_RetryConnection]))
    (length (heap st)) a0 k0 = Some e ->
  let st' := {| heap := heap st ++ [blank c_RetryConnection];
                trace := trace st ++ [EvConnect (length (heap st)) a0 k0] |} in
  call drv (5 + n) c_BaseRenew "solve_conn_curs" a [VRef a] [] st = (Raise e, st') /\
  heap st' !! a = Some o /\
  (successor o = None -> ob_closed o = true ->
   call drv (6 + n) c_RetryConnection "cursor" a args kwargs st = (Raise e, st')).
Proof.
  intros Hl Ht Hc Ha Hk Hfail st'.
  assert (Hlen : a < length (heap st)) by (eapply lookup_lt_Some; eassumption).
  assert (Hsolve : call drv (S (S (S (S (S n))))) c_BaseRenew "solve_conn_curs" a
                     [VRef a] [] st = (Raise e, st')).
  { rewrite call_solve. unfold solve_conn_curs.
    unfold bind, getattr, lift. cbn [getattr_value].
    rewrite !(conn_read_class (heap st) a o _ Hl Ht Hc).
    change (issubclass_value (VClass c_RetryConnection) c_base_cursor) with false.
    cbv beta iota.
    rewrite !(conn_read_class (heap st) a o _ Hl Ht Hc).
    change (issubclass_value (VClass c_RetryConnection) c_base_connection) with true.
    cbv beta iota.
    rewrite !(conn_read_class (heap st) a o _ Hl Ht Hc).
    destruct (conn_read_stored (heap st) a o _ Hl Ht Hc (S (S n))) as [Hra Hrk].
    rewrite Hra, Hrk, Ha, Hk. unfold unpack_args, unpack_kwargs, ret.
    unfold call_value.
    rewrite (construct_connection drv (S n) st a0 k0). cbv zeta. rewrite Hfail.
    reflexivity. }
  split; [exact Hsolve|]. split.
  - unfold st'. cbn [heap]. rewrite lookup_app_l by exact Hlen. exact Hl.
  - intros Hs Hcl. change (6 + n) with (S (S (S (S (S (S n)))))).
    rewrite call_RetryConnection_cursor. unfold RetryConnection_cursor.
    unfold bind at 1, getattr, lift. cbn [getattr_value].
    rewrite (conn_read_cursor_factory (heap st) a o _ Hl Ht Hc).
    unfold bind at 1. unfold bind at 1, getattr, lift. cbn [getattr_value].
    rewrite (conn_read_closed (heap st) a o _ Hl Ht Hc), Hs, Hcl. cbn [truthy].
    unfold renew_self. unfold bind at 1, getattr, lift. cbn [getattr_value].
    rewrite (conn_read_method (heap st) a o _ Hl Ht Hc) by (simpl; auto).
    cbn [String.eqb Ascii.eqb Bool.eqb]. unfold call_value at 1.
    unfold bind at 1. rewrite Hsolve. reflexivity.
Qed.

Lemma failed_reconnect_witness :
  let e := {| e_class := DriverError; e_msg := "could not connect to server"; e_id := 9 |} in
  let drv := {| connect_fails := fun _ _ _ _ => Some e;
                cursor_fails := fun _ _ _ _ => None;
                execute_fails := fun _ _ _ _ => None;
                session_lost := fun _ _ _ _ => false;
                close_fails := fun _ _ => None |} in
  call drv 6 c_RetryConnection "cursor" 0 [] [] st_conn_closed
  = (Raise e,
     {| heap := heap st_conn_closed ++ [blank c_RetryConnection];
        trace := [EvConnect 2 [VStr "dbname=test"] []] |}).
Proof.
  cbv zeta.
  destruct (failed_reconnect_surfaces
              {| connect_fails := fun _ _ _ _ =>
                   Some {| e_class := DriverError;
                           e_msg := "could not connect to server"; e_id := 9 |};
                 cursor_fails := fun _ _ _ _ => None;
                 execute_fails := fun _ _ _ _ => None;
                 session_lost := fun _ _ _ _ => false;
                 close_fails := fun _ _ => None |}
              0 st_conn_closed 0 (conn_obj true []) [VStr "dbname=test"] [] [] []
              {| e_class := DriverError; e_msg := "could not connect to server"; e_id := 9 |})
    as (_ & _ & H).
  - reflexivity.
  - reflexivity.
  - reflexivity.
  - reflexivity.
  - reflexivity.
  - reflexivity.
  - exact (H eq_refl eq_refl).
Defined.

(** ** RetryConnection.cursor, in full *)













